(** * Swap execution engine of the AI crypto hedge-fund manager

    A shallow embedding of the ETH/USDC swap services
    ([src/services/swap_service/eth_usdc.py], [.../usdc_eth.py]), of the
    two swap agents ([src/agents/swap/eth_usdc.py], [.../usdc_eth.py]) and
    of [src/utils/errors.py], followed by the properties of the swap
    engine that the design document states about them.

    Python [float] is IEEE binary64 and is modelled by Rocq's primitive
    floats, Python [int] by [Z].  A method is a computation over the
    state of the world (the ledger behind the web3 handle, the RPC calls
    made so far, the log) that returns a value or raises: the world a
    raising call leaves behind is kept, as in Python. *)

From Stdlib Require Import ZArith List String Bool Lia DecimalString.
From Stdlib Require Import Floats.
From Stdlib Require QArith Qround.
Import ListNotations.
(* A decimal literal such as 0.01 denotes the nearest double, as in Python. *)
#[local] Set Warnings "-inexact-float".
Local Open Scope string_scope.
Local Open Scope list_scope.
Local Open Scope Z_scope.

(** ** Python values and control *)

Module Py.

(** Messages of the exceptions the code builds: a literal, or the
    f-string of the balance check with its two interpolated floats. *)
Inductive message :=
| Lit (s : string)
| Insufficient (token : string) (have need : float).

(** The exceptions that occur.  [BlockchainError prefix cause] is
    [BlockchainError(f"{prefix}: {e}")] built in an [except Exception as e]
    handler. *)
Inductive exn :=
| ValueError (m : message)
| OverflowError
| ZeroDivisionError
| NameError (name : string)
| ImportError (name : string)
| TimeExhausted
| TransactionNotFound
| BlockchainError (prefix : string) (cause : exn).

Inductive outcome (A : Type) :=
| Return (a : A)
| Raise (e : exn).
Arguments Return {A} a.
Arguments Raise {A} e.

(** [float(n)] for an [int]: round to nearest even, [OverflowError] when
    the integer is too large for a double. *)
Definition float_of_int (n : Z) : outcome float :=
  match binary_normalize prec emax n 0 false with
  | S754_infinity _ => Raise OverflowError
  | sf => Return (SF2Prim sf)
  end.

(** [int(x)] for a [float]: truncation towards zero; infinities and NaN
    raise. *)
Definition int_of_float (x : float) : outcome Z :=
  match Prim2SF x with
  | S754_zero _ => Return 0
  | S754_finite s m e =>
      let a := match e with
               | Zneg p => Z.shiftr (Zpos m) (Zpos p)
               | _ => Z.shiftl (Zpos m) e
               end in
      Return (if s then - a else a)
  | S754_infinity _ => Raise OverflowError
  | S754_nan => Raise (ValueError (Lit "cannot convert float NaN to integer"))
  end.

(** [x / y] on floats: Python raises on a zero divisor instead of
    returning an infinity or NaN. *)
Definition truediv (x y : float) : outcome float :=
  if (y =? 0)%float then Raise ZeroDivisionError else Return (x / y)%float.

(** Truthiness of a string. *)
Definition truthy (s : string) : bool :=
  match s with EmptyString => false | _ => true end.

End Py.
Export Py.

(** ** [src/utils/errors.py] *)

Module Errors.

(** The names bound at module level when [format_error] runs: the
    imports of line 8, the ten classes and the function itself. *)
Definition module_globals : list string :=
  [ "Optional"; "Any"; "Dict";
    "BaseError"; "APIError"; "MessageHandlingError"; "ConfigurationError";
    "BlockchainError"; "CommunicationError"; "DataValidationError";
    "SwapError"; "LLMError"; "AuthenticationError";
    "format_error" ].

(** The names of Python's [builtins] module. *)
Definition builtins : list string :=
  [ "ArithmeticError"; "AssertionError"; "AttributeError"; "BaseException";
    "BaseExceptionGroup"; "BlockingIOError"; "BrokenPipeError"; "BufferError";
    "BytesWarning"; "ChildProcessError"; "ConnectionAbortedError";
    "ConnectionError"; "ConnectionRefusedError"; "ConnectionResetError";
    "DeprecationWarning"; "EOFError"; "Ellipsis"; "EncodingWarning";
    "EnvironmentError"; "Exception"; "ExceptionGroup"; "False";
    "FileExistsError"; "FileNotFoundError"; "FloatingPointError";
    "FutureWarning"; "GeneratorExit"; "IOError"; "ImportError";
    "ImportWarning"; "IndentationError"; "IndexError"; "InterruptedError";
    "IsADirectoryError"; "KeyError"; "KeyboardInterrupt"; "LookupError";
    "MemoryError"; "ModuleNotFoundError"; "NameError"; "None";
    "NotADirectoryError"; "NotImplemented"; "NotImplementedError"; "OSError";
    "OverflowError"; "PendingDeprecationWarning"; "PermissionError";
    "ProcessLookupError"; "RecursionError"; "ReferenceError";
    "ResourceWarning"; "RuntimeError"; "RuntimeWarning";
    "StopAsyncIteration"; "StopIteration"; "SyntaxError"; "SyntaxWarning";
    "SystemError"; "SystemExit"; "TabError"; "TimeoutError"; "True";
    "TypeError"; "UnboundLocalError"; "UnicodeDecodeError";
    "UnicodeEncodeError"; "UnicodeError"; "UnicodeTranslateError";
    "UnicodeWarning"; "UserWarning"; "ValueError"; "Warning";
    "ZeroDivisionError"; "__build_class__"; "__debug__"; "__doc__";
    "__import__"; "__loader__"; "__name__"; "__package__"; "__spec__";
    "abs"; "aiter"; "all"; "anext"; "any"; "ascii"; "bin"; "bool";
    "breakpoint"; "bytearray"; "bytes"; "callable"; "chr"; "classmethod";
    "compile"; "complex"; "copyright"; "credits"; "delattr"; "dict"; "dir";
    "divmod"; "enumerate"; "eval"; "exec"; "exit"; "filter"; "float";
    "format"; "frozenset"; "getattr"; "globals"; "hasattr"; "hash"; "help";
    "hex"; "id"; "input"; "int"; "isinstance"; "issubclass"; "iter"; "len";
    "license"; "list"; "locals"; "map"; "max"; "memoryview"; "min"; "next";
    "object"; "oct"; "open"; "ord"; "pow"; "print"; "property"; "quit";
    "range"; "repr"; "reversed"; "round"; "set"; "setattr"; "slice";
    "sorted"; "staticmethod"; "str"; "sum"; "super"; "tuple"; "type";
    "vars"; "zip" ].

Definition bound (name : string) (scope : list string) : bool :=
  existsb (String.eqb name) scope.

(** Loading a global name: the module's globals, then the builtins, else
    [NameError]. *)
Definition load_global (name : string) : outcome string :=
  if bound name module_globals || bound name builtins
  then Return name
  else Raise (NameError name).

(** An exception object as [format_error] reads it: its class with the
    classes it inherits from, [str(error)], and the [message] and
    [details] attributes of a [BaseError]. *)
Record exception := {
  exc_class : string;
  exc_bases : list string;
  exc_str : string;
  exc_message : string;
  exc_details : list (string * string)
}.

Definition isinstance (e : exception) (cls : string) : bool :=
  String.eqb (exc_class e) cls || bound cls (exc_bases e).

(** The dictionary [format_error] builds. *)
Record error_dict := {
  error : string;
  message : string;
  details : list (string * string)
}.

(** [format_error], lines 67-90.  The arguments of [isinstance] are
    evaluated before the call: [error] is a local, [CryptoAgentError] a
    global load. *)
Definition format_error (err : exception) : outcome error_dict :=
  match load_global "CryptoAgentError" with
  | Raise e => Raise e
  | Return cls =>
      if isinstance err cls
      then Return {| error := exc_class err;
                     message := exc_message err;
                     details := exc_details err |}
      else Return {| error := exc_class err;
                     message := exc_str err;
                     details := [] |}
  end.

End Errors.

(** ** The ledger behind the web3 handle *)

Module Ledger.

Definition address := string.

(** [config/settings.py] and the Permit2 address of the USDC services. *)
Definition USDC_ADDRESS : address := "0x833589fCD6eDb6E08f4c7C32D4f71b54bdA02913".
Definition WETH_ADDRESS : address := "0x4200000000000000000000000000000000000006".
Definition UNIVERSAL_ROUTER_ADDRESS : address := "0x3fC91A3afd70395Cd496C647d5a6CC9D4B2b7FAD".
Definition PERMIT2_ADDRESS : address := "0x000000000022D473030F116dDEE9F6B43aC78BA3".
Definition BASE_CHAIN_ID : Z := 8453.

(** *** The Universal Router codec

    [codec.encode.chain()] starts an empty command chain, every chained
    method appends one command, [build(deadline)] wraps the chain in the
    router's [execute(commands, inputs, deadline)] call. *)

Inductive FunctionRecipient := SENDER | ROUTER.

Inductive command :=
| WRAP_ETH (recipient : FunctionRecipient) (amount : Z)
| V2_SWAP_EXACT_IN (recipient : FunctionRecipient) (amount_in amount_out_min : Z)
                   (path : list address) (payer_is_sender : bool)
| UNWRAP_WETH (recipient : FunctionRecipient) (amount_min : Z).

Definition chain : list command := [].
Definition wrap_eth (c : list command) (r : FunctionRecipient) (amount : Z) :=
  c ++ [WRAP_ETH r amount].
Definition v2_swap_exact_in (c : list command) (r : FunctionRecipient)
  (amount_in amount_out_min : Z) (path : list address) (payer_is_sender : bool) :=
  c ++ [V2_SWAP_EXACT_IN r amount_in amount_out_min path payer_is_sender].
Definition unwrap_weth (c : list command) (r : FunctionRecipient) (amount_min : Z) :=
  c ++ [UNWRAP_WETH r amount_min].

Inductive calldata :=
| Execute (commands : list command) (deadline : Z)
| Approve (spender : address) (amount : Z).

Definition build (c : list command) (deadline : Z) : calldata := Execute c deadline.

(** *** Transactions and receipts *)

(** The dictionary handed to [sign_transaction]; [tx_type] is the
    ["type"] key, absent from the approval built by [build_transaction]. *)
Record transaction := {
  tx_from : address;
  tx_to : address;
  tx_gas : Z;
  tx_maxPriorityFeePerGas : Z;
  tx_maxFeePerGas : Z;
  tx_type : option string;
  tx_chainId : Z;
  tx_value : Z;
  tx_nonce : Z;
  tx_data : calldata
}.

Record receipt := {
  blockNumber : Z;
  status : Z;
  gasUsed : Z
}.

(** What the model leaves open of the web3 library and of the node:
    [to_wei(x, 'ether')] on a float (it goes through [str(x)]), the hash
    of a transaction, whether and how the node mines a transaction while
    [wait_for_transaction_receipt] polls (none: the 120 s run out), and
    what [get_transaction_receipt] does for a hash without receipt
    ([None] in old releases, [TransactionNotFound] since). *)
Record web3 := {
  to_wei_ether : float -> outcome Z;
  hash_of : transaction -> string;
  confirms : transaction -> option receipt;
  missing_receipt : outcome (option receipt)
}.

Inductive block_identifier := latest | pending.

(** The state of the chain as seen from the signer's account. *)
Record chain_state := {
  eth_wei : Z;
  usdc_raw : Z;
  allowances : address -> Z;
  mined : list (transaction * receipt);
  mempool : list transaction;
  head : Z;
  base_gas_price : Z;
  priority_fee : Z;
  now : Z
}.

(** The calls that leave the process. *)
Inductive rpc :=
| eth_getBalance
| call_balanceOf
| call_allowance (spender : address)
| eth_getTransactionCount (b : block_identifier)
| eth_gasPrice
| eth_maxPriorityFeePerGas
| eth_sendRawTransaction (t : transaction)
| eth_getTransactionReceipt (h : string)
| eth_waitForReceipt (h : string)
| eth_blockNumber
| fetch_price.

Inductive level := INFO | WARNING | ERROR.

Record world := {
  w3 : web3;
  rate_source : outcome float;
  state : chain_state;
  calls : list rpc;
  log : list (level * string)
}.

(** *** Computations *)

Definition M (A : Type) : Type := world -> outcome A * world.

Definition ret {A} (a : A) : M A := fun w => (Return a, w).
Definition raise {A} (e : exn) : M A := fun w => (Raise e, w).
Definition lift {A} (o : outcome A) : M A := fun w => (o, w).
Definition bind {A B} (m : M A) (k : A -> M B) : M B :=
  fun w => match m w with
           | (Return a, w') => k a w'
           | (Raise e, w') => (Raise e, w')
           end.
(** [try: m except Exception as e: h e]. *)
Definition try {A} (m : M A) (h : exn -> M A) : M A :=
  fun w => match m w with
           | (Return a, w') => (Return a, w')
           | (Raise e, w') => h e w'
           end.

Declare Scope py_scope.
Delimit Scope py_scope with py.
Notation "x <- m ;; k" := (bind m (fun x => k))
  (at level 61, m at next level, right associativity) : py_scope.
Notation "m ;;; k" := (bind m (fun _ => k))
  (at level 61, right associativity) : py_scope.
Local Open Scope py_scope.

Definition set_state (s : chain_state) (w : world) : world :=
  {| w3 := w3 w; rate_source := rate_source w; state := s;
     calls := calls w; log := log w |}.
Definition with_call (r : rpc) (w : world) : world :=
  {| w3 := w3 w; rate_source := rate_source w; state := state w;
     calls := calls w ++ [r]; log := log w |}.
Definition with_log (l : level) (msg : string) (w : world) : world :=
  {| w3 := w3 w; rate_source := rate_source w; state := state w;
     calls := calls w; log := log w ++ [(l, msg)] |}.
Definition call (r : rpc) : M unit := fun w => (Return tt, with_call r w).
Definition logger (l : level) (msg : string) : M unit :=
  fun w => (Return tt, with_log l msg w).
Definition read {A} (f : world -> A) : M A := fun w => (Return (f w), w).
(** A read that may raise. *)
Definition ask {A} (f : world -> outcome A) : M A := fun w => (f w, w).

Definition to_hex (h : string) : string := String.append "0x" h.

(** [web3.eth.get_balance(account)]. *)
Definition get_balance : M Z :=
  call eth_getBalance ;;; read (fun w => eth_wei (state w)).
(** [usdc_contract.functions.balanceOf(account).call()]. *)
Definition balanceOf : M Z :=
  call call_balanceOf ;;; read (fun w => usdc_raw (state w)).
(** [usdc_contract.functions.allowance(account, spender).call()]. *)
Definition allowance (spender : address) : M Z :=
  call (call_allowance spender) ;;; read (fun w => allowances (state w) spender).

(** [web3.eth.get_transaction_count(account, block_identifier)]: without
    a block identifier web3 uses its [default_block], ['latest'], which
    counts the mined transactions only; ['pending'] adds those waiting in
    the pool. *)
Definition transaction_count (b : block_identifier) (s : chain_state) : Z :=
  match b with
  | latest => Z.of_nat (List.length (mined s))
  | pending => Z.of_nat (List.length (mined s)) + Z.of_nat (List.length (mempool s))
  end.
Definition get_transaction_count (b : option block_identifier) : M Z :=
  let b := match b with Some b => b | None => latest end in
  call (eth_getTransactionCount b) ;;; read (fun w => transaction_count b (state w)).

Definition gas_price : M Z :=
  call eth_gasPrice ;;; read (fun w => base_gas_price (state w)).
Definition max_priority_fee : M Z :=
  call eth_maxPriorityFeePerGas ;;; read (fun w => priority_fee (state w)).
Definition block_number : M Z :=
  call eth_blockNumber ;;; read (fun w => head (state w)).
(** [codec.get_default_deadline()]: the clock plus the library's 180 s. *)
Definition get_default_deadline : M Z := read (fun w => now (state w) + 180).

Definition pool (t : transaction) (s : chain_state) : chain_state :=
  {| eth_wei := eth_wei s; usdc_raw := usdc_raw s;
     allowances := allowances s; mined := mined s;
     mempool := mempool s ++ [t]; head := head s;
     base_gas_price := base_gas_price s;
     priority_fee := priority_fee s; now := now s |}.
(** [web3.eth.send_raw_transaction(sign_transaction(t, key).rawTransaction)]:
    the transaction joins the pool, its hash comes back. *)
Definition send_raw_transaction (t : transaction) : M string :=
  call (eth_sendRawTransaction t) ;;;
  fun w => (Return (hash_of (w3 w) t), set_state (pool t (state w)) w).

Fixpoint find_mined (hx : web3) (h : string) (l : list (transaction * receipt))
  : option receipt :=
  match l with
  | [] => None
  | (t, r) :: l' => if String.eqb (to_hex (hash_of hx t)) h then Some r
                    else find_mined hx h l'
  end.
Fixpoint find_pending (hx : web3) (h : string) (l : list transaction)
  : option transaction :=
  match l with
  | [] => None
  | t :: l' => if String.eqb (to_hex (hash_of hx t)) h then Some t
               else find_pending hx h l'
  end.
Fixpoint remove_pending (hx : web3) (h : string) (l : list transaction)
  : list transaction :=
  match l with
  | [] => []
  | t :: l' => if String.eqb (to_hex (hash_of hx t)) h then l'
               else t :: remove_pending hx h l'
  end.

(** The effect of mining [t] with receipt [r]: it leaves the pool, and a
    successful [approve] sets the allowance of its spender. *)
Definition mine (hx : web3) (t : transaction) (r : receipt) (s : chain_state)
  : chain_state :=
  {| eth_wei := eth_wei s; usdc_raw := usdc_raw s;
     allowances :=
       match tx_data t with
       | Approve spender amount =>
           if status r =? 1
           then fun a => if String.eqb a spender then amount else allowances s a
           else allowances s
       | Execute _ _ => allowances s
       end;
     mined := mined s ++ [(t, r)];
     mempool := remove_pending hx (to_hex (hash_of hx t)) (mempool s);
     head := Z.max (head s) (blockNumber r);
     base_gas_price := base_gas_price s;
     priority_fee := priority_fee s; now := now s |}.

(** [web3.eth.wait_for_transaction_receipt(h, timeout=120)]. *)
Definition polled (h : string) (w : world) : outcome receipt * world :=
  match find_mined (w3 w) h (mined (state w)) with
  | Some r => (Return r, w)
  | None =>
      match find_pending (w3 w) h (mempool (state w)) with
      | Some t =>
          match confirms (w3 w) t with
          | Some r => (Return r, set_state (mine (w3 w) t r (state w)) w)
          | None => (Raise TimeExhausted, w)
          end
      | None => (Raise TimeExhausted, w)
      end
  end.
Definition wait_for_transaction_receipt (h : string) : M receipt :=
  call (eth_waitForReceipt h) ;;; polled h.

(** [web3.eth.get_transaction_receipt(h)]. *)
Definition receipt_answer (w : world) (h : string) : outcome (option receipt) :=
  match find_mined (w3 w) h (mined (state w)) with
  | Some r => Return (Some r)
  | None => missing_receipt (w3 w)
  end.
Definition get_transaction_receipt (h : string) : M (option receipt) :=
  call (eth_getTransactionReceipt h) ;;; ask (fun w => receipt_answer w h).

(** *** Arithmetic that mixes [int] and [float] *)

(** [x * n] with [x] a float and [n] an int. *)
Definition mul_int (x : float) (n : Z) : outcome float :=
  match float_of_int n with
  | Return f => Return (x * f)%float
  | Raise e => Raise e
  end.

(** [a / b] on ints: the correctly rounded quotient. *)
Definition int_truediv (a b : Z) : outcome float :=
  match a, b with
  | _, Z0 => Raise ZeroDivisionError
  | Z0, _ => Return 0%float
  | _, _ =>
      let '(q, e, l) := SFdiv_core_binary prec emax (Z.abs a) 0 (Z.abs b) 0 in
      match binary_round_aux prec emax (xorb (a <? 0) (b <? 0)) q e l with
      | S754_infinity _ => Raise OverflowError
      | sf => Return (SF2Prim sf)
      end
  end.

End Ledger.

(** ** [src/services/swap_service/eth_usdc.py] *)

Module ETHUSDCSwapService.
Import Ledger.
Local Open Scope py_scope.

(** The attributes of [self] that the methods read besides the web3
    handle: the signer's address and the decimals of USDC, read from the
    contract by [_initialize_contracts]. *)
Record service := {
  account : address;
  usdc_decimals : Z
}.

Definition usdc_address := USDC_ADDRESS.
Definition weth_address := WETH_ADDRESS.
Definition router_address := UNIVERSAL_ROUTER_ADDRESS.
Definition chain_id := BASE_CHAIN_ID.

(** [float(web3.from_wei(wei_balance, 'ether'))]: the balance over 10^18
    as a decimal, then the nearest double. *)
Definition get_eth_balance (self : service) : M float :=
  wei_balance <- get_balance ;;
  lift (int_truediv wei_balance (10 ^ 18)).

Definition get_usdc_balance (self : service) : M float :=
  usdc_balance_raw <- balanceOf ;;
  lift (int_truediv usdc_balance_raw (10 ^ usdc_decimals self)).

(** Lines 117-136.  The [try] body imports [get_eth_price] from
    [services/llm_service.py] and calls it; [rate_source] is what that
    yields. *)
Definition get_eth_price (self : service) : M float :=
  try (call fetch_price ;;; ask rate_source)
      (fun e =>
         logger WARNING "Failed to get ETH price from LLM service" ;;;
         ret 3000%float).

(** Lines 138-168. *)
Definition estimate_usdc_output (self : service) (eth_amount slippage : float)
  : M (float * float) :=
  try (eth_price <- get_eth_price self ;;
       let estimated_usdc := (eth_amount * eth_price)%float in
       let min_usdc_output := (estimated_usdc * (1 - slippage))%float in
       logger INFO "Estimated ETH -> USDC" ;;;
       ret (estimated_usdc, min_usdc_output))
      (fun e =>
         logger ERROR "Error estimating USDC output" ;;;
         raise (BlockchainError "Failed to estimate USDC output" e)).

Record swap_result := {
  transaction_hash : string;
  eth_amount : float;
  estimated_usdc : float;
  min_usdc_output : float;
  status : string
}.

Definition default_slippage : float := 0.01%float.
Definition default_gas_limit : Z := 500000.
Definition default_priority_fee_multiplier : float := 1.5%float.

(** Lines 170-277. *)
Definition swap_eth_to_usdc (self : service) (eth_amount slippage : float)
  (gas_limit : Z) (priority_fee_multiplier : float) : M swap_result :=
  try (if (eth_amount <=? 0)%float
       then raise (ValueError (Lit "ETH amount must be greater than 0"))
       else
       eth_balance <- get_eth_balance self ;;
       if (eth_balance <? eth_amount)%float
       then raise (ValueError (Insufficient "ETH" eth_balance eth_amount))
       else
       amount_in_wei <- ask (fun w => to_wei_ether (w3 w) eth_amount) ;;
       est <- estimate_usdc_output self eth_amount slippage ;;
       let min_usdc_output := snd est in
       scaled <- lift (mul_int min_usdc_output (10 ^ usdc_decimals self)) ;;
       min_amount_out <- lift (int_of_float scaled) ;;
       let path := [weth_address; usdc_address] in
       let commands :=
         v2_swap_exact_in (wrap_eth chain ROUTER amount_in_wei)
                          SENDER amount_in_wei min_amount_out path false in
       deadline <- get_default_deadline ;;
       let encoded_input := build commands deadline in
       nonce <- get_transaction_count None ;;
       base_fee <- gas_price ;;
       priority_fee <- max_priority_fee ;;
       scaled_fee <- lift (match float_of_int priority_fee with
                           | Return f => Return (f * priority_fee_multiplier)%float
                           | Raise e => Raise e
                           end) ;;
       max_priority_fee <- lift (int_of_float scaled_fee) ;;
       let max_fee := base_fee * 2 in
       let tx_params :=
         {| tx_from := account self;
            tx_to := router_address;
            tx_gas := gas_limit;
            tx_maxPriorityFeePerGas := max_priority_fee;
            tx_maxFeePerGas := max_fee;
            tx_type := Some "0x2";
            tx_chainId := chain_id;
            tx_value := amount_in_wei;
            tx_nonce := nonce;
            tx_data := encoded_input |} in
       tx_hash <- send_raw_transaction tx_params ;;
       let tx_hash_hex := to_hex tx_hash in
       logger INFO "ETH to USDC swap transaction sent" ;;;
       estimated <- lift (truediv min_usdc_output (1 - slippage)) ;;
       ret {| transaction_hash := tx_hash_hex;
              eth_amount := eth_amount;
              estimated_usdc := estimated;
              min_usdc_output := min_usdc_output;
              status := "pending" |})
      (fun e =>
         logger ERROR "Error executing ETH to USDC swap" ;;;
         raise (BlockchainError "Failed to swap ETH to USDC" e)).

Record transaction_status := {
  ts_status : string;
  ts_confirmations : Z;
  ts_transaction_hash : option string;
  ts_block_number : option Z;
  ts_gas_used : option Z
}.

(** Lines 279-316. *)
Definition get_transaction_status (self : service) (tx_hash : string)
  : M transaction_status :=
  try (receipt <- get_transaction_receipt tx_hash ;;
       match receipt with
       | None =>
           ret {| ts_status := "pending"; ts_confirmations := 0;
                  ts_transaction_hash := None; ts_block_number := None;
                  ts_gas_used := None |}
       | Some receipt =>
           current_block <- block_number ;;
           let confirmations := current_block - blockNumber receipt in
           let status :=
             if Ledger.status receipt =? 1
             then (if confirmations >=? 1 then "confirmed"
                   else "pending_confirmation")
             else "failed" in
           ret {| ts_status := status;
                  ts_confirmations := confirmations;
                  ts_transaction_hash := Some tx_hash;
                  ts_block_number := Some (blockNumber receipt);
                  ts_gas_used := Some (gasUsed receipt) |}
       end)
      (fun e =>
         logger ERROR "Error checking transaction status" ;;;
         raise (BlockchainError "Failed to check transaction status" e)).

End ETHUSDCSwapService.

(** ** [src/services/swap_service/usdc_eth.py] *)

Module USDCETHSwapService.
Import Ledger.
Local Open Scope py_scope.

Record service := {
  account : address;
  usdc_decimals : Z
}.

Definition usdc_address := USDC_ADDRESS.
Definition weth_address := WETH_ADDRESS.
Definition router_address := UNIVERSAL_ROUTER_ADDRESS.
Definition permit2_address := PERMIT2_ADDRESS.
Definition chain_id := BASE_CHAIN_ID.

Definition get_eth_balance (self : service) : M float :=
  wei_balance <- get_balance ;;
  lift (int_truediv wei_balance (10 ^ 18)).

Definition get_usdc_balance (self : service) : M float :=
  usdc_balance_raw <- balanceOf ;;
  lift (int_truediv usdc_balance_raw (10 ^ usdc_decimals self)).

(** Lines 118-137. *)
Definition get_eth_price (self : service) : M float :=
  try (call fetch_price ;;; ask rate_source)
      (fun e =>
         logger WARNING "Failed to get ETH price from LLM service" ;;;
         ret 3000%float).

(** Lines 139-169. *)
Definition estimate_eth_output (self : service) (usdc_amount slippage : float)
  : M (float * float) :=
  try (eth_price <- get_eth_price self ;;
       estimated_eth <- lift (truediv usdc_amount eth_price) ;;
       let min_eth_output := (estimated_eth * (1 - slippage))%float in
       logger INFO "Estimated USDC -> ETH" ;;;
       ret (estimated_eth, min_eth_output))
      (fun e =>
         logger ERROR "Error estimating ETH output" ;;;
         raise (BlockchainError "Failed to estimate ETH output" e)).

Definition permit2_allowance_needed : Z := 2 ^ 256 - 1.

(** Lines 171-223. *)
Definition ensure_permit2_approval (self : service) : M string :=
  try (current_allowance <- allowance permit2_address ;;
       if current_allowance >=? permit2_allowance_needed
       then logger INFO "Permit2 already approved for USDC" ;;; ret ""
       else
       nonce <- get_transaction_count (Some pending) ;;
       priority_fee <- max_priority_fee ;;
       base_fee <- gas_price ;;
       let approve_tx :=
         {| tx_from := account self;
            tx_to := usdc_address;
            tx_gas := 100000;
            tx_maxPriorityFeePerGas := priority_fee * 2;
            tx_maxFeePerGas := base_fee * 3;
            tx_type := None;
            tx_chainId := chain_id;
            tx_value := 0;
            tx_nonce := nonce;
            tx_data := Approve permit2_address permit2_allowance_needed |} in
       tx_hash <- send_raw_transaction approve_tx ;;
       let tx_hash_hex := to_hex tx_hash in
       logger INFO "Permit2 approval transaction sent" ;;;
       wait_for_transaction_receipt tx_hash_hex ;;;
       ret tx_hash_hex)
      (fun e =>
         logger ERROR "Error approving Permit2 for USDC" ;;;
         raise (BlockchainError "Failed to approve Permit2" e)).

Record swap_result := {
  transaction_hash : string;
  approval_hash : string;
  usdc_amount : float;
  estimated_eth : float;
  min_eth_output : float;
  status : string
}.

Definition default_slippage : float := 0.01%float.
Definition default_gas_limit : Z := 500000.
Definition default_priority_fee_multiplier : float := 1.5%float.
Definition default_wait_for_approval : bool := true.

(** Lines 225-346. *)
Definition swap_usdc_to_eth (self : service) (usdc_amount slippage : float)
  (gas_limit : Z) (priority_fee_multiplier : float) (wait_for_approval : bool)
  : M swap_result :=
  try (if (usdc_amount <=? 0)%float
       then raise (ValueError (Lit "USDC amount must be greater than 0"))
       else
       usdc_balance <- get_usdc_balance self ;;
       if (usdc_balance <? usdc_amount)%float
       then raise (ValueError (Insufficient "USDC" usdc_balance usdc_amount))
       else
       scaled_in <- lift (mul_int usdc_amount (10 ^ usdc_decimals self)) ;;
       amount_in_usdc_units <- lift (int_of_float scaled_in) ;;
       approval_tx <- ensure_permit2_approval self ;;
       (if truthy approval_tx && wait_for_approval
        then logger INFO "Waiting for USDC approval transaction" ;;;
             wait_for_transaction_receipt approval_tx ;;; ret tt
        else ret tt) ;;;
       est <- estimate_eth_output self usdc_amount slippage ;;
       let min_eth_output := snd est in
       scaled <- lift (mul_int min_eth_output (10 ^ 18)) ;;
       min_amount_out <- lift (int_of_float scaled) ;;
       let path := [usdc_address; weth_address] in
       let commands :=
         unwrap_weth
           (v2_swap_exact_in chain SENDER amount_in_usdc_units min_amount_out
                             path true)
           SENDER 0 in
       deadline <- get_default_deadline ;;
       let encoded_input := build commands deadline in
       nonce <- get_transaction_count (Some pending) ;;
       base_fee <- gas_price ;;
       priority_fee <- max_priority_fee ;;
       scaled_fee <- lift (match float_of_int priority_fee with
                           | Return f => Return (f * priority_fee_multiplier)%float
                           | Raise e => Raise e
                           end) ;;
       max_priority_fee <- lift (int_of_float scaled_fee) ;;
       let max_fee := base_fee * 2 in
       let tx_params :=
         {| tx_from := account self;
            tx_to := router_address;
            tx_gas := gas_limit;
            tx_maxPriorityFeePerGas := max_priority_fee;
            tx_maxFeePerGas := max_fee;
            tx_type := Some "0x2";
            tx_chainId := chain_id;
            tx_value := 0;
            tx_nonce := nonce;
            tx_data := encoded_input |} in
       tx_hash <- send_raw_transaction tx_params ;;
       let tx_hash_hex := to_hex tx_hash in
       logger INFO "USDC to ETH swap transaction sent" ;;;
       estimated <- lift (truediv min_eth_output (1 - slippage)) ;;
       ret {| transaction_hash := tx_hash_hex;
              approval_hash := approval_tx;
              usdc_amount := usdc_amount;
              estimated_eth := estimated;
              min_eth_output := min_eth_output;
              status := "pending" |})
      (fun e =>
         logger ERROR "Error executing USDC to ETH swap" ;;;
         raise (BlockchainError "Failed to swap USDC to ETH" e)).

Record transaction_status := {
  ts_status : string;
  ts_confirmations : Z;
  ts_transaction_hash : option string;
  ts_block_number : option Z;
  ts_gas_used : option Z
}.

(** Lines 348-385. *)
Definition get_transaction_status (self : service) (tx_hash : string)
  : M transaction_status :=
  try (receipt <- get_transaction_receipt tx_hash ;;
       match receipt with
       | None =>
           ret {| ts_status := "pending"; ts_confirmations := 0;
                  ts_transaction_hash := None; ts_block_number := None;
                  ts_gas_used := None |}
       | Some receipt =>
           current_block <- block_number ;;
           let confirmations := current_block - blockNumber receipt in
           let status :=
             if Ledger.status receipt =? 1
             then (if confirmations >=? 1 then "confirmed"
                   else "pending_confirmation")
             else "failed" in
           ret {| ts_status := status;
                  ts_confirmations := confirmations;
                  ts_transaction_hash := Some tx_hash;
                  ts_block_number := Some (blockNumber receipt);
                  ts_gas_used := Some (gasUsed receipt) |}
       end)
      (fun e =>
         logger ERROR "Error checking transaction status" ;;;
         raise (BlockchainError "Failed to check transaction status" e)).

End USDCETHSwapService.

(** ** [src/agents/swap/eth_usdc.py] *)

Module EthToUsdcAgent.
Import Ledger.
Local Open Scope py_scope.

Record agent := { account : address }.

Definition usdc_address := USDC_ADDRESS.
Definition weth_address := WETH_ADDRESS.
Definition router_address := UNIVERSAL_ROUTER_ADDRESS.
Definition chain_id := BASE_CHAIN_ID.

(** Lines 138-145: the amount in wei and the floor on the USDC received,
    from the hard-wired price of 2500 and 1% slippage. *)
Definition amount_in_wei_of (amount : float) : outcome Z :=
  match mul_int amount (10 ^ 18) with
  | Return x => int_of_float x
  | Raise e => Raise e
  end.
Definition min_amount_out_of (amount : float) : outcome Z :=
  let estimated_usdc_amount := (amount * 2500)%float in
  match mul_int (estimated_usdc_amount * 0.99)%float (10 ^ 6) with
  | Return x => int_of_float x
  | Raise e => Raise e
  end.

(** Lines 124-191. *)
Definition swap_eth_to_usdc (self : agent) (amount : float) : M string :=
  try (amount_in_wei <- lift (amount_in_wei_of amount) ;;
       min_amount_out <- lift (min_amount_out_of amount) ;;
       let path := [weth_address; usdc_address] in
       let commands :=
         v2_swap_exact_in (wrap_eth chain ROUTER amount_in_wei)
                          SENDER amount_in_wei min_amount_out path false in
       deadline <- get_default_deadline ;;
       let encoded_input := build commands deadline in
       nonce <- get_transaction_count None ;;
       priority_fee <- max_priority_fee ;;
       base_fee <- gas_price ;;
       let tx_params :=
         {| tx_from := account self;
            tx_to := router_address;
            tx_gas := 500000;
            tx_maxPriorityFeePerGas := priority_fee;
            tx_maxFeePerGas := base_fee * 2;
            tx_type := Some "0x2";
            tx_chainId := chain_id;
            tx_value := amount_in_wei;
            tx_nonce := nonce;
            tx_data := encoded_input |} in
       tx_hash <- send_raw_transaction tx_params ;;
       logger INFO "ETH to USDC swap transaction sent" ;;;
       ret (to_hex tx_hash))
      (fun e =>
         logger ERROR "Error executing ETH to USDC swap" ;;;
         raise (BlockchainError "Failed to swap ETH to USDC" e)).

End EthToUsdcAgent.

(** ** [src/agents/swap/usdc_eth.py] *)

Module UsdcToEthAgent.
Import Ledger.
Local Open Scope py_scope.

Record agent := { account : address }.

Definition usdc_address := USDC_ADDRESS.
Definition weth_address := WETH_ADDRESS.
Definition router_address := UNIVERSAL_ROUTER_ADDRESS.
Definition permit2_address := PERMIT2_ADDRESS.
Definition chain_id := BASE_CHAIN_ID.

Definition permit2_allowance_needed : Z := 2 ^ 256 - 1.

(** Lines 129-178: the allowance is read outside the [try]. *)
Definition ensure_permit2_approval (self : agent) : M string :=
  current_allowance <- allowance permit2_address ;;
  if current_allowance >=? permit2_allowance_needed
  then logger INFO "Permit2 already approved for USDC" ;;; ret ""
  else
  try (nonce <- get_transaction_count (Some pending) ;;
       priority_fee <- max_priority_fee ;;
       base_fee <- gas_price ;;
       let approve_tx :=
         {| tx_from := account self;
            tx_to := usdc_address;
            tx_gas := 100000;
            tx_maxPriorityFeePerGas := priority_fee * 2;
            tx_maxFeePerGas := base_fee * 3;
            tx_type := None;
            tx_chainId := chain_id;
            tx_value := 0;
            tx_nonce := nonce;
            tx_data := Approve permit2_address permit2_allowance_needed |} in
       tx_hash <- send_raw_transaction approve_tx ;;
       logger INFO "Permit2 approval transaction sent" ;;;
       wait_for_transaction_receipt (to_hex tx_hash) ;;;
       ret (to_hex tx_hash))
      (fun e =>
         logger ERROR "Error approving Permit2 for USDC" ;;;
         raise (BlockchainError "Failed to approve Permit2" e)).

(** Lines 199-206. *)
Definition amount_in_usdc_of (amount : float) : outcome Z :=
  match mul_int amount (10 ^ 6) with
  | Return x => int_of_float x
  | Raise e => Raise e
  end.
Definition min_amount_out_of (amount : float) : outcome Z :=
  let estimated_eth_amount := (amount / 2500)%float in
  match mul_int (estimated_eth_amount * 0.99)%float (10 ^ 18) with
  | Return x => int_of_float x
  | Raise e => Raise e
  end.

(** Lines 180-276. *)
Definition swap_usdc_to_eth (self : agent) (amount : float) : M string :=
  try (approval_tx <- ensure_permit2_approval self ;;
       (if truthy approval_tx
        then logger INFO "USDC approved for Permit2"
        else ret tt) ;;;
       amount_in_usdc <- lift (amount_in_usdc_of amount) ;;
       min_amount_out <- lift (min_amount_out_of amount) ;;
       let path := [usdc_address; weth_address] in
       nonce <- get_transaction_count (Some pending) ;;
       priority_fee <- max_priority_fee ;;
       base_fee <- gas_price ;;
       let approve_tx :=
         {| tx_from := account self;
            tx_to := usdc_address;
            tx_gas := 250000;
            tx_maxPriorityFeePerGas := priority_fee;
            tx_maxFeePerGas := base_fee * 2;
            tx_type := None;
            tx_chainId := chain_id;
            tx_value := 0;
            tx_nonce := nonce;
            tx_data := Approve router_address amount_in_usdc |} in
       approve_tx_hash <- send_raw_transaction approve_tx ;;
       logger INFO "USDC approval transaction sent" ;;;
       wait_for_transaction_receipt (to_hex approve_tx_hash) ;;;
       let commands :=
         unwrap_weth
           (v2_swap_exact_in chain ROUTER amount_in_usdc min_amount_out path true)
           SENDER 0 in
       deadline <- get_default_deadline ;;
       let encoded_input := build commands deadline in
       nonce <- get_transaction_count (Some pending) ;;
       priority_fee <- max_priority_fee ;;
       base_fee <- gas_price ;;
       let tx_params :=
         {| tx_from := account self;
            tx_to := router_address;
            tx_gas := 500000;
            tx_maxPriorityFeePerGas := priority_fee;
            tx_maxFeePerGas := base_fee * 2;
            tx_type := Some "0x2";
            tx_chainId := chain_id;
            tx_value := 0;
            tx_nonce := nonce;
            tx_data := encoded_input |} in
       tx_hash <- send_raw_transaction tx_params ;;
       logger INFO "USDC to ETH swap transaction sent" ;;;
       ret (to_hex tx_hash))
      (fun e =>
         logger ERROR "Error executing USDC to ETH swap" ;;;
         raise (BlockchainError "Failed to swap USDC to ETH" e)).

End UsdcToEthAgent.

(** ** [get_usdc_to_eth_quote] of [src/services/swap_service/usdc_eth.py] *)

Module USDCETHQuote.
Import Ledger.
Local Open Scope py_scope.

Record quote := {
  usdc_amount : float;
  estimated_eth : float;
  min_eth_output : float;
  eth_price : float;
  has_sufficient_balance : bool;
  is_approved : bool;
  usdc_balance : float;
  eth_balance : float
}.

(** Lines 387-431.  The price is fetched once for the quote and once
    more inside [estimate_eth_output]; the dictionary is built in the
    order of its keys, so the ETH balance is read last. *)
Definition get_usdc_to_eth_quote (self : USDCETHSwapService.service)
  (usdc_amount : float) : M quote :=
  try (usdc_balance <- USDCETHSwapService.get_usdc_balance self ;;
       let has_sufficient_balance := (usdc_amount <=? usdc_balance)%float in
       eth_price <- USDCETHSwapService.get_eth_price self ;;
       est <- USDCETHSwapService.estimate_eth_output self usdc_amount 0.01 ;;
       let estimated_eth := fst est in
       let min_eth_output := snd est in
       current_allowance <- allowance USDCETHSwapService.permit2_address ;;
       let is_approved := current_allowance >? 0 in
       eth_balance <- USDCETHSwapService.get_eth_balance self ;;
       ret {| usdc_amount := usdc_amount;
              estimated_eth := estimated_eth;
              min_eth_output := min_eth_output;
              eth_price := eth_price;
              has_sufficient_balance := has_sufficient_balance;
              is_approved := is_approved;
              usdc_balance := usdc_balance;
              eth_balance := eth_balance |})
      (fun e =>
         logger ERROR "Error getting USDC to ETH quote" ;;;
         raise (BlockchainError "Failed to get USDC to ETH quote" e)).

End USDCETHQuote.

(** ** Swap requests and their answers

    [SwapRequest] of [src/models/requests.py], [SwapResponse] of
    [src/models/responses.py], the [handle_swap_request] of the two
    swap agents, and the swap finder that routes requests to them. *)

Module Messages.

(** [str.lower()].  Only the ASCII capitals are mapped: no other
    character lowers to a letter of ["base"], ["sell"] or ["buy"], so
    the comparisons the handlers make come out as in Python. *)
Definition lower_char (c : Ascii.ascii) : Ascii.ascii :=
  let n := Ascii.N_of_ascii c in
  if ((65 <=? n) && (n <=? 90))%N then Ascii.ascii_of_N (n + 32) else c.
Fixpoint lower (s : string) : string :=
  match s with
  | EmptyString => EmptyString
  | String c s' => String (lower_char c) (lower s')
  end.

Record SwapRequest := {
  blockchain : string;
  signal : string;
  amount : float
}.

(** The texts of the answers, with what their f-strings interpolate. *)
Inductive text :=
| Unsupported_request (blockchain signal : string)
| Swap_executed (tx_hash : string)
| Swap_failed (e : exn)
| No_suitable_agent
| Request_forwarded (agent_address : string).

Record SwapResponse := {
  status : string;
  message : option text;
  transaction_hash : option string
}.

(** A message handed to [ctx.send] with its recipient. *)
Definition envelope : Type := string * SwapResponse.

(** What the swap finder hands to [ctx.send]: an answer, or the request
    it forwards. *)
Inductive payload :=
| Response (r : SwapResponse)
| Request (m : SwapRequest).

End Messages.

(** [handle_swap_request] of [src/agents/swap/eth_usdc.py], lines 73-122.
    The handler returns nothing; its result here is what it hands to
    [ctx.send], in order, the transport being taken to deliver as the
    ledger is taken to answer. *)
Module EthToUsdcAgentHandler.
Import Ledger Messages.
Local Open Scope py_scope.

Definition handle_swap_request (self : EthToUsdcAgent.agent) (sender : string)
  (msg : SwapRequest) : M (list envelope) :=
  logger INFO "Received swap request" ;;;
  try (if negb (lower (blockchain msg) =? "base")%string
          || negb (lower (signal msg) =? "sell")%string
       then ret [(sender,
                  {| status := "error";
                     message := Some (Unsupported_request (blockchain msg) (signal msg));
                     transaction_hash := None |})]
       else
       tx_hash <- EthToUsdcAgent.swap_eth_to_usdc self (amount msg) ;;
       ret [(sender,
             {| status := "success";
                message := Some (Swap_executed tx_hash);
                transaction_hash := Some tx_hash |})])
      (fun e =>
         logger ERROR "ETH to USDC swap failed" ;;;
         ret [(sender,
               {| status := "error";
                  message := Some (Swap_failed e);
                  transaction_hash := None |})]).

End EthToUsdcAgentHandler.

(** [handle_swap_request] of [src/agents/swap/usdc_eth.py], lines 78-127. *)
Module UsdcToEthAgentHandler.
Import Ledger Messages.
Local Open Scope py_scope.

Definition handle_swap_request (self : UsdcToEthAgent.agent) (sender : string)
  (msg : SwapRequest) : M (list envelope) :=
  logger INFO "Received swap request" ;;;
  try (if negb (lower (blockchain msg) =? "base")%string
          || negb (lower (signal msg) =? "buy")%string
       then ret [(sender,
                  {| status := "error";
                     message := Some (Unsupported_request (blockchain msg) (signal msg));
                     transaction_hash := None |})]
       else
       tx_hash <- UsdcToEthAgent.swap_usdc_to_eth self (amount msg) ;;
       ret [(sender,
             {| status := "success";
                message := Some (Swap_executed tx_hash);
                transaction_hash := Some tx_hash |})])
      (fun e =>
         logger ERROR "USDC to ETH swap failed" ;;;
         ret [(sender,
               {| status := "error";
                  message := Some (Swap_failed e);
                  transaction_hash := None |})]).

End UsdcToEthAgentHandler.

(** ** [src/services/asi1.py] and [src/agents/swap/swapfinder.py] *)

Module Swapfinder.
Import Ledger Messages.
Local Open Scope py_scope.

(** An entry of the list the agent search returns: a JSON object, read
    through [agent.get("address")], which is a string or not ([None] for
    an absent key or another value); or something that is no object. *)
Inductive entry :=
| Object (address : option string)
| Other.

(** The answer of the agent search: its status code and the value under
    the key ["agents"] of its body, the empty list when the key is absent
    or the value falsy, [None] when the body cannot be read that way. *)
Record response := {
  status_code : Z;
  agents : option (list entry)
}.

(** What lies outside the process: the answer to the POST of the agent
    search ([None] when [requests.post] raises), the key of the
    completion API, and the content of the completion ([None] when the
    request fails or the body has another shape). *)
Record internet := {
  post : option response;
  api_key : string;
  completion : option string
}.

(** [query_llm] of [src/services/asi1.py], lines 18-66: the content, or
    nothing when it raises, which it does at once without a key. *)
Definition query_llm (net : internet) : option string :=
  if negb (truthy (api_key net)) then None else completion net.

(** [a in s] on strings. *)
Fixpoint contains (a s : string) : bool :=
  String.prefix a s
  || match s with
     | EmptyString => false
     | String _ s' => contains a s'
     end.

Definition is_object (e : entry) : bool :=
  match e with Object _ => true | Other => false end.

(** Lines 250-253: the first entry whose address occurs in the answer.
    [Some (Some a)]: the loop returns [a]; [Some None]: it ends without a
    match; [None]: it raises, on an address that is no string. *)
Fixpoint named (l : list entry) (ai_response : string) : option (option string) :=
  match l with
  | [] => Some None
  | Object (Some a) :: l' =>
      if contains a ai_response then Some (Some a) else named l' ai_response
  | _ :: _ => None
  end.

Definition SELL_AGENT : string :=
  "agent1qfrhxny23vz62v5tr20qnmnjujq8k5t0mxgwdxfap945922t9v4ugqtqkea".
Definition BUY_AGENT : string :=
  "agent1qgv9k947c5m04tmsqa9x2fnmuavjx9wz5pnclkr9cnafra7aym48g6qqajy".

(** The [except Exception] of [search_swap_agent], lines 265-267. *)
Definition failed : M (option string) :=
  logger ERROR "Error searching for swap agent" ;;; ret None.

(** [search_swap_agent], lines 182-267.  Every exception of the body
    ends in the same handler, so a step that raises goes to [failed]. *)
Definition search_swap_agent (net : internet) (blockchain signal : string)
  (amount : float) : M (option string) :=
  match post net with
  | None => failed
  | Some response =>
      if negb (status_code response =? 200)
      then logger ERROR "Agent search failed" ;;; ret None
      else
      match agents response with
      | None => failed
      | Some [] => logger INFO "No agents found" ;;; ret None
      | Some agents =>
          if negb (forallb is_object agents) then failed
          else
          logger INFO "Requesting AI analysis of discovered agents" ;;;
          match query_llm net with
          | None => failed
          | Some ai_response =>
              match named agents ai_response with
              | None => failed
              | Some (Some address) =>
                  logger INFO "Selected agent" ;;; ret (Some address)
              | Some None =>
                  if (lower blockchain =? "base")%string
                  then if (lower signal =? "sell")%string then ret (Some SELL_AGENT)
                       else if (lower signal =? "buy")%string then ret (Some BUY_AGENT)
                       else logger INFO "No suitable agent found after AI analysis" ;;;
                            ret None
                  else logger INFO "No suitable agent found after AI analysis" ;;;
                       ret None
              end
          end
      end
  end.

(** [handle_swap_request], lines 114-165.  Its result is what it hands
    to [ctx.send], in order; as [search_swap_agent] raises nothing and the
    transport is taken to deliver, its own [except] is not reached. *)
Definition handle_swap_request (net : internet) (sender : string)
  (msg : SwapRequest) : M (list (string * payload)) :=
  logger INFO "Received swap request" ;;;
  agent_address <- search_swap_agent net (blockchain msg) (signal msg) (amount msg) ;;
  match agent_address with
  | Some address =>
      if truthy address
      then logger INFO "Forwarded swap request to agent" ;;;
           ret [ (address, Request msg);
                 (sender, Response {| status := "pending";
                                      message := Some (Request_forwarded address);
                                      transaction_hash := None |}) ]
      else ret [ (sender, Response {| status := "error";
                                      message := Some No_suitable_agent;
                                      transaction_hash := None |}) ]
  | None =>
      ret [ (sender, Response {| status := "error";
                                 message := Some No_suitable_agent;
                                 transaction_hash := None |}) ]
  end.

End Swapfinder.

(** ** Vocabulary of the properties *)

Import Ledger.

(** The transactions submitted among a list of calls, in order. *)
Fixpoint sent (l : list rpc) : list transaction :=
  match l with
  | [] => []
  | eth_sendRawTransaction t :: l' => t :: sent l'
  | _ :: l' => sent l'
  end.

(** What a run of [m] from [w] returns, and the world it leaves. *)
Definition result {A} (m : M A) (w : world) : outcome A := fst (m w).
Definition after {A} (m : M A) (w : world) : world := snd (m w).

(** The position of the first command of a chain that satisfies [p]. *)
Fixpoint position (p : command -> bool) (cs : list command) : option nat :=
  match cs with
  | [] => None
  | c :: cs' => if p c then Some O
                else match position p cs' with
                     | Some n => Some (S n)
                     | None => None
                     end
  end.
Definition is_wrap (c : command) : bool :=
  match c with WRAP_ETH _ _ => true | _ => false end.
Definition is_exchange (c : command) : bool :=
  match c with V2_SWAP_EXACT_IN _ _ _ _ _ => true | _ => false end.
Definition is_unwrap (c : command) : bool :=
  match c with UNWRAP_WETH _ _ => true | _ => false end.

(** [p] occurs in the chain strictly before [q]. *)
Definition strictly_before (p q : command -> bool) (cs : list command) : Prop :=
  exists i j, position p cs = Some i /\ position q cs = Some j /\ (i < j)%nat.

(** The command chain of a router call. *)
Definition commands_of (t : transaction) : list command :=
  match tx_data t with
  | Execute cs _ => cs
  | Approve _ _ => []
  end.

(** A submitted transaction sells the native asset: a router call that
    wraps before it exchanges. *)
Definition sells_native (t : transaction) : Prop :=
  exists cs d, tx_data t = Execute cs d /\ strictly_before is_wrap is_exchange cs.
(** A submitted transaction buys the native asset unless it is an
    approval: a router call that exchanges before it unwraps. *)
Definition buys_native (t : transaction) : Prop :=
  match tx_data t with
  | Execute cs _ => strictly_before is_exchange is_unwrap cs
  | Approve _ _ => True
  end.
Definition router_call (t : transaction) : Prop :=
  exists cs d, tx_data t = Execute cs d.

(** The status a status query reports. *)
Definition reports {R} (status_of : R -> string) (o : outcome R) (s : string)
  : Prop :=
  exists d, o = Return d /\ status_of d = s.

(** The transactions submitted during a run of [m] from [w]. *)
Definition submitted {A} (m : M A) (w : world) : list transaction :=
  skipn (List.length (sent (calls w))) (sent (calls (after m w))).

(** A run that fails before any call leaves the process. *)
Definition rejected_before_io {A} (m : M A) (w : world) : Prop :=
  (exists e, result m w = Raise e) /\ calls (after m w) = calls w.

(** An approval of Permit2 by [owner] waits in the pool. *)
Definition approval_pending (owner : address) (w : world) : Prop :=
  exists t, In t (mempool (state w)) /\ tx_from t = owner
            /\ tx_data t = Approve PERMIT2_ADDRESS (2 ^ 256 - 1).

(** The guard of the design document, for the call that follows a first
    call from [w]: if the first call's approval is still waiting, the
    second call gives the first call's answer and submits nothing. *)
Definition at_most_one_pending_approval (ensure : M string) (owner : address)
  (w : world) : Prop :=
  approval_pending owner (after ensure w) ->
  result ensure (after ensure w) = result ensure w
  /\ submitted ensure (after ensure w) = [].

(** The quote tells whether the fallback price was used: some reading of
    what the estimator returns is true exactly when the rate source
    failed. *)
Definition marks_stale (estimate : M (float * float)) : Prop :=
  exists stale : outcome (float * float) -> bool,
    forall w, stale (result estimate w)
              = match rate_source w with Raise _ => true | Return _ => false end.

(** *** Worlds for concrete runs *)

(** A node that mines every transaction it is asked to wait for, or none;
    the hash of a transaction is its nonce in decimal; [to_wei] is
    [int(x * 10**18)], which agrees with web3 on the amounts used below. *)
Definition node (mines : bool) : web3 :=
  {| to_wei_ether := EthToUsdcAgent.amount_in_wei_of;
     hash_of := fun t => DecimalString.NilZero.string_of_int (Z.to_int (tx_nonce t));
     confirms := fun t =>
       if mines
       then Some {| blockNumber := 101; status := 1; gasUsed := 46000 |}
       else None;
     missing_receipt := Raise TransactionNotFound |}.

(** A funded account that has not transacted yet and has approved nothing. *)
Definition fresh_account : chain_state :=
  {| eth_wei := 2 * 10 ^ 18;
     usdc_raw := 5000 * 10 ^ 6;
     allowances := fun _ => 0;
     mined := [];
     mempool := [];
     head := 100;
     base_gas_price := 1000000;
     priority_fee := 1000;
     now := 1700000000 |}.

(** In this repository [services/llm_service.py] defines no
    [get_eth_price], so the import in [get_eth_price] raises. *)
Definition llm_service_globals : list string :=
  [ "json"; "logging"; "os"; "sys"; "time"; "dataclass"; "Enum"; "Any";
    "Dict"; "List"; "Optional"; "Union"; "backoff"; "requests";
    "load_dotenv"; "BaseModel"; "ValidationError"; "validator"; "logger";
    "LLMError"; "APIKeyError"; "APIConnectionError"; "APIResponseError";
    "RateLimitError"; "ValidationFailedError"; "Message"; "LLMResponse";
    "TradingSignal"; "ASI1Config"; "ASI1Service" ].
Definition import_from (globals : list string) (name : string) : outcome string :=
  if Errors.bound name globals then Return name else Raise (ImportError name).
Definition repository_rate_source (fetched : outcome float) : outcome float :=
  match import_from llm_service_globals "get_eth_price" with
  | Return _ => fetched
  | Raise e => Raise e
  end.

Definition world_of (mines : bool) (rate : outcome float) : world :=
  {| w3 := node mines; rate_source := rate; state := fresh_account;
     calls := []; log := [] |}.

Definition signer : address := "0x00000000000000000000000000000000000000A1".
Definition eth_service : ETHUSDCSwapService.service :=
  {| ETHUSDCSwapService.account := signer;
     ETHUSDCSwapService.usdc_decimals := 6 |}.
Definition usdc_service : USDCETHSwapService.service :=
  {| USDCETHSwapService.account := signer;
     USDCETHSwapService.usdc_decimals := 6 |}.
Definition eth_agent : EthToUsdcAgent.agent :=
  {| EthToUsdcAgent.account := signer |}.
Definition usdc_agent : UsdcToEthAgent.agent :=
  {| UsdcToEthAgent.account := signer |}.

(** The approval [ensure_permit2_approval] builds in state [s]. *)
Definition permit2_approval (owner : address) (s : chain_state) : transaction :=
  {| tx_from := owner;
     tx_to := USDC_ADDRESS;
     tx_gas := 100000;
     tx_maxPriorityFeePerGas := priority_fee s * 2;
     tx_maxFeePerGas := base_gas_price s * 3;
     tx_type := None;
     tx_chainId := BASE_CHAIN_ID;
     tx_value := 0;
     tx_nonce := transaction_count pending s;
     tx_data := Approve PERMIT2_ADDRESS (2 ^ 256 - 1) |}.

(** A request the design document calls invalid: a non-positive amount,
    or a slippage outside [0, 1), that is outside [0, 10000) basis
    points. *)
Definition invalid_request (amount slippage : float) : Prop :=
  (amount <=? 0)%float = true
  \/ (slippage <? 0)%float = true
  \/ (1 <=? slippage)%float = true.

(** The same world with another rate source. *)
Definition with_rate (rate : outcome float) (w : world) : world :=
  {| w3 := w3 w; rate_source := rate; state := state w;
     calls := calls w; log := log w |}.

(** The same world with Permit2 approved for 2^255, far above any swap
    amount and still below the maximum. *)
Definition half_approved (w : world) : world :=
  set_state
    {| eth_wei := eth_wei (state w); usdc_raw := usdc_raw (state w);
       allowances := fun _ => 2 ^ 255;
       mined := mined (state w); mempool := mempool (state w);
       head := head (state w); base_gas_price := base_gas_price (state w);
       priority_fee := priority_fee (state w); now := now (state w) |} w.

(** A node that mines nothing, with the rate source of this repository. *)
Definition stalled : world := world_of false (Raise (ImportError "get_eth_price")).
(** A node that mines, with the rate source of this repository. *)
Definition mining : world := world_of true (Raise (ImportError "get_eth_price")).

(** The world right after a first sale of 0.5 ETH through the service:
    its transaction waits in the pool. *)
Definition first_sale : M ETHUSDCSwapService.swap_result :=
  ETHUSDCSwapService.swap_eth_to_usdc eth_service 0.5 0.01 500000 1.5.
Definition busy (w : world) : world := after first_sale w.

(** *** Binary64

    The number of binary digits of a mantissa, and the scale that makes
    the value [m * 2^e] of every finite double, and of every exact
    product of two, an integer: [m * 2^(e + K)]. *)
Definition digits (p : positive) : Z := Zpos (digits2_pos p).
Definition K : Z := 2200.

(** The number one, as [Prim2SF] gives it. *)
Definition one_m : positive := 4503599627370496.
Definition SF_one : spec_float := S754_finite false one_m (-52).

(** Zero, a positive finite number or plus infinity. *)
Definition nonneg_sf (F : spec_float) : Prop :=
  F = S754_zero false
  \/ (exists m e, F = S754_finite false m e)
  \/ F = S754_infinity false.

(** *** Quotes *)

(** The rate a quote is computed from. *)
Definition price_used (w : world) : float :=
  match rate_source w with
  | Return p => p
  | Raise _ => 3000%float
  end.

(** The invariant of a quote [(estimated, minimum)] as the design
    document states it. *)
Definition quote_invariant (slippage : float) (q : float * float) : Prop :=
  snd q = (fst q * (1 - slippage))%float
  /\ (snd q <=? fst q)%float = true
  /\ (0 <? fst q)%float = true
  /\ (0 <? snd q)%float = true.
Definition quote_claim (estimate : M (float * float)) (slippage : float)
  (w : world) : Prop :=
  exists q, result estimate w = Return q /\ quote_invariant slippage q.

(** The smallest positive double, 2^-1074. *)
Definition tiny : float := 0x1p-1074%float.

(** The floors on the output that the submitted router calls carry. *)
Definition floor_of (c : command) : list Z :=
  match c with
  | V2_SWAP_EXACT_IN _ _ amount_out_min _ _ => [amount_out_min]
  | _ => []
  end.
Definition floors (l : list transaction) : list Z :=
  flat_map (fun t => flat_map floor_of (commands_of t)) l.

(** The quote of the design document in exact rational arithmetic:
    [estimated = input * rate] (or [/ rate] when buying the native
    asset), [minimum = estimated * (1 - slippage_bps / 10000)], and the
    minimum in base units rounded down. *)
Definition exact_minimum_output (sell : bool) (input rate : QArith_base.Q)
  (slippage_bps : Z) : QArith_base.Q :=
  QArith_base.Qmult
    (if sell then QArith_base.Qmult input rate else QArith_base.Qdiv input rate)
    (QArith_base.Qminus (QArith_base.inject_Z 1)
                        (QArith_base.Qmake slippage_bps 10000)).
Definition exact_minimum_units (sell : bool) (input rate : QArith_base.Q)
  (slippage_bps decimals : Z) : Z :=
  Qround.Qfloor
    (QArith_base.Qmult (exact_minimum_output sell input rate slippage_bps)
                       (QArith_base.inject_Z (10 ^ decimals))).

(** The floor of a purchase through the service, at the fallback price
    and the default slippage of 1%, is the one of exact arithmetic. *)
Definition service_floor_is_exact (usdc : Z) (w : world) : Prop :=
  forall amount,
    float_of_int usdc = Return amount ->
    floors (submitted (USDCETHSwapService.swap_usdc_to_eth usdc_service amount
                         USDCETHSwapService.default_slippage 500000 1.5 true) w)
    = [exact_minimum_units false (QArith_base.inject_Z usdc)
         (QArith_base.inject_Z 3000) 100 18].
(** The floor the agent computes for a purchase, at its price of 2500 and
    its slippage of 1%, is the one of exact arithmetic. *)
Definition agent_floor_is_exact (usdc : Z) : Prop :=
  forall amount,
    float_of_int usdc = Return amount ->
    UsdcToEthAgent.min_amount_out_of amount
    = Return (exact_minimum_units false (QArith_base.inject_Z usdc)
                (QArith_base.inject_Z 2500) 100 18).

(** *** Waiting for a receipt

    What a call of [wait_for_transaction_receipt h] from [w] that ends
    with [o] in [w'] leaves as it was, and what it brings: the receipt it
    returns is the one the ledger then has for [h], the receipts the
    ledger had stay, and the only failure is the timeout. *)
Definition waited (h : string) (w : world) (o : outcome receipt) (w' : world) : Prop :=
  calls w' = calls w ++ [eth_waitForReceipt h]
  /\ w3 w' = w3 w
  /\ rate_source w' = rate_source w
  /\ log w' = log w
  /\ transaction_count pending (state w') = transaction_count pending (state w)
  /\ base_gas_price (state w') = base_gas_price (state w)
  /\ priority_fee (state w') = priority_fee (state w)
  /\ now (state w') = now (state w)
  /\ (forall e, o = Raise e -> e = TimeExhausted)
  /\ (forall r, o = Return r -> find_mined (w3 w) h (mined (state w')) = Some r)
  /\ (forall h0 r0, find_mined (w3 w) h0 (mined (state w)) = Some r0 ->
                    find_mined (w3 w) h0 (mined (state w')) = Some r0).

(** The nonces [l] are [n], [n + 1], [n + 2], ... *)
Definition consecutive_from (n : Z) (l : list Z) : Prop :=
  l = map (fun i => n + Z.of_nat i) (seq 0 (List.length l)).

(** The ledger has a receipt for the transaction [t]. *)
Definition has_receipt (w : world) (t : transaction) : Prop :=
  exists r, find_mined (w3 w) (to_hex (hash_of (w3 w) t)) (mined (state w)) = Some r.

(** The transaction is an ERC-20 approval. *)
Definition is_approval (t : transaction) : Prop :=
  exists spender amount, tx_data t = Approve spender amount.

(** The exceptions of the conversions between [int] and [float] and of
    the division. *)
Definition arithmetic_error (e : exn) : Prop :=
  e = OverflowError \/ e = ZeroDivisionError
  \/ e = ValueError (Lit "cannot convert float NaN to integer").

(** *** The transactions of a swap *)

(** [int(x * 10 ** decimals)]: an amount in base units. *)
Definition base_units (x : float) (decimals : Z) : outcome Z :=
  match mul_int x (10 ^ decimals) with
  | Return y => int_of_float y
  | Raise e => Raise e
  end.
(** [int(priority_fee * multiplier)]. *)
Definition scaled_fee (fee : Z) (multiplier : float) : outcome Z :=
  match float_of_int fee with
  | Return f => int_of_float (f * multiplier)
  | Raise e => Raise e
  end.

(** The router call of a sale of [value] wei for at least [floor] units
    of USDC, built in state [s]. *)
Definition sale_transaction (owner : address) (gas fee value floor : Z)
  (s : chain_state) : transaction :=
  {| tx_from := owner;
     tx_to := UNIVERSAL_ROUTER_ADDRESS;
     tx_gas := gas;
     tx_maxPriorityFeePerGas := fee;
     tx_maxFeePerGas := base_gas_price s * 2;
     tx_type := Some "0x2";
     tx_chainId := BASE_CHAIN_ID;
     tx_value := value;
     tx_nonce := transaction_count latest s;
     tx_data :=
       Execute [ WRAP_ETH ROUTER value;
                 V2_SWAP_EXACT_IN SENDER value floor
                   [WETH_ADDRESS; USDC_ADDRESS] false ]
               (now s + 180) |}.

(** The router call of a purchase with [amount_in] units of USDC for at
    least [floor] wei, built in state [s] with the nonce [nonce]. *)
Definition purchase_transaction (owner : address) (recipient : FunctionRecipient)
  (gas fee amount_in floor nonce : Z) (s : chain_state) : transaction :=
  {| tx_from := owner;
     tx_to := UNIVERSAL_ROUTER_ADDRESS;
     tx_gas := gas;
     tx_maxPriorityFeePerGas := fee;
     tx_maxFeePerGas := base_gas_price s * 2;
     tx_type := Some "0x2";
     tx_chainId := BASE_CHAIN_ID;
     tx_value := 0;
     tx_nonce := nonce;
     tx_data :=
       Execute [ V2_SWAP_EXACT_IN recipient amount_in floor
                   [USDC_ADDRESS; WETH_ADDRESS] true;
                 UNWRAP_WETH SENDER 0 ]
               (now s + 180) |}.

(** The approval that [ensure_permit2_approval] submits from [s], if any. *)
Definition approvals_needed (owner : address) (s : chain_state) : list transaction :=
  if allowances s PERMIT2_ADDRESS >=? 2 ^ 256 - 1 then []
  else [permit2_approval owner s].

(** The ERC-20 approval of the router for [amount] units of USDC that
    the purchasing agent submits before its router call. *)
Definition router_approval (owner : address) (amount nonce : Z) (s : chain_state)
  : transaction :=
  {| tx_from := owner;
     tx_to := USDC_ADDRESS;
     tx_gas := 250000;
     tx_maxPriorityFeePerGas := priority_fee s;
     tx_maxFeePerGas := base_gas_price s * 2;
     tx_type := None;
     tx_chainId := BASE_CHAIN_ID;
     tx_value := 0;
     tx_nonce := nonce;
     tx_data := Approve UNIVERSAL_ROUTER_ADDRESS amount |}.

(** A node that confirms every transaction it is asked to wait for with
    a receipt of status 0: the transaction was mined and reverted. *)
Definition reverting_node : web3 :=
  {| to_wei_ether := EthToUsdcAgent.amount_in_wei_of;
     hash_of := fun t => DecimalString.NilZero.string_of_int (Z.to_int (tx_nonce t));
     confirms := fun t => Some {| blockNumber := 101; status := 0; gasUsed := 46000 |};
     missing_receipt := Raise TransactionNotFound |}.
Definition reverting : world :=
  {| w3 := reverting_node; rate_source := Raise (ImportError "get_eth_price");
     state := fresh_account; calls := []; log := [] |}.

(** *** Requests *)

(** The request names the chain and the direction, whatever the case of
    the letters. *)
Definition supported (direction : string) (msg : Messages.SwapRequest) : bool :=
  (Messages.lower (Messages.blockchain msg) =? "base")%string
  && (Messages.lower (Messages.signal msg) =? direction)%string.

(** The three answers of a swap agent. *)
Definition unsupported_answer (msg : Messages.SwapRequest) : Messages.SwapResponse :=
  {| Messages.status := "error";
     Messages.message :=
       Some (Messages.Unsupported_request (Messages.blockchain msg)
                                          (Messages.signal msg));
     Messages.transaction_hash := None |}.
Definition success_answer (tx_hash : string) : Messages.SwapResponse :=
  {| Messages.status := "success";
     Messages.message := Some (Messages.Swap_executed tx_hash);
     Messages.transaction_hash := Some tx_hash |}.
Definition failure_answer (e : exn) : Messages.SwapResponse :=
  {| Messages.status := "error";
     Messages.message := Some (Messages.Swap_failed e);
     Messages.transaction_hash := None |}.

(** What handling a request from [w] comes to, given the answer [resp]
    and the world [w'] it leaves: the request is refused untouched, or a
    router call was submitted and its hash answered, or the swap failed
    and no router call was submitted. *)
Definition handled (direction : string) (msg : Messages.SwapRequest)
  (w : world) (resp : Messages.SwapResponse) (w' : world) : Prop :=
  let submitted := skipn (List.length (sent (calls w))) (sent (calls w')) in
  (supported direction msg = false
   /\ resp = unsupported_answer msg
   /\ calls w' = calls w /\ state w' = state w)
  \/ (supported direction msg = true
      /\ ((exists t, resp = success_answer (to_hex (hash_of (w3 w) t))
                     /\ router_call t
                     /\ In t submitted
                     /\ In t (mempool (state w')))
          \/ (exists e, resp = failure_answer e
                        /\ forall t, In t submitted -> ~ router_call t))).

(** *** Routing *)

(** Where an address found by the swap finder comes from: the search
    answered 200 with the non-empty list [l], the completion API answered
    [ai], and the address is listed and named in the answer, or no listed
    address is named and it is the address wired in for the direction. *)
Definition provenance (net : Swapfinder.internet) (blockchain signal : string)
  (a : string) : Prop :=
  exists resp l ai,
    Swapfinder.post net = Some resp
    /\ Swapfinder.status_code resp = 200
    /\ Swapfinder.agents resp = Some l
    /\ l <> []
    /\ truthy (Swapfinder.api_key net) = true
    /\ Swapfinder.completion net = Some ai
    /\ ((In (Swapfinder.Object (Some a)) l /\ Swapfinder.contains a ai = true)
        \/ ((forall b, In (Swapfinder.Object (Some b)) l ->
                       Swapfinder.contains b ai = false)
            /\ Messages.lower blockchain = "base"
            /\ ((Messages.lower signal = "sell" /\ a = Swapfinder.SELL_AGENT)
                \/ (Messages.lower signal = "buy" /\ a = Swapfinder.BUY_AGENT)))).

(** The two answers of the swap finder to the sender. *)
Definition no_agent_answer : Messages.payload :=
  Messages.Response
    {| Messages.status := "error";
       Messages.message := Some Messages.No_suitable_agent;
       Messages.transaction_hash := None |}.
Definition forwarded_answer (a : string) : Messages.payload :=
  Messages.Response
    {| Messages.status := "pending";
       Messages.message := Some (Messages.Request_forwarded a);
       Messages.transaction_hash := None |}.

(** A directory that lists one agent, with a completion API that names
    none, and the same without a key for the API. *)
Definition directory : Swapfinder.internet :=
  {| Swapfinder.post :=
       Some {| Swapfinder.status_code := 200;
               Swapfinder.agents := Some [Swapfinder.Object (Some "agent1qxyz")] |};
     Swapfinder.api_key := "key";
     Swapfinder.completion := Some "No agent of the list fits." |}.
Definition keyless : Swapfinder.internet :=
  {| Swapfinder.post := Swapfinder.post directory;
     Swapfinder.api_key := "";
     Swapfinder.completion := Swapfinder.completion directory |}.
Definition sell_request : Messages.SwapRequest :=
  {| Messages.blockchain := "Base"; Messages.signal := "SELL"; Messages.amount := 0.5 |}.

(** [wp m w Q]: the run of [m] from [w] ends in an outcome and a world
    that satisfy [Q]. *)
Definition wp {A} (m : M A) (w : world) (Q : outcome A -> world -> Prop) : Prop :=
  Q (result m w) (after m w).

(** ** Reasoning about runs *)

Lemma sent_app (l1 l2 : list rpc) : sent (l1 ++ l2) = sent l1 ++ sent l2.
Proof.
  induction l1 as [|c l1 IH]; simpl; [reflexivity|].
  destruct c; simpl; rewrite ?IH; reflexivity.
Qed.

Lemma skipn_length_app {A} (l1 l2 : list A) :
  skipn (List.length l1) (l1 ++ l2) = l2.
Proof. induction l1; simpl; auto. Qed.

Section Rules.
Local Open Scope py_scope.
Context {A B : Type}.

Lemma wp_ret (a : A) w Q : Q (Return a) w -> wp (ret a) w Q.
Proof. exact (fun H => H). Qed.
Lemma wp_raise (e : exn) w (Q : outcome A -> world -> Prop) :
  Q (Raise e) w -> wp (raise e) w Q.
Proof. exact (fun H => H). Qed.
Lemma wp_lift (o : outcome A) w Q : Q o w -> wp (lift o) w Q.
Proof. exact (fun H => H). Qed.
Lemma wp_read (f : world -> A) w Q : Q (Return (f w)) w -> wp (read f) w Q.
Proof. exact (fun H => H). Qed.
Lemma wp_ask (f : world -> outcome A) w Q : Q (f w) w -> wp (ask f) w Q.
Proof. exact (fun H => H). Qed.
Lemma wp_bind (m : M A) (k : A -> M B) w Q :
  wp m w (fun o w' => match o with
                      | Return a => wp (k a) w' Q
                      | Raise e => Q (Raise e) w'
                      end) ->
  wp (bind m k) w Q.
Proof.
  unfold wp, result, after, bind. destruct (m w) as [[a|e] w']; simpl; auto.
Qed.
Lemma wp_try (m : M A) (h : exn -> M A) w Q :
  wp m w (fun o w' => match o with
                      | Return a => Q (Return a) w'
                      | Raise e => wp (h e) w' Q
                      end) ->
  wp (try m h) w Q.
Proof.
  unfold wp, result, after, try. destruct (m w) as [[a|e] w']; simpl; auto.
Qed.
Lemma wp_conseq (m : M A) w (P Q : outcome A -> world -> Prop) :
  wp m w P -> (forall o w', P o w' -> Q o w') -> wp m w Q.
Proof. unfold wp; auto. Qed.
End Rules.

Lemma wp_call r w Q : Q (Return tt) (with_call r w) -> wp (call r) w Q.
Proof. exact (fun H => H). Qed.
Lemma wp_logger l msg w Q : Q (Return tt) (with_log l msg w) -> wp (logger l msg) w Q.
Proof. exact (fun H => H). Qed.
Lemma wp_send t w Q :
  Q (Return (hash_of (w3 w) t))
    (set_state (pool t (state w)) (with_call (eth_sendRawTransaction t) w)) ->
  wp (send_raw_transaction t) w Q.
Proof. exact (fun H => H). Qed.

(** Waiting for a receipt adds one call and leaves the handle, the rate
    source and the log alone. *)
Lemma wp_wait h w (Q : outcome receipt -> world -> Prop) :
  (forall o w', calls w' = calls w ++ [eth_waitForReceipt h] ->
                w3 w' = w3 w -> rate_source w' = rate_source w ->
                Q o w') ->
  wp (wait_for_transaction_receipt h) w Q.
Proof.
  intros H. unfold wp, result, after, wait_for_transaction_receipt, bind, call, polled.
  cbn [fst snd with_call w3 state calls].
  destruct (find_mined (w3 w) h (mined (state w))); [apply H; reflexivity|].
  destruct (find_pending (w3 w) h (mempool (state w))) as [t|]; [|apply H; reflexivity].
  destruct (confirms (w3 w) t); apply H; reflexivity.
Qed.

Ltac wp_step :=
  lazymatch goal with
  | |- wp (bind _ _) _ _ => apply wp_bind
  | |- wp (try _ _) _ _ => apply wp_try
  | |- wp (ret _) _ _ => apply wp_ret
  | |- wp (raise _) _ _ => apply wp_raise
  | |- wp (lift _) _ _ => apply wp_lift
  | |- wp (read _) _ _ => apply wp_read
  | |- wp (ask _) _ _ => apply wp_ask
  | |- wp (call _) _ _ => apply wp_call
  | |- wp (logger _ _) _ _ => apply wp_logger
  | |- wp (send_raw_transaction _) _ _ => apply wp_send
  | |- wp (wait_for_transaction_receipt _) _ _ =>
      apply wp_wait; intros ? ? ? ? ?
  | |- wp get_balance _ _ => unfold get_balance
  | |- wp balanceOf _ _ => unfold balanceOf
  | |- wp (allowance _) _ _ => unfold allowance
  | |- wp (get_transaction_count _) _ _ => unfold get_transaction_count
  | |- wp gas_price _ _ => unfold gas_price
  | |- wp max_priority_fee _ _ => unfold max_priority_fee
  | |- wp block_number _ _ => unfold block_number
  | |- wp get_default_deadline _ _ => unfold get_default_deadline
  | |- wp (if ?b then _ else _) _ _ => destruct b eqn:?
  | |- wp (match ?o with _ => _ end) _ _ => destruct o eqn:?
  | |- match ?o with Return _ => _ | Raise _ => _ end =>
      first [ progress cbv beta iota | destruct o eqn:? ]
  | |- _ => progress cbv beta
  end.
Ltac wp_run := repeat wp_step.

Ltac world_simpl :=
  cbn [calls state w3 rate_source log with_call with_log set_state fst snd] in *.
Ltac tidy :=
  world_simpl;
  repeat match goal with H : calls _ = _ |- _ => rewrite H end;
  repeat rewrite <- app_assoc; rewrite ?sent_app; simpl sent; simpl app;
  rewrite ?app_nil_r, ?skipn_all, ?skipn_length_app.

Ltac ordered := exists 0%nat, 1%nat; simpl; repeat split; lia.
Ltac each :=
  repeat match goal with
         | |- Forall _ [] => apply Forall_nil
         | |- Forall _ (_ :: _) => apply Forall_cons
         end.

Ltac sells :=
  split;
  [ each; (unfold sells_native; simpl; do 2 eexists;
           (split; [reflexivity | ordered]))
  | intros r Hr; first [discriminate Hr | eexists; reflexivity] ].
Ltac buys :=
  split;
  [ each; (unfold buys_native; simpl; first [exact I | ordered])
  | intros r Hr; first [ discriminate Hr
                       | eexists; (split; [simpl; eauto | do 2 eexists; reflexivity]) ] ].

Lemma eth_service_order w self a s g m :
  wp (ETHUSDCSwapService.swap_eth_to_usdc self a s g m) w
     (fun o w' =>
        Forall sells_native (skipn (List.length (sent (calls w))) (sent (calls w')))
        /\ (forall r, o = Return r ->
              exists t, skipn (List.length (sent (calls w))) (sent (calls w')) = [t])).
Proof.
  unfold ETHUSDCSwapService.swap_eth_to_usdc,
    ETHUSDCSwapService.estimate_usdc_output,
    ETHUSDCSwapService.get_eth_price, ETHUSDCSwapService.get_eth_balance.
  wp_run; tidy; sells.
Qed.

Lemma eth_agent_order w self a :
  wp (EthToUsdcAgent.swap_eth_to_usdc self a) w
     (fun o w' =>
        Forall sells_native (skipn (List.length (sent (calls w))) (sent (calls w')))
        /\ (forall r, o = Return r ->
              exists t, skipn (List.length (sent (calls w))) (sent (calls w')) = [t])).
Proof.
  unfold EthToUsdcAgent.swap_eth_to_usdc.
  wp_run; tidy; sells.
Qed.

Lemma usdc_service_order w self a s g m wait :
  wp (USDCETHSwapService.swap_usdc_to_eth self a s g m wait) w
     (fun o w' =>
        Forall buys_native (skipn (List.length (sent (calls w))) (sent (calls w')))
        /\ (forall r, o = Return r ->
              exists t, In t (skipn (List.length (sent (calls w))) (sent (calls w')))
                        /\ router_call t)).
Proof.
  unfold USDCETHSwapService.swap_usdc_to_eth,
    USDCETHSwapService.ensure_permit2_approval,
    USDCETHSwapService.estimate_eth_output,
    USDCETHSwapService.get_eth_price, USDCETHSwapService.get_usdc_balance.
  wp_run; tidy; buys.
Qed.

Lemma usdc_agent_order w self a :
  wp (UsdcToEthAgent.swap_usdc_to_eth self a) w
     (fun o w' =>
        Forall buys_native (skipn (List.length (sent (calls w))) (sent (calls w')))
        /\ (forall r, o = Return r ->
              exists t, In t (skipn (List.length (sent (calls w))) (sent (calls w')))
                        /\ router_call t)).
Proof.
  unfold UsdcToEthAgent.swap_usdc_to_eth, UsdcToEthAgent.ensure_permit2_approval.
  wp_run; tidy; buys.
Qed.

(** ** The call sequence *)


(** A purchase on a node that mines: the approval, then the router call
    with the exchange before the unwrap. *)
Example purchase_run :
  map commands_of
      (submitted (USDCETHSwapService.swap_usdc_to_eth usdc_service 10 0.01 500000 1.5 true)
                 (world_of true (Raise (ImportError "get_eth_price"))))
  = [ [];
      [ V2_SWAP_EXACT_IN SENDER 10000000 3300000000000000
          [USDC_ADDRESS; WETH_ADDRESS] true;
        UNWRAP_WETH SENDER 0 ] ].
Proof. vm_compute. reflexivity. Qed.

(** ** [format_error] *)

(** C10.  For every exception passed to it, [format_error] raises
    [NameError]: the class [CryptoAgentError] named in its [isinstance]
    test is bound neither in the module nor in the builtins, so no input
    reaches the [return]. *)
Theorem format_error_raises_NameError :
  forall err : Errors.exception,
    Errors.format_error err = Raise (NameError "CryptoAgentError").
Proof. intros err. reflexivity. Qed.

(** ** The status of a transaction *)

Lemma eth_status_run (self : ETHUSDCSwapService.service) (h : string) (w : world) :
  result (ETHUSDCSwapService.get_transaction_status self h) w =
  match receipt_answer w h with
  | Return (Some r) =>
      Return {| ETHUSDCSwapService.ts_status :=
                  if status r =? 1
                  then (if head (state w) - blockNumber r >=? 1
                        then "confirmed" else "pending_confirmation")
                  else "failed";
                ETHUSDCSwapService.ts_confirmations := head (state w) - blockNumber r;
                ETHUSDCSwapService.ts_transaction_hash := Some h;
                ETHUSDCSwapService.ts_block_number := Some (blockNumber r);
                ETHUSDCSwapService.ts_gas_used := Some (gasUsed r) |}
  | Return None =>
      Return {| ETHUSDCSwapService.ts_status := "pending";
                ETHUSDCSwapService.ts_confirmations := 0;
                ETHUSDCSwapService.ts_transaction_hash := None;
                ETHUSDCSwapService.ts_block_number := None;
                ETHUSDCSwapService.ts_gas_used := None |}
  | Raise e => Raise (BlockchainError "Failed to check transaction status" e)
  end.
Proof.
  unfold ETHUSDCSwapService.get_transaction_status, get_transaction_receipt,
    block_number, receipt_answer, result, try, bind, call, ask, read, logger,
    ret, raise.
  cbn [fst snd with_call w3 state].
  destruct (find_mined (w3 w) h (mined (state w))) as [r|]; [reflexivity|].
  destruct (missing_receipt (w3 w)) as [[r|]|e]; reflexivity.
Qed.

Lemma usdc_status_run (self : USDCETHSwapService.service) (h : string) (w : world) :
  result (USDCETHSwapService.get_transaction_status self h) w =
  match receipt_answer w h with
  | Return (Some r) =>
      Return {| USDCETHSwapService.ts_status :=
                  if status r =? 1
                  then (if head (state w) - blockNumber r >=? 1
                        then "confirmed" else "pending_confirmation")
                  else "failed";
                USDCETHSwapService.ts_confirmations := head (state w) - blockNumber r;
                USDCETHSwapService.ts_transaction_hash := Some h;
                USDCETHSwapService.ts_block_number := Some (blockNumber r);
                USDCETHSwapService.ts_gas_used := Some (gasUsed r) |}
  | Return None =>
      Return {| USDCETHSwapService.ts_status := "pending";
                USDCETHSwapService.ts_confirmations := 0;
                USDCETHSwapService.ts_transaction_hash := None;
                USDCETHSwapService.ts_block_number := None;
                USDCETHSwapService.ts_gas_used := None |}
  | Raise e => Raise (BlockchainError "Failed to check transaction status" e)
  end.
Proof.
  unfold USDCETHSwapService.get_transaction_status, get_transaction_receipt,
    block_number, receipt_answer, result, try, bind, call, ask, read, logger,
    ret, raise.
  cbn [fst snd with_call w3 state].
  destruct (find_mined (w3 w) h (mined (state w))) as [r|]; [reflexivity|].
  destruct (missing_receipt (w3 w)) as [[r|]|e]; reflexivity.
Qed.

(** The three reports, once the run is known: case analysis on the
    receipt, its status and the number of confirmations. *)
Ltac status_cases w h :=
  unfold reports;
  destruct (receipt_answer w h) as [[r|]|e];
  [ destruct (Z.eqb_spec (status r) 1) as [S1|S1];
    destruct (Z.geb_spec (head (state w) - blockNumber r) 1) as [S2|S2];
    (split; [|split]); split;
    try (intros [d [Hd Hs]]; injection Hd as <-; simpl in Hs;
         first [ discriminate Hs | exists r; repeat split; (assumption || lia) ]);
    intros [r' [Hr Hc]]; injection Hr as <-;
    first [ exfalso; lia | exfalso; tauto | eexists; split; reflexivity ]
  | (split; [|split]); split;
    first [ intros [d [Hd Hs]]; injection Hd as <-; discriminate Hs
          | intros [r' [Hr _]]; discriminate Hr ]
  | (split; [|split]); split;
    first [ intros [d [Hd _]]; discriminate Hd
          | intros [r' [Hr _]]; discriminate Hr ] ].

(** C8.  In both services [get_transaction_status] reports [confirmed]
    exactly when the ledger answers with a receipt whose execution status
    is success (1) and the confirmations, the current block minus the
    receipt's block, are at least the threshold 1; it reports [failed]
    exactly when the receipt's status is not success; and with success but
    fewer confirmations than 1 it reports [pending_confirmation]. *)
Theorem get_transaction_status_reports (h : string) (w : world) :
  (forall self,
      let answer := result (ETHUSDCSwapService.get_transaction_status self h) w in
      (reports ETHUSDCSwapService.ts_status answer "confirmed"
       <-> exists r, receipt_answer w h = Return (Some r) /\ status r = 1
                     /\ head (state w) - blockNumber r >= 1)
      /\ (reports ETHUSDCSwapService.ts_status answer "failed"
          <-> exists r, receipt_answer w h = Return (Some r) /\ status r <> 1)
      /\ (reports ETHUSDCSwapService.ts_status answer "pending_confirmation"
          <-> exists r, receipt_answer w h = Return (Some r) /\ status r = 1
                        /\ head (state w) - blockNumber r < 1))
  /\ (forall self,
        let answer := result (USDCETHSwapService.get_transaction_status self h) w in
        (reports USDCETHSwapService.ts_status answer "confirmed"
         <-> exists r, receipt_answer w h = Return (Some r) /\ status r = 1
                       /\ head (state w) - blockNumber r >= 1)
        /\ (reports USDCETHSwapService.ts_status answer "failed"
            <-> exists r, receipt_answer w h = Return (Some r) /\ status r <> 1)
        /\ (reports USDCETHSwapService.ts_status answer "pending_confirmation"
            <-> exists r, receipt_answer w h = Return (Some r) /\ status r = 1
                          /\ head (state w) - blockNumber r < 1)).
Proof.
  split; intros self answer; subst answer.
  - rewrite eth_status_run. status_cases w h.
  - rewrite usdc_status_run. status_cases w h.
Qed.

(** ** The Permit2 approval *)

Lemma usdc_service_ensure w self :
  wp (USDCETHSwapService.ensure_permit2_approval self) w
     (fun o w' =>
        (2 ^ 256 - 1 <= allowances (state w) PERMIT2_ADDRESS ->
         o = Return "" /\ skipn (List.length (sent (calls w))) (sent (calls w')) = [])
        /\ (allowances (state w) PERMIT2_ADDRESS < 2 ^ 256 - 1 ->
            o <> Return ""
            /\ skipn (List.length (sent (calls w))) (sent (calls w'))
               = [permit2_approval (USDCETHSwapService.account self) (state w)])).
Proof.
  unfold USDCETHSwapService.ensure_permit2_approval.
  wp_run; tidy;
    match goal with
    | H : (_ >=? _) = _ |- _ =>
        unfold USDCETHSwapService.permit2_allowance_needed,
          USDCETHSwapService.permit2_address in H;
        first [ apply Z.geb_le in H | rewrite Z.geb_leb in H; apply Z.leb_gt in H ]
    end;
    (split; intros Hle; [ try lia | try lia ]);
    (split; [ first [ reflexivity | discriminate ] | reflexivity ]).
Qed.

Lemma usdc_agent_ensure w self :
  wp (UsdcToEthAgent.ensure_permit2_approval self) w
     (fun o w' =>
        (2 ^ 256 - 1 <= allowances (state w) PERMIT2_ADDRESS ->
         o = Return "" /\ skipn (List.length (sent (calls w))) (sent (calls w')) = [])
        /\ (allowances (state w) PERMIT2_ADDRESS < 2 ^ 256 - 1 ->
            o <> Return ""
            /\ skipn (List.length (sent (calls w))) (sent (calls w'))
               = [permit2_approval (UsdcToEthAgent.account self) (state w)])).
Proof.
  unfold UsdcToEthAgent.ensure_permit2_approval.
  wp_run; tidy;
    match goal with
    | H : (_ >=? _) = _ |- _ =>
        unfold UsdcToEthAgent.permit2_allowance_needed,
          UsdcToEthAgent.permit2_address in H;
        first [ apply Z.geb_le in H | rewrite Z.geb_leb in H; apply Z.leb_gt in H ]
    end;
    (split; intros Hle; [ try lia | try lia ]);
    (split; [ first [ reflexivity | discriminate ] | reflexivity ]).
Qed.

(** C9.  With the allowance a uint256, [ensure_permit2_approval]
    (service and agent) returns the empty string without submitting
    anything if and only if the allowance of Permit2 equals 2^256 - 1;
    for every allowance strictly below it submits a new approval of
    2^256 - 1, however large the allowance already is. *)
Theorem ensure_permit2_approval_skips_iff_max (w : world) :
  0 <= allowances (state w) PERMIT2_ADDRESS <= 2 ^ 256 - 1 ->
  (forall self,
      (result (USDCETHSwapService.ensure_permit2_approval self) w = Return ""
       /\ submitted (USDCETHSwapService.ensure_permit2_approval self) w = []
       <-> allowances (state w) PERMIT2_ADDRESS = 2 ^ 256 - 1)
      /\ (allowances (state w) PERMIT2_ADDRESS < 2 ^ 256 - 1 ->
          submitted (USDCETHSwapService.ensure_permit2_approval self) w
          = [permit2_approval (USDCETHSwapService.account self) (state w)]))
  /\ (forall self,
        (result (UsdcToEthAgent.ensure_permit2_approval self) w = Return ""
         /\ submitted (UsdcToEthAgent.ensure_permit2_approval self) w = []
         <-> allowances (state w) PERMIT2_ADDRESS = 2 ^ 256 - 1)
        /\ (allowances (state w) PERMIT2_ADDRESS < 2 ^ 256 - 1 ->
            submitted (UsdcToEthAgent.ensure_permit2_approval self) w
            = [permit2_approval (UsdcToEthAgent.account self) (state w)])).
Proof.
  intros Hrange. split; intros self.
  - destruct (usdc_service_ensure w self) as [Hmax Hlow].
    fold (submitted (USDCETHSwapService.ensure_permit2_approval self) w) in Hmax, Hlow.
    split; [split|].
    + intros [Hr _].
      destruct (Z.eq_dec (allowances (state w) PERMIT2_ADDRESS) (2 ^ 256 - 1)) as [E|E];
        [exact E|].
      destruct Hlow as [Hne _]; [lia|]. contradiction.
    + intros E. apply Hmax. lia.
    + intros Hlt. apply Hlow. exact Hlt.
  - destruct (usdc_agent_ensure w self) as [Hmax Hlow].
    fold (submitted (UsdcToEthAgent.ensure_permit2_approval self) w) in Hmax, Hlow.
    split; [split|].
    + intros [Hr _].
      destruct (Z.eq_dec (allowances (state w) PERMIT2_ADDRESS) (2 ^ 256 - 1)) as [E|E];
        [exact E|].
      destruct Hlow as [Hne _]; [lia|]. contradiction.
    + intros E. apply Hmax. lia.
    + intros Hlt. apply Hlow. exact Hlt.
Qed.

Lemma ensure_permit2_approval_skips_iff_max_witness :
  0 <= 2 ^ 255 <= 2 ^ 256 - 1
  /\ submitted (USDCETHSwapService.ensure_permit2_approval usdc_service)
       (half_approved (world_of true (Raise (ImportError "get_eth_price"))))
     = [permit2_approval signer
          (state (half_approved (world_of true (Raise (ImportError "get_eth_price")))))].
Proof.
  split.
  - vm_compute. split; intro H; discriminate H.
  - refine (proj2 (proj1 (ensure_permit2_approval_skips_iff_max
                            (half_approved (world_of true (Raise (ImportError "get_eth_price")))) _)
                         usdc_service) _).
    + vm_compute. split; intro H; discriminate H.
    + vm_compute. reflexivity.
Defined.

(** C3, as stated, fails: on a node that leaves the first approval
    unconfirmed, the second call of [ensure_permit2_approval] submits a
    second approval. *)
Lemma no_pending_approval_guard :
  ~ at_most_one_pending_approval
      (USDCETHSwapService.ensure_permit2_approval usdc_service) signer stalled
  /\ ~ at_most_one_pending_approval
         (UsdcToEthAgent.ensure_permit2_approval usdc_agent) signer stalled.
Proof.
  split; intros H.
  - destruct H as [_ H].
    + eexists; split; [|split].
      * vm_compute. left. reflexivity.
      * reflexivity.
      * vm_compute. reflexivity.
    + vm_compute in H. discriminate H.
  - destruct H as [_ H].
    + eexists; split; [|split].
      * vm_compute. left. reflexivity.
      * reflexivity.
      * vm_compute. reflexivity.
    + vm_compute in H. discriminate H.
Qed.

(** C3, amended.  [ensure_permit2_approval] keeps no record of pending
    approvals: called while an approval [t0] of Permit2 by the same owner
    still waits in the pool and the allowance is below 2^256 - 1, it
    submits one more approval, a duplicate of [t0] with the next pending
    nonce (service and agent). *)
Theorem ensure_permit2_approval_resubmits (w : world) (t0 : transaction) :
  In t0 (mempool (state w)) ->
  tx_data t0 = Approve PERMIT2_ADDRESS (2 ^ 256 - 1) ->
  allowances (state w) PERMIT2_ADDRESS < 2 ^ 256 - 1 ->
  (forall self,
      USDCETHSwapService.account self = tx_from t0 ->
      exists t,
        submitted (USDCETHSwapService.ensure_permit2_approval self) w = [t]
        /\ tx_from t = tx_from t0 /\ tx_data t = tx_data t0
        /\ tx_nonce t = transaction_count pending (state w))
  /\ (forall self,
        UsdcToEthAgent.account self = tx_from t0 ->
        exists t,
          submitted (UsdcToEthAgent.ensure_permit2_approval self) w = [t]
          /\ tx_from t = tx_from t0 /\ tx_data t = tx_data t0
          /\ tx_nonce t = transaction_count pending (state w)).
Proof.
  intros Hin Hdata Hlow. split; intros self Hown.
  - destruct (usdc_service_ensure w self) as [_ H].
    destruct (H Hlow) as [_ Hs].
    eexists. split; [exact Hs|]. rewrite Hdata. simpl. auto.
  - destruct (usdc_agent_ensure w self) as [_ H].
    destruct (H Hlow) as [_ Hs].
    eexists. split; [exact Hs|]. rewrite Hdata. simpl. auto.
Qed.

Lemma ensure_permit2_approval_resubmits_witness :
  map tx_nonce
      (mempool (state (after (USDCETHSwapService.ensure_permit2_approval usdc_service)
                             stalled))) = [0]
  /\ exists t,
       submitted (USDCETHSwapService.ensure_permit2_approval usdc_service)
         (after (USDCETHSwapService.ensure_permit2_approval usdc_service) stalled) = [t]
       /\ tx_from t = signer
       /\ tx_data t = Approve PERMIT2_ADDRESS (2 ^ 256 - 1)
       /\ tx_nonce t = 1.
Proof.
  split; [vm_compute; reflexivity|].
  refine (proj1 (ensure_permit2_approval_resubmits
                   (after (USDCETHSwapService.ensure_permit2_approval usdc_service) stalled)
                   (permit2_approval signer (state stalled)) _ _ _)
                usdc_service _).
  - vm_compute. left. reflexivity.
  - reflexivity.
  - vm_compute. reflexivity.
  - reflexivity.
Defined.

(** ** The nonce *)

(** C2, evaluated where it fails.  After a first sale whose transaction
    still waits in the pool with nonce 0, the pending-inclusive count is
    1, yet a second sale, through the service or through the agent, is
    submitted with nonce 0 again: [get_transaction_count] is called
    without ['pending'].  The purchase path, on the same pool, takes 1
    for its approval and 2 for its router call. *)
Theorem swap_eth_to_usdc_nonce_ignores_pending :
  map tx_nonce (mempool (state (busy stalled))) = [0]
  /\ transaction_count pending (state (busy stalled)) = 1
  /\ map tx_nonce (submitted first_sale (busy stalled)) = [0]
  /\ map tx_nonce (submitted (EthToUsdcAgent.swap_eth_to_usdc eth_agent 0.5)
                             (busy stalled)) = [0]
  /\ map tx_nonce
         (submitted (USDCETHSwapService.swap_usdc_to_eth usdc_service 10 0.01
                       500000 1.5 true)
                    (busy mining)) = [1; 2].
Proof. vm_compute. repeat split; reflexivity. Qed.

(** ** Validation *)

Lemma eth_service_rejects w self a s g m :
  (a <=? 0)%float = true ->
  wp (ETHUSDCSwapService.swap_eth_to_usdc self a s g m) w
     (fun o w' =>
        o = Raise (BlockchainError "Failed to swap ETH to USDC"
                     (ValueError (Lit "ETH amount must be greater than 0")))
        /\ calls w' = calls w).
Proof.
  intros H. unfold ETHUSDCSwapService.swap_eth_to_usdc. rewrite H.
  wp_run; tidy. split; reflexivity.
Qed.

Lemma usdc_service_rejects w self a s g m wait :
  (a <=? 0)%float = true ->
  wp (USDCETHSwapService.swap_usdc_to_eth self a s g m wait) w
     (fun o w' =>
        o = Raise (BlockchainError "Failed to swap USDC to ETH"
                     (ValueError (Lit "USDC amount must be greater than 0")))
        /\ calls w' = calls w).
Proof.
  intros H. unfold USDCETHSwapService.swap_usdc_to_eth. rewrite H.
  wp_run; tidy. split; reflexivity.
Qed.

(** C5, as stated, fails: a purchase of 10 USDC with a slippage of -0.5,
    outside the range, is not rejected; it queries the ledger and goes
    through. *)
Lemma invalid_slippage_reaches_ledger :
  invalid_request 10 (-0.5)
  /\ ~ rejected_before_io
         (USDCETHSwapService.swap_usdc_to_eth usdc_service 10 (-0.5) 500000 1.5 true)
         mining
  /\ ~ rejected_before_io
         (ETHUSDCSwapService.swap_eth_to_usdc eth_service 0.5 (-0.5) 500000 1.5)
         mining.
Proof.
  split; [right; left; vm_compute; reflexivity|].
  split; intros [_ H]; vm_compute in H; discriminate H.
Qed.

(** C5, amended.  A swap of a non-positive amount fails at once, in both
    services, with the error of the amount check and before any call
    leaves the process; the slippage is not validated. *)
Theorem nonpositive_amount_rejected_before_io (w : world) (amount : float) :
  (amount <=? 0)%float = true ->
  (forall self s g m,
      rejected_before_io (ETHUSDCSwapService.swap_eth_to_usdc self amount s g m) w
      /\ result (ETHUSDCSwapService.swap_eth_to_usdc self amount s g m) w
         = Raise (BlockchainError "Failed to swap ETH to USDC"
                    (ValueError (Lit "ETH amount must be greater than 0"))))
  /\ (forall self s g m wait,
        rejected_before_io
          (USDCETHSwapService.swap_usdc_to_eth self amount s g m wait) w
        /\ result (USDCETHSwapService.swap_usdc_to_eth self amount s g m wait) w
           = Raise (BlockchainError "Failed to swap USDC to ETH"
                      (ValueError (Lit "USDC amount must be greater than 0")))).
Proof.
  intros H. split; intros.
  - destruct (eth_service_rejects w self amount s g m H) as [Hr Hc].
    unfold rejected_before_io. repeat split; eauto.
  - destruct (usdc_service_rejects w self amount s g m wait H) as [Hr Hc].
    unfold rejected_before_io. repeat split; eauto.
Qed.

Lemma nonpositive_amount_rejected_before_io_witness :
  (0 <=? 0)%float = true
  /\ rejected_before_io
       (ETHUSDCSwapService.swap_eth_to_usdc eth_service 0 0.01 500000 1.5) mining.
Proof.
  split; [reflexivity|].
  refine (proj1 (proj1 (nonpositive_amount_rejected_before_io mining 0 _)
                       eth_service 0.01%float 500000 1.5%float)).
  reflexivity.
Defined.

(** ** The fallback price *)

Lemma repository_rate_source_fails (fetched : outcome float) :
  repository_rate_source fetched = Raise (ImportError "get_eth_price").
Proof. reflexivity. Qed.

Lemma eth_estimate_fallback w self a s e :
  rate_source w = Raise e ->
  wp (ETHUSDCSwapService.estimate_usdc_output self a s) w
     (fun o w' =>
        o = Return ((a * 3000)%float, (a * 3000 * (1 - s))%float)
        /\ log w' = log w ++ [(WARNING, "Failed to get ETH price from LLM service");
                              (INFO, "Estimated ETH -> USDC")]).
Proof.
  intros H. unfold ETHUSDCSwapService.estimate_usdc_output,
    ETHUSDCSwapService.get_eth_price.
  wp_run; world_simpl; try congruence.
  split; [reflexivity|]. rewrite <- app_assoc. reflexivity.
Qed.

Lemma eth_estimate_live w self a s p :
  rate_source w = Return p ->
  wp (ETHUSDCSwapService.estimate_usdc_output self a s) w
     (fun o w' => o = Return ((a * p)%float, (a * p * (1 - s))%float)).
Proof.
  intros H. unfold ETHUSDCSwapService.estimate_usdc_output,
    ETHUSDCSwapService.get_eth_price.
  wp_run; world_simpl; congruence.
Qed.

Lemma usdc_estimate_fallback w self a s e :
  rate_source w = Raise e ->
  wp (USDCETHSwapService.estimate_eth_output self a s) w
     (fun o w' =>
        o = Return ((a / 3000)%float, (a / 3000 * (1 - s))%float)
        /\ log w' = log w ++ [(WARNING, "Failed to get ETH price from LLM service");
                              (INFO, "Estimated USDC -> ETH")]).
Proof.
  intros H. unfold USDCETHSwapService.estimate_eth_output,
    USDCETHSwapService.get_eth_price.
  wp_run; world_simpl; try congruence.
  all: match goal with
       | E : truediv _ _ = _ |- _ =>
           unfold truediv in E;
           change ((3000 =? 0)%float) with false in E;
           first [ discriminate E | injection E as <- ]
       end.
  split; [reflexivity|]. rewrite <- app_assoc. reflexivity.
Qed.

Lemma usdc_estimate_live w self a s p :
  rate_source w = Return p ->
  (p =? 0)%float = false ->
  wp (USDCETHSwapService.estimate_eth_output self a s) w
     (fun o w' => o = Return ((a / p)%float, (a / p * (1 - s))%float)).
Proof.
  intros H Hp. unfold USDCETHSwapService.estimate_eth_output,
    USDCETHSwapService.get_eth_price.
  wp_run; world_simpl; try congruence.
  all: match goal with
       | E : truediv _ _ = _, R : rate_source _ = Return _ |- _ =>
           rewrite H in R; injection R as <-;
           unfold truediv in E; rewrite Hp in E;
           first [ discriminate E | injection E as <- ]
       end.
  reflexivity.
Qed.

(** C7, as stated, fails: the quote computed from the fallback price is
    the very quote a live price of 3000 gives, so nothing read from what
    the estimators return tells a stale quote from a fresh one. *)
Lemma fallback_quote_not_marked :
  ~ marks_stale (ETHUSDCSwapService.estimate_usdc_output eth_service 1 0.01)
  /\ ~ marks_stale (USDCETHSwapService.estimate_eth_output usdc_service 100 0.01).
Proof.
  split; intros [stale H].
  - pose proof (H (world_of true (Raise (ImportError "get_eth_price")))) as Hf.
    pose proof (H (world_of true (Return 3000%float))) as Hl.
    assert (E : result (ETHUSDCSwapService.estimate_usdc_output eth_service 1 0.01)
                  (world_of true (Raise (ImportError "get_eth_price")))
                = result (ETHUSDCSwapService.estimate_usdc_output eth_service 1 0.01)
                    (world_of true (Return 3000%float)))
      by (vm_compute; reflexivity).
    rewrite E in Hf. rewrite Hl in Hf. discriminate Hf.
  - pose proof (H (world_of true (Raise (ImportError "get_eth_price")))) as Hf.
    pose proof (H (world_of true (Return 3000%float))) as Hl.
    assert (E : result (USDCETHSwapService.estimate_eth_output usdc_service 100 0.01)
                  (world_of true (Raise (ImportError "get_eth_price")))
                = result (USDCETHSwapService.estimate_eth_output usdc_service 100 0.01)
                    (world_of true (Return 3000%float)))
      by (vm_compute; reflexivity).
    rewrite E in Hf. rewrite Hl in Hf. discriminate Hf.
Qed.

(** C7, amended.  Whenever the rate source fails, both estimators log a
    warning and compute the quote from the static price 3000; the quote
    carries no mark of it: it is the quote of a world whose rate source
    answers 3000. *)
Theorem fallback_quote_from_static_price (w : world) (e : exn) :
  rate_source w = Raise e ->
  (forall self a s,
      result (ETHUSDCSwapService.estimate_usdc_output self a s) w
      = Return ((a * 3000)%float, (a * 3000 * (1 - s))%float)
      /\ In (WARNING, "Failed to get ETH price from LLM service")
            (log (after (ETHUSDCSwapService.estimate_usdc_output self a s) w))
      /\ result (ETHUSDCSwapService.estimate_usdc_output self a s) w
         = result (ETHUSDCSwapService.estimate_usdc_output self a s)
             (with_rate (Return 3000%float) w))
  /\ (forall self a s,
        result (USDCETHSwapService.estimate_eth_output self a s) w
        = Return ((a / 3000)%float, (a / 3000 * (1 - s))%float)
        /\ In (WARNING, "Failed to get ETH price from LLM service")
              (log (after (USDCETHSwapService.estimate_eth_output self a s) w))
        /\ result (USDCETHSwapService.estimate_eth_output self a s) w
           = result (USDCETHSwapService.estimate_eth_output self a s)
               (with_rate (Return 3000%float) w)).
Proof.
  intros H. split; intros self a s.
  - destruct (eth_estimate_fallback w self a s e H) as [Hr Hl].
    split; [exact Hr|]. split.
    + rewrite Hl. apply in_or_app. right. left. reflexivity.
    + rewrite Hr. symmetry.
      apply (eth_estimate_live (with_rate (Return 3000%float) w) self a s 3000%float).
      reflexivity.
  - destruct (usdc_estimate_fallback w self a s e H) as [Hr Hl].
    split; [exact Hr|]. split.
    + rewrite Hl. apply in_or_app. right. left. reflexivity.
    + rewrite Hr. symmetry.
      apply (usdc_estimate_live (with_rate (Return 3000%float) w) self a s 3000%float);
        reflexivity.
Qed.

Lemma fallback_quote_from_static_price_witness :
  rate_source mining = Raise (ImportError "get_eth_price")
  /\ result (ETHUSDCSwapService.estimate_usdc_output eth_service 0.5 0.01) mining
     = Return (1500%float, 1485%float).
Proof.
  split; [reflexivity|].
  refine (proj1 (proj1 (fallback_quote_from_static_price mining
                          (ImportError "get_eth_price") _)
                       eth_service 0.5%float 0.01%float)).
  reflexivity.
Defined.

(** ** Rounding in binary64

    From the specification of the primitive floats: what rounding to
    nearest does to a bound that is itself representable. *)

Lemma digits_pos p : 1 <= digits p.
Proof. unfold digits. lia. Qed.

(** Powers of two as atoms for [lia]. *)
Ltac atoms :=
  repeat match goal with
         | |- context [2 ^ ?e] =>
             let a := fresh "pw" in set (a := 2 ^ e) in *; clearbody a
         | H : context [2 ^ ?e] |- _ =>
             let a := fresh "pw" in set (a := 2 ^ e) in *; clearbody a
         end.

Lemma digits_bounds p : 2 ^ (digits p - 1) <= Zpos p < 2 ^ digits p.
Proof.
  unfold digits. induction p as [p IH|p IH|]; simpl digits2_pos.
  - rewrite Pos2Z.inj_succ, (Pos2Z.inj_xI p).
    replace (Z.succ (Zpos (digits2_pos p)) - 1) with (Z.succ (Zpos (digits2_pos p) - 1)) by lia.
    rewrite !Z.pow_succ_r by lia. atoms. lia.
  - rewrite Pos2Z.inj_succ, (Pos2Z.inj_xO p).
    replace (Z.succ (Zpos (digits2_pos p)) - 1) with (Z.succ (Zpos (digits2_pos p) - 1)) by lia.
    rewrite !Z.pow_succ_r by lia. atoms. lia.
  - simpl. lia.
Qed.

Lemma fexp_eq e : fexp prec emax e = Z.max (e - 53) (-1074).
Proof. reflexivity. Qed.

Lemma shr_1_nonneg mrs :
  0 <= shr_m mrs ->
  shr_1 mrs
  = {| shr_m := shr_m mrs / 2; shr_r := Z.odd (shr_m mrs);
       shr_s := shr_r mrs || shr_s mrs |}.
Proof.
  destruct mrs as [m r s]. simpl. intros Hm.
  destruct m as [|p|p]; [reflexivity| |lia].
  destruct p as [p|p|].
  - f_equal. rewrite (Pos2Z.inj_xI p). apply Z.div_unique with 1; lia.
  - f_equal. rewrite (Pos2Z.inj_xO p). apply Z.div_unique with 0; lia.
  - reflexivity.
Qed.

Lemma pow2_pos n : 0 <= n -> 0 < 2 ^ n.
Proof. intros. apply Z.pow_pos_nonneg; lia. Qed.

Lemma divide_split a b m :
  0 <= a -> 0 <= b -> (2 ^ (a + b) | m) -> (2 ^ a | m) /\ (2 ^ b | m / 2 ^ a).
Proof.
  intros Ha Hb [c Hc]. rewrite Z.pow_add_r in Hc by lia.
  pose proof (pow2_pos a Ha).
  split.
  - exists (c * 2 ^ b). lia.
  - exists c. replace m with (c * 2 ^ b * 2 ^ a) by lia.
    rewrite Z.div_mul by lia. reflexivity.
Qed.

Lemma odd_double c : Z.odd (c * 2) = false.
Proof. rewrite Z.odd_mul. apply andb_false_r. Qed.

Ltac pw := first [ lia | apply pow2_pos; lia | apply Z.pow_nonzero; lia ].

(** Shifting a record right [p] times: the mantissa is divided by 2^p, and
    nothing is recorded as lost when nothing was lost. *)
Lemma iter_shr_1 p : forall mrs,
  0 <= shr_m mrs ->
  shr_m (iter_pos shr_1 p mrs) = shr_m mrs / 2 ^ Zpos p
  /\ (shr_r mrs = false -> shr_s mrs = false -> (2 ^ Zpos p | shr_m mrs) ->
      shr_r (iter_pos shr_1 p mrs) = false /\ shr_s (iter_pos shr_1 p mrs) = false).
Proof.
  induction p as [p IH|p IH|]; intros mrs Hm.
  - cbn [iter_pos]. rewrite shr_1_nonneg by assumption.
    set (m := shr_m mrs) in *.
    assert (H2 : 0 <= m / 2) by (apply Z.div_pos; lia).
    destruct (IH {| shr_m := m / 2; shr_r := Z.odd m;
                    shr_s := shr_r mrs || shr_s mrs |} H2) as [E1 F1].
    cbn [shr_m shr_r shr_s] in E1, F1.
    set (mrs1 := iter_pos shr_1 p _) in *.
    assert (H3 : 0 <= shr_m mrs1).
    { rewrite E1. apply Z.div_pos; [lia|apply pow2_pos; lia]. }
    destruct (IH _ H3) as [E2 F2].
    split.
    + rewrite E2, E1. rewrite !Z.div_div by pw.
      f_equal. rewrite (Pos2Z.inj_xI p).
      replace (2 * Zpos p + 1) with (1 + Zpos p + Zpos p) by lia.
      rewrite !Z.pow_add_r by lia. change (2 ^ 1) with 2. ring.
    + intros Hr Hs Hd. rewrite Hr, Hs in F1.
      rewrite (Pos2Z.inj_xI p) in Hd.
      replace (2 * Zpos p + 1) with (1 + (Zpos p + Zpos p)) in Hd by lia.
      apply divide_split in Hd; try lia. destruct Hd as [Hd1 Hd2].
      change (2 ^ 1) with 2 in Hd1, Hd2.
      apply divide_split in Hd2; try lia. destruct Hd2 as [Hd2 Hd3].
      assert (Ho : Z.odd m = false).
      { destruct Hd1 as [c Hc]. fold m in Hc. rewrite Hc. apply odd_double. }
      destruct (F1 Ho eq_refl Hd2) as [G1 G2].
      apply F2; [exact G1|exact G2|]. rewrite E1. exact Hd3.
  - cbn [iter_pos].
    destruct (IH mrs Hm) as [E1 F1].
    set (mrs1 := iter_pos shr_1 p mrs) in *.
    assert (H3 : 0 <= shr_m mrs1).
    { rewrite E1. apply Z.div_pos; [lia|apply pow2_pos; lia]. }
    destruct (IH _ H3) as [E2 F2].
    split.
    + rewrite E2, E1. rewrite !Z.div_div by pw.
      f_equal. rewrite (Pos2Z.inj_xO p).
      replace (2 * Zpos p) with (Zpos p + Zpos p) by lia.
      rewrite !Z.pow_add_r by lia. reflexivity.
    + intros Hr Hs Hd.
      rewrite (Pos2Z.inj_xO p) in Hd.
      replace (2 * Zpos p) with (Zpos p + Zpos p) in Hd by lia.
      apply divide_split in Hd; try lia. destruct Hd as [Hd1 Hd2].
      destruct (F1 Hr Hs Hd1) as [G1 G2].
      apply F2; [exact G1|exact G2|]. rewrite E1. exact Hd2.
  - cbn [iter_pos]. rewrite shr_1_nonneg by assumption. cbn [shr_m shr_r shr_s].
    split; [reflexivity|].
    intros -> -> [c Hc]. split; [|reflexivity].
    rewrite Hc. change (2 ^ 1) with 2. apply odd_double.
Qed.

Lemma zdigits_bounds m : 0 < m -> 2 ^ (Zdigits2 m - 1) <= m < 2 ^ Zdigits2 m.
Proof.
  destruct m as [|p|p]; try lia. intros _. exact (digits_bounds p).
Qed.

Lemma zdigits_nonneg m : 0 <= Zdigits2 m.
Proof. destruct m; simpl; lia. Qed.

(** [0 < m < 2^k] has at most [k] digits. *)
Lemma zdigits_le m k : 0 <= k -> 0 < m -> m < 2 ^ k -> Zdigits2 m <= k.
Proof.
  intros Hk Hm Hlt. pose proof (zdigits_bounds m Hm) as [Hlo _].
  pose proof (zdigits_nonneg m).
  destruct (Z.le_gt_cases (Zdigits2 m) k) as [|Hgt]; [assumption|].
  assert (2 ^ k <= 2 ^ (Zdigits2 m - 1)) by (apply Z.pow_le_mono_r; lia).
  lia.
Qed.

(** [2^k <= m] has more than [k] digits. *)
Lemma zdigits_gt m k : 0 <= k -> 2 ^ k <= m -> k < Zdigits2 m.
Proof.
  intros Hk Hle. assert (Hm : 0 < m) by (pose proof (pow2_pos k Hk); lia).
  pose proof (zdigits_bounds m Hm) as [_ Hhi].
  destruct (Z.lt_ge_cases k (Zdigits2 m)) as [|Hge]; [assumption|].
  assert (2 ^ Zdigits2 m <= 2 ^ k)
    by (apply Z.pow_le_mono_r; [lia|exact Hge]).
  lia.
Qed.

(** The first step of rounding: the shift that brings the exponent to
    [fexp], when there is one. *)
Lemma shr_fexp_spec m e l :
  0 <= m ->
  let n := Z.max (fexp prec emax (Zdigits2 m + e) - e) 0 in
  snd (shr_fexp prec emax m e l) = e + n
  /\ shr_m (fst (shr_fexp prec emax m e l)) = m / 2 ^ n
  /\ (l = loc_Exact -> (2 ^ n | m) ->
      loc_of_shr_record (fst (shr_fexp prec emax m e l)) = loc_Exact).
Proof.
  intros Hm n. unfold shr_fexp, shr.
  assert (Hrec : shr_m (shr_record_of_loc m l) = m)
    by (destruct l as [|[]]; reflexivity).
  destruct (fexp prec emax (Zdigits2 m + e) - e) as [|p|p] eqn:En; subst n.
  - cbn [fst snd]. rewrite Z.max_r by lia. rewrite Z.add_0_r, Z.pow_0_r, Z.div_1_r.
    repeat split; [exact Hrec|]. intros -> _. reflexivity.
  - cbn [fst snd]. rewrite Z.max_l by lia.
    destruct (iter_shr_1 p (shr_record_of_loc m l)) as [E F]; [rewrite Hrec; exact Hm|].
    rewrite Hrec in E, F.
    repeat split; [exact E|]. intros -> Hd.
    destruct (F eq_refl eq_refl Hd) as [Fr Fs].
    destruct (iter_pos shr_1 p (shr_record_of_loc m loc_Exact)) as [m' r' s'].
    simpl in Fr, Fs. subst r' s'. reflexivity.
  - cbn [fst snd]. rewrite Z.max_r by lia. rewrite Z.add_0_r, Z.pow_0_r, Z.div_1_r.
    repeat split; [exact Hrec|]. intros -> _. reflexivity.
Qed.

Lemma round_nearest_even_bounds q l :
  q <= round_nearest_even q l <= q + 1
  /\ (l = loc_Exact -> round_nearest_even q l = q).
Proof.
  destruct l as [|[]]; simpl; try (split; [lia|intros; try discriminate; reflexivity]).
  destruct (Z.even q); split; try lia; discriminate.
Qed.



Lemma fexp_mono a b : a <= b -> fexp prec emax a <= fexp prec emax b.
Proof. rewrite !fexp_eq. lia. Qed.

Lemma fexp_ge e : -1074 <= fexp prec emax e.
Proof. rewrite fexp_eq. lia. Qed.

Lemma pow2_add a b : 0 <= a -> 0 <= b -> 2 ^ (a + b) = 2 ^ a * 2 ^ b.
Proof. intros. apply Z.pow_add_r; assumption. Qed.

(** Division by a power of two, as bounds. *)
Lemma div_pow2_bounds m n :
  0 <= m -> 0 <= n -> m / 2 ^ n * 2 ^ n <= m < (m / 2 ^ n + 1) * 2 ^ n.
Proof.
  intros Hm Hn. pose proof (pow2_pos n Hn) as Hp.
  pose proof (Z.div_mod m (2 ^ n) ltac:(lia)) as E.
  pose proof (Z.mod_pos_bound m (2 ^ n) Hp).
  atoms. nia.
Qed.

Lemma chain_lt a b P X x y :
  0 < b -> 0 < y -> a <= P -> X < x -> P * b <= X * y -> a * b < x * y.
Proof.
  intros Hb Hy Ha HX H.
  assert (a * b <= P * b) by (apply Z.mul_le_mono_nonneg_r; lia).
  assert (X * y < x * y) by (apply Z.mul_lt_mono_pos_r; lia).
  lia.
Qed.

(** Rounding a positive number that a representable [x] bounds above
    gives zero or a finite number that [x] still bounds above. *)
Lemma round_le sx p e mx ex :
  - K <= e ->
  e <= fexp prec emax (digits p + e) ->
  ex = fexp prec emax (digits mx + ex) ->
  ex <= 971 ->
  Zpos p * 2 ^ (e + K) <= Zpos mx * 2 ^ (ex + K) ->
  binary_round_aux prec emax sx (Zpos p) e loc_Exact = S754_zero sx
  \/ exists m2 e2,
       binary_round_aux prec emax sx (Zpos p) e loc_Exact = S754_finite sx m2 e2
       /\ Zpos m2 * 2 ^ (e2 + K) <= Zpos mx * 2 ^ (ex + K).
Proof.
  intros HK Hn Hcan Hmax Hval. unfold K in *.
  unfold binary_round_aux.
  pose proof (shr_fexp_spec (Zpos p) e loc_Exact ltac:(lia)) as (He1 & Hq & Hex).
  destruct (shr_fexp prec emax (Zpos p) e loc_Exact) as [mrs1 e1].
  cbn [fst snd] in He1, Hq, Hex.
  change (Zdigits2 (Zpos p)) with (digits p) in *.
  set (n := Z.max (fexp prec emax (digits p + e) - e) 0) in *.
  assert (En : n = fexp prec emax (digits p + e) - e) by lia.
  assert (Hn0 : 0 <= n) by lia.
  set (q := shr_m mrs1) in *.
  set (m1 := round_nearest_even q (loc_of_shr_record mrs1)).
  pose proof (round_nearest_even_bounds q (loc_of_shr_record mrs1)) as [Hm1 Hexact].
  fold m1 in Hm1, Hexact.
  pose proof (div_pow2_bounds (Zpos p) n ltac:(lia) Hn0) as Hdiv.
  rewrite <- Hq in Hdiv.
  assert (Hq0 : 0 <= q) by (rewrite Hq; apply Z.div_pos; [lia|apply pow2_pos; lia]).
  pose proof (shr_fexp_spec m1 e1 loc_Exact ltac:(lia)) as (He2 & Hm2 & _).
  destruct (shr_fexp prec emax m1 e1 loc_Exact) as [mrs2 e2].
  cbn [fst snd] in He2, Hm2.
  set (n2 := Z.max (fexp prec emax (Zdigits2 m1 + e1) - e1) 0) in *.
  assert (Hn2 : 0 <= n2) by lia.
  (* the exponents *)
  pose proof (fexp_ge (digits mx + ex)) as Hex0.
  pose proof (digits_bounds p) as [Hplo Hphi].
  pose proof (digits_bounds mx) as [Hxlo Hxhi].
  pose proof (digits_pos p) as Hdp. pose proof (digits_pos mx) as Hdx.
  assert (A1 : digits p + e <= digits mx + ex).
  { assert (2 ^ (digits p - 1 + (e + 2200)) < 2 ^ (digits mx + (ex + 2200))) as Hlt.
    { rewrite (pow2_add (digits p - 1) (e + 2200)),
        (pow2_add (digits mx) (ex + 2200)) by lia.
      apply chain_lt with (P := Zpos p) (X := Zpos mx);
        first [ apply pow2_pos; lia | assumption ]. }
    apply Z.pow_lt_mono_r_iff in Hlt; lia. }
  assert (A2 : e1 <= ex).
  { rewrite He1, En, Hcan. pose proof (fexp_mono _ _ A1). lia. }
  (* the bound, as a multiple of the unit of the rounded number *)
  set (c := Zpos mx * 2 ^ (ex - e1)).
  assert (A3 : Zpos mx * 2 ^ (ex + 2200) = c * 2 ^ (e1 + 2200)).
  { unfold c. replace (ex + 2200) with ((ex - e1) + (e1 + 2200)) by lia.
    rewrite (pow2_add (ex - e1) (e1 + 2200)) by lia. ring. }
  assert (A4 : 2 ^ (e1 + 2200) = 2 ^ n * 2 ^ (e + 2200)).
  { rewrite <- (pow2_add n (e + 2200)) by lia. f_equal. lia. }
  assert (A5 : Zpos p <= c * 2 ^ n).
  { rewrite A3, A4 in Hval.
    pose proof (pow2_pos (e + 2200) ltac:(lia)).
    atoms. nia. }
  assert (A6 : m1 <= c).
  { pose proof (pow2_pos n Hn0) as Hp.
    destruct (Z.eq_dec (Zpos p mod 2 ^ n) 0) as [Hz|Hnz].
    - assert (Hd : (2 ^ n | Zpos p)) by (apply Z.mod_divide; [lia|exact Hz]).
      rewrite (Hexact (Hex eq_refl Hd)). atoms. nia.
    - pose proof (Z.div_mod (Zpos p) (2 ^ n) ltac:(lia)) as E.
      pose proof (Z.mod_pos_bound (Zpos p) (2 ^ n) Hp).
      rewrite <- Hq in E. atoms. nia. }
  set (m2 := shr_m mrs2) in *.
  pose proof (div_pow2_bounds m1 n2 ltac:(lia) Hn2) as Hdiv2.
  rewrite <- Hm2 in Hdiv2.
  assert (Hm20 : 0 <= m2) by (rewrite Hm2; apply Z.div_pos; [lia|apply pow2_pos; lia]).
  assert (A7 : m2 * 2 ^ (e2 + 2200) <= Zpos mx * 2 ^ (ex + 2200)).
  { rewrite A3, He2. replace (e1 + n2 + 2200) with (n2 + (e1 + 2200)) by lia.
    rewrite (pow2_add n2 (e1 + 2200)) by lia.
    pose proof (pow2_pos (e1 + 2200) ltac:(lia)).
    atoms. nia. }
  destruct m2 as [|pm2|pm2] eqn:Em2; [left; reflexivity| |lia].
  right. exists pm2, e2.
  assert (A8 : e2 <= ex).
  { assert (H1 : 0 < m1) by (pose proof (pow2_pos n2 Hn2); atoms; nia).
    assert (Zdigits2 m1 <= digits mx + (ex - e1)).
    { apply zdigits_le; [lia|exact H1|].
      rewrite (pow2_add (digits mx) (ex - e1)) by lia.
      pose proof (pow2_pos (ex - e1) ltac:(lia)).
      unfold c in A6. atoms. nia. }
    assert (fexp prec emax (Zdigits2 m1 + e1) <= ex).
    { rewrite Hcan. apply fexp_mono. lia. }
    lia. }
  replace (e2 <=? emax - prec) with true
    by (symmetry; apply Z.leb_le; change (emax - prec) with 971; lia).
  split; [reflexivity|exact A7].
Qed.


(** A valid finite number is canonical and bounded. *)
Lemma valid_canonical s m e :
  valid_binary (S754_finite s m e) = true ->
  e = fexp prec emax (digits m + e) /\ e <= 971 /\ -1074 <= e /\ digits m <= 53.
Proof.
  unfold SpecFloat.valid_binary, bounded, canonical_mantissa.
  intros H. apply andb_prop in H. destruct H as [Hc Hb].
  apply Z.eqb_eq in Hc. apply Z.leb_le in Hb. change (emax - prec) with 971 in Hb.
  fold (digits m) in Hc. pose proof (fexp_eq (digits m + e)) as E.
  repeat split; lia.
Qed.

Lemma chain_scale m2 m1 P A B :
  0 < B -> 0 <= P -> m2 < 2 * P -> P <= m1 -> 2 <= A -> m2 * B < m1 * (A * B).
Proof.
  intros HB HP H2 H1 HA.
  assert (2 * P <= m1 * A) by nia.
  assert (m2 * B < 2 * P * B) by (apply Z.mul_lt_mono_pos_r; lia).
  assert (2 * P * B <= m1 * A * B) by (apply Z.mul_le_mono_nonneg_r; lia).
  lia.
Qed.

(** Between canonical positive numbers the order of the values is the
    order [SFleb] computes. *)
Lemma finite_leb m1 e1 m2 e2 :
  e1 = fexp prec emax (digits m1 + e1) ->
  e2 = fexp prec emax (digits m2 + e2) ->
  Zpos m1 * 2 ^ (e1 + K) <= Zpos m2 * 2 ^ (e2 + K) ->
  SFleb (S754_finite false m1 e1) (S754_finite false m2 e2) = true.
Proof.
  intros C1 C2 Hval. unfold K in *.
  pose proof (fexp_eq (digits m1 + e1)) as F1.
  pose proof (fexp_eq (digits m2 + e2)) as F2.
  pose proof (digits_bounds m1) as [L1 U1].
  pose proof (digits_bounds m2) as [L2 U2].
  pose proof (digits_pos m1). pose proof (digits_pos m2).
  unfold SFleb, SFcompare.
  destruct (Z.compare_spec e1 e2) as [E|E|E].
  - subst e2. change (Pos.compare_cont Eq m1 m2) with (Pos.compare m1 m2).
    destruct (Pos.compare_spec m1 m2) as [|Hlt|Hgt]; try reflexivity.
    exfalso. pose proof (pow2_pos (e1 + 2200) ltac:(lia)).
    assert (Zpos m2 < Zpos m1) by lia. atoms. nia.
  - reflexivity.
  - exfalso.
    assert (D1 : digits m1 = 53) by lia.
    assert (D2 : digits m2 <= 53) by lia.
    rewrite D1 in L1. change (53 - 1) with 52 in L1.
    assert (U2' : Zpos m2 < 2 ^ 53).
    { apply Z.lt_le_trans with (1 := U2). apply Z.pow_le_mono_r; lia. }
    assert (Hlt : Zpos m2 * 2 ^ (e2 + 2200) < Zpos m1 * 2 ^ (e1 + 2200)).
    { replace (e1 + 2200) with ((e1 - e2) + (e2 + 2200)) by lia.
      rewrite (pow2_add (e1 - e2) (e2 + 2200)) by lia.
      assert (2 ^ 1 <= 2 ^ (e1 - e2)) by (apply Z.pow_le_mono_r; lia).
      change (2 ^ 1) with 2 in *.
      pose proof (pow2_pos (e2 + 2200) ltac:(lia)).
      assert (Hs : 2 ^ 53 = 2 * 2 ^ 52) by reflexivity.
      rewrite Hs in U2'.
      apply chain_scale with (P := 2 ^ 52); try assumption; lia. }
    lia.
Qed.

(** The product of two canonical mantissas has digits enough for the
    rounding to shift right. *)
Lemma mul_shift mx ex my ey :
  ex = fexp prec emax (digits mx + ex) ->
  ey = fexp prec emax (digits my + ey) ->
  ex + ey <= fexp prec emax (digits (mx * my) + (ex + ey)).
Proof.
  intros Cx Cy.
  pose proof (fexp_eq (digits mx + ex)) as Fx.
  pose proof (fexp_eq (digits my + ey)) as Fy.
  pose proof (digits_bounds mx) as [Lx Ux].
  pose proof (digits_bounds my) as [Ly Uy].
  pose proof (digits_pos mx). pose proof (digits_pos my).
  assert (Hd : digits mx + digits my - 2 < digits (mx * my)).
  { apply (zdigits_gt (Zpos (mx * my))); [lia|].
    replace (digits mx + digits my - 2) with ((digits mx - 1) + (digits my - 1)) by lia.
    rewrite (pow2_add (digits mx - 1) (digits my - 1)) by lia.
    rewrite Pos2Z.inj_mul.
    pose proof (pow2_pos (digits mx - 1) ltac:(lia)).
    pose proof (pow2_pos (digits my - 1) ltac:(lia)).
    atoms. nia. }
  rewrite fexp_eq. lia.
Qed.

(** Rounding a non-negative mantissa never changes the sign nor gives
    NaN. *)
Lemma round_sign sx m e l :
  0 <= m ->
  binary_round_aux prec emax sx m e l = S754_zero sx
  \/ (exists m2 e2, binary_round_aux prec emax sx m e l = S754_finite sx m2 e2)
  \/ binary_round_aux prec emax sx m e l = S754_infinity sx.
Proof.
  intros Hm. unfold binary_round_aux.
  pose proof (shr_fexp_spec m e l Hm) as (_ & Hq & _).
  destruct (shr_fexp prec emax m e l) as [mrs1 e1]. cbn [fst snd] in Hq.
  pose proof (round_nearest_even_bounds (shr_m mrs1) (loc_of_shr_record mrs1)) as [Hm1 _].
  assert (Hq0 : 0 <= shr_m mrs1).
  { rewrite Hq. apply Z.div_pos; [lia|apply pow2_pos; lia]. }
  set (m1 := round_nearest_even (shr_m mrs1) (loc_of_shr_record mrs1)) in *.
  pose proof (shr_fexp_spec m1 e1 loc_Exact ltac:(lia)) as (_ & Hm2 & _).
  destruct (shr_fexp prec emax m1 e1 loc_Exact) as [mrs2 e2]. cbn [fst snd] in Hm2.
  assert (Hm20 : 0 <= shr_m mrs2).
  { rewrite Hm2. apply Z.div_pos; [lia|apply pow2_pos; lia]. }
  destruct (shr_m mrs2) as [|pm|pm]; [left; reflexivity| |lia].
  right. destruct (e2 <=? emax - prec); [left; eauto|right; reflexivity].
Qed.

(** Shifting to [fexp] keeps a positive mantissa positive as long as the
    exponent is at least the smallest one. *)
Lemma shift_keeps_positive m e :
  0 < m -> -1074 <= e ->
  0 < m / 2 ^ Z.max (fexp prec emax (Zdigits2 m + e) - e) 0.
Proof.
  intros Hm He. set (n := Z.max _ 0).
  pose proof (zdigits_bounds m Hm) as [Lo _].
  pose proof (fexp_eq (Zdigits2 m + e)) as F.
  assert (Hd : 1 <= Zdigits2 m) by (destruct m; simpl; lia).
  assert (Hn : 0 <= n <= Zdigits2 m - 1) by (subst n; lia).
  assert (2 ^ n <= 2 ^ (Zdigits2 m - 1)) by (apply Z.pow_le_mono_r; lia).
  pose proof (pow2_pos n ltac:(lia)).
  apply Z.div_str_pos. lia.
Qed.

(** Rounding a positive mantissa whose exponent is at least the smallest
    one does not underflow to zero. *)
Lemma round_pos sx p e l :
  -1074 <= e ->
  (exists m2 e2, binary_round_aux prec emax sx (Zpos p) e l = S754_finite sx m2 e2)
  \/ binary_round_aux prec emax sx (Zpos p) e l = S754_infinity sx.
Proof.
  intros He. unfold binary_round_aux.
  pose proof (shr_fexp_spec (Zpos p) e l ltac:(lia)) as (He1 & Hq & _).
  pose proof (shift_keeps_positive (Zpos p) e ltac:(lia) He) as Hq1.
  destruct (shr_fexp prec emax (Zpos p) e l) as [mrs1 e1]. cbn [fst snd] in He1, Hq.
  rewrite <- Hq in Hq1.
  pose proof (round_nearest_even_bounds (shr_m mrs1) (loc_of_shr_record mrs1)) as [Hm1 _].
  set (m1 := round_nearest_even (shr_m mrs1) (loc_of_shr_record mrs1)) in *.
  pose proof (shr_fexp_spec m1 e1 loc_Exact ltac:(lia)) as (_ & Hm2 & _).
  pose proof (shift_keeps_positive m1 e1 ltac:(lia) ltac:(lia)) as Hq2.
  destruct (shr_fexp prec emax m1 e1 loc_Exact) as [mrs2 e2]. cbn [fst snd] in Hm2.
  rewrite <- Hm2 in Hq2.
  destruct (shr_m mrs2) as [|pm|pm]; try lia.
  destruct (e2 <=? emax - prec); [left; eauto|right; reflexivity].
Qed.

Lemma iter_xO m d : Zpos (Pos.iter xO m d) = Zpos m * 2 ^ Zpos d.
Proof.
  induction d as [|d IH] using Pos.peano_ind.
  - simpl. rewrite (Pos2Z.inj_xO m). change (2 ^ 1) with 2. lia.
  - rewrite Pos.iter_succ, (Pos2Z.inj_xO (Pos.iter xO m d)), IH, Pos2Z.inj_succ.
    rewrite Z.pow_succ_r by lia. ring.
Qed.

(** Aligning a mantissa to a smaller exponent keeps the value. *)
Lemma shl_align_spec m e e' :
  snd (shl_align m e e') = Z.min e e'
  /\ Zpos (fst (shl_align m e e')) = Zpos m * 2 ^ (e - Z.min e e').
Proof.
  unfold shl_align. destruct (e' - e) as [|d|d] eqn:E; cbn [fst snd].
  - rewrite Z.min_l by lia. rewrite Z.sub_diag. simpl. split; lia.
  - rewrite Z.min_l by lia. rewrite Z.sub_diag. simpl. split; lia.
  - rewrite Z.min_r by lia. split; [reflexivity|].
    rewrite iter_xO. f_equal. f_equal. lia.
Qed.



Lemma zdigits_shift m k :
  0 < m -> 0 <= k -> Zdigits2 (m * 2 ^ k) = Zdigits2 m + k.
Proof.
  intros Hm Hk. pose proof (zdigits_bounds m Hm) as [Lo Hi].
  pose proof (pow2_pos k Hk) as Hp.
  assert (Hd : 1 <= Zdigits2 m) by (destruct m; simpl; lia).
  assert (Hmk : 0 < m * 2 ^ k) by (apply Z.mul_pos_pos; assumption).
  apply Z.le_antisymm.
  - apply zdigits_le; [lia|exact Hmk|].
    rewrite (pow2_add (Zdigits2 m) k) by lia.
    apply Z.mul_lt_mono_pos_r; assumption.
  - assert (Zdigits2 m - 1 + k < Zdigits2 (m * 2 ^ k)); [|lia].
    apply zdigits_gt; [lia|].
    rewrite (pow2_add (Zdigits2 m - 1) k) by lia.
    apply Z.mul_le_mono_nonneg_r; lia.
Qed.

(** A number at most one, multiplied into [x], rounds to at most [x]. *)
Lemma mul_le_self mx ex mt et :
  valid_binary (S754_finite false mx ex) = true ->
  valid_binary (S754_finite false mt et) = true ->
  Zpos mt * 2 ^ (et + K) <= Zpos one_m * 2 ^ (-52 + K) ->
  SFmul prec emax (S754_finite false mx ex) (S754_finite false mt et) = S754_zero false
  \/ exists m2 e2,
       SFmul prec emax (S754_finite false mx ex) (S754_finite false mt et)
       = S754_finite false m2 e2
       /\ Zpos m2 * 2 ^ (e2 + K) <= Zpos mx * 2 ^ (ex + K).
Proof.
  intros Vx Vt Hone.
  destruct (valid_canonical _ _ _ Vx) as (Cx & Bx & Lx & Dx).
  destruct (valid_canonical _ _ _ Vt) as (Ct & Bt & Lt & Dt).
  cbn [SFmul xorb].
  apply round_le; unfold K in *; try assumption; try lia.
  - apply mul_shift; assumption.
  - rewrite Pos2Z.inj_mul.
    set (a := ex + 1074). set (u := et + 1126).
    replace (ex + et + 2200) with (a + u) by (unfold a, u; lia).
    replace (ex + 2200) with (a + 1126) by (unfold a; lia).
    replace (et + 2200) with (u + 1074) in Hone by (unfold u; lia).
    rewrite (pow2_add a u), (pow2_add a 1126) by (unfold a, u; lia).
    rewrite (pow2_add u 1074) in Hone by (unfold u; lia).
    assert (E : Zpos one_m * 2 ^ (-52 + 2200) = 2 ^ 1126 * 2 ^ 1074)
      by (vm_compute; reflexivity).
    rewrite E in Hone.
    pose proof (pow2_pos a ltac:(unfold a; lia)) as Ha.
    pose proof (pow2_pos u ltac:(unfold u; lia)) as Hu.
    pose proof (pow2_pos 1074 ltac:(lia)) as H1074.
    assert (H1 : Zpos mt * 2 ^ u <= 2 ^ 1126).
    { apply Z.mul_le_mono_pos_r with (p := 2 ^ 1074); [exact H1074|].
      rewrite <- Z.mul_assoc. exact Hone. }
    replace (Zpos mx * Zpos mt * (2 ^ a * 2 ^ u))
      with (Zpos mx * 2 ^ a * (Zpos mt * 2 ^ u)) by ring.
    replace (Zpos mx * (2 ^ a * 2 ^ 1126))
      with (Zpos mx * 2 ^ a * 2 ^ 1126) by ring.
    apply Z.mul_le_mono_nonneg_l; [|exact H1].
    apply Z.mul_nonneg_nonneg; lia.
Qed.



(** One minus a slippage in [0, 1): a positive finite number, at most
    one. *)
Lemma one_minus_gen mo s :
  Zpos mo = 2 ^ 52 ->
  valid_binary s = true ->
  SFleb (S754_zero false) s = true ->
  SFltb s (S754_finite false mo (-52)) = true ->
  exists mt et,
    SFsub prec emax (S754_finite false mo (-52)) s = S754_finite false mt et
    /\ Zpos mt * 2 ^ (et + K) <= Zpos mo * 2 ^ (-52 + K).
Proof.
  intros Hmo Vs H0 H1.
  assert (Dmo : digits mo = 53).
  { change (digits mo) with (Zdigits2 (Zpos mo)). apply Z.le_antisymm.
    - apply zdigits_le; lia.
    - assert (52 < Zdigits2 (Zpos mo)); [|lia].
      apply zdigits_gt; lia. }
  destruct s as [sz|si| |ss ms es].
  - exists mo, (-52). split; [reflexivity|apply Z.le_refl].
  - destruct si; discriminate.
  - discriminate.
  - destruct ss; [discriminate|].
    destruct (valid_canonical _ _ _ Vs) as (Cs & Bs & Ls & Ds).
    pose proof (digits_bounds ms) as [Lo Hi].
    pose proof (digits_pos ms) as Hdp.
    assert (Hi53 : Zpos ms < 2 ^ 53).
    { apply Z.lt_le_trans with (1 := Hi). apply Z.pow_le_mono_r; lia. }
    (* the slippage lies below one: its exponent is at most -52 *)
    assert (Hes : es <= -52 /\ Zpos ms < Zpos mo * 2 ^ (-52 - es)).
    { unfold SFltb, SFcompare in H1.
      destruct (Z.compare_spec es (-52)) as [E|E|E]; try discriminate.
      - subst es. split; [lia|].
        change (Pos.compare_cont Eq ms mo) with (Pos.compare ms mo) in H1.
        destruct (Pos.compare_spec ms mo) as [|Hlt|]; try discriminate.
        change (-52 - -52) with 0. rewrite Z.pow_0_r. lia.
      - split; [lia|].
        assert (2 ^ 1 <= 2 ^ (-52 - es)) by (apply Z.pow_le_mono_r; lia).
        change (2 ^ 1) with 2 in *.
        assert (E53 : 2 ^ 53 = Zpos mo * 2) by (rewrite Hmo; reflexivity).
        rewrite E53 in Hi53.
        assert (Zpos mo * 2 <= Zpos mo * 2 ^ (-52 - es))
          by (apply Z.mul_le_mono_nonneg_l; lia).
        lia. }
    destruct Hes as [Hes Hlt].
    cbn [SFsub cond_Zopp].
    rewrite (Z.min_r (-52) es) by lia.
    destruct (shl_align_spec mo (-52) es) as [_ A1].
    destruct (shl_align_spec ms es es) as [_ A2].
    rewrite (Z.min_r (-52) es) in A1 by lia.
    rewrite Z.min_id, Z.sub_diag, Z.pow_0_r, Z.mul_1_r in A2.
    rewrite A1, A2.
    set (a1 := Zpos mo * 2 ^ (-52 - es)) in *.
    destruct (a1 - Zpos ms) as [|d|d] eqn:Ed; try lia.
    cbn [binary_normalize]. unfold binary_round.
    destruct (shl_align_spec d es (fexp prec emax (Zpos (digits2_pos d) + es)))
      as [B1 B2].
    fold (digits d) in *.
    destruct (shl_align d es (fexp prec emax (digits d + es))) as [mz ez].
    cbn [fst snd] in B1, B2. rewrite <- B1 in B2.
    pose proof (fexp_ge (digits d + es)) as Hf.
    assert (Hez : -1074 <= ez <= es) by lia.
    assert (Hdig : digits mz + ez = digits d + es).
    { change (digits mz) with (Zdigits2 (Zpos mz)). rewrite B2.
      rewrite zdigits_shift by lia. change (Zdigits2 (Zpos d)) with (digits d). lia. }
    assert (Hval : Zpos mz * 2 ^ (ez + K) <= Zpos mo * 2 ^ (-52 + K)).
    { unfold K. rewrite B2.
      rewrite <- Z.mul_assoc, <- (pow2_add (es - ez) (ez + 2200)) by lia.
      replace (es - ez + (ez + 2200)) with (es + 2200) by lia.
      replace (-52 + 2200) with ((-52 - es) + (es + 2200)) by lia.
      rewrite (pow2_add (-52 - es) (es + 2200)) by lia.
      rewrite Z.mul_assoc. fold a1.
      apply Z.mul_le_mono_nonneg_r; [apply Z.lt_le_incl, pow2_pos; lia|lia]. }
    destruct (round_le false mz ez mo (-52)) as [Hz|(m2 & e2 & Hr & Hv)];
      try assumption; try (unfold K; lia).
    + rewrite Hdig. lia.
    + rewrite Dmo, fexp_eq. lia.
    + destruct (round_pos false mz ez loc_Exact) as [(m3 & e3 & Hr)|Hr];
        try lia; rewrite Hz in Hr; discriminate.
    + exists m2, e2. split; assumption.
Qed.

Lemma one_minus s :
  valid_binary s = true ->
  SFleb (S754_zero false) s = true ->
  SFltb s SF_one = true ->
  exists mt et,
    SFsub prec emax SF_one s = S754_finite false mt et
    /\ Zpos mt * 2 ^ (et + K) <= Zpos one_m * 2 ^ (-52 + K).
Proof. apply (one_minus_gen one_m s). reflexivity. Qed.



Lemma mul_nonneg mx ex my ey :
  nonneg_sf (SFmul prec emax (S754_finite false mx ex) (S754_finite false my ey)).
Proof.
  cbn [SFmul xorb]. apply round_sign. lia.
Qed.

Lemma div_nonneg mx ex my ey :
  nonneg_sf (SFdiv prec emax (S754_finite false mx ex) (S754_finite false my ey)).
Proof.
  cbn [SFdiv xorb].
  destruct (SFdiv_core_binary prec emax (Zpos mx) ex (Zpos my) ey) as [[mz ez] lz] eqn:E.
  apply round_sign.
  unfold SFdiv_core_binary in E.
  set (m' := match _ with Zpos _ => _ | Z0 => Zpos mx | Zneg _ => 0 end) in E.
  assert (Hm' : 0 <= m').
  { subst m'. destruct (ex - ey - _) as [|q|q]; try lia.
    apply Z.shiftl_nonneg. lia. }
  assert (Hq : mz = m' / Zpos my).
  { unfold Z.div. destruct (Z.div_eucl m' (Zpos my)) as [q r].
    injection E as <- _ _. reflexivity. }
  rewrite Hq. apply Z.div_pos; lia.
Qed.

(** What the comparisons of the code say about the numbers compared. *)
Lemma positive_finite a :
  (0 <? a)%float = true -> (a <? infinity)%float = true ->
  exists m e, Prim2SF a = S754_finite false m e.
Proof.
  rewrite !ltb_spec.
  change (Prim2SF 0) with (S754_zero false).
  change (Prim2SF infinity) with (S754_infinity false).
  destruct (Prim2SF a) as [sz|si| |sa ma ea]; try discriminate.
  - destruct si; discriminate.
  - destruct sa; [discriminate|]. intros _ _. eauto.
Qed.

Lemma leb_zero_nonneg F : nonneg_sf F -> SFleb (S754_zero false) F = true.
Proof.
  intros [->|[(m & e & ->)| ->]]; reflexivity.
Qed.

(** The minimum, the estimate times one minus the slippage, is at most
    the estimate and not negative. *)
Lemma minimum_bounds est s :
  nonneg_sf (Prim2SF est) ->
  (0 <=? s)%float = true -> (s <? 1)%float = true ->
  (est * (1 - s) <=? est)%float = true /\ (0 <=? est * (1 - s))%float = true.
Proof.
  intros Hest H0 H1.
  rewrite leb_spec in H0. rewrite ltb_spec in H1.
  change (Prim2SF 0) with (S754_zero false) in H0.
  change (Prim2SF 1) with SF_one in H1.
  destruct (one_minus (Prim2SF s) (Prim2SF_valid s) H0 H1) as (mt & et & Ht & Hv).
  pose proof (Prim2SF_valid (1 - s)) as Vt.
  pose proof (Prim2SF_valid (est * (1 - s))) as Vm.
  pose proof (Prim2SF_valid est) as Ve.
  rewrite !leb_spec. change (Prim2SF 0) with (S754_zero false).
  rewrite mul_spec in *. rewrite sub_spec in *.
  change (Prim2SF 1) with SF_one in *.
  unfold SF64mul, SF64sub in *. rewrite Ht in *.
  destruct Hest as [E|[(me & ee & E)|E]]; rewrite E in *.
  - split; reflexivity.
  - destruct (mul_le_self me ee mt et Ve Vt Hv) as [Hz|(m2 & e2 & Hr & Hle)].
    + rewrite Hz. split; reflexivity.
    + rewrite Hr in *. split; [|reflexivity].
      destruct (valid_canonical _ _ _ Vm) as (C2 & _).
      destruct (valid_canonical _ _ _ Ve) as (Ce & _).
      apply finite_leb; assumption.
  - split; reflexivity.
Qed.

(** C1 at the level of the arithmetic: for a finite positive amount and
    rate and a slippage in [0, 1), selling. *)
Lemma sale_quote_bounds a p s :
  (0 <? a)%float = true -> (a <? infinity)%float = true ->
  (0 <? p)%float = true -> (p <? infinity)%float = true ->
  (0 <=? s)%float = true -> (s <? 1)%float = true ->
  (a * p * (1 - s) <=? a * p)%float = true
  /\ (0 <=? a * p * (1 - s))%float = true
  /\ (0 <=? a * p)%float = true.
Proof.
  intros Ha Ha' Hp Hp' H0 H1.
  destruct (positive_finite a Ha Ha') as (ma & ea & Ea).
  destruct (positive_finite p Hp Hp') as (mp & ep & Ep).
  assert (Hest : nonneg_sf (Prim2SF (a * p))).
  { rewrite mul_spec, Ea, Ep. apply mul_nonneg. }
  destruct (minimum_bounds (a * p) s Hest H0 H1) as [Hle Hnn].
  repeat split; try assumption.
  rewrite leb_spec. apply leb_zero_nonneg. exact Hest.
Qed.

Lemma purchase_quote_bounds a p s :
  (0 <? a)%float = true -> (a <? infinity)%float = true ->
  (0 <? p)%float = true -> (p <? infinity)%float = true ->
  (0 <=? s)%float = true -> (s <? 1)%float = true ->
  (a / p * (1 - s) <=? a / p)%float = true
  /\ (0 <=? a / p * (1 - s))%float = true
  /\ (0 <=? a / p)%float = true.
Proof.
  intros Ha Ha' Hp Hp' H0 H1.
  destruct (positive_finite a Ha Ha') as (ma & ea & Ea).
  destruct (positive_finite p Hp Hp') as (mp & ep & Ep).
  assert (Hest : nonneg_sf (Prim2SF (a / p))).
  { rewrite div_spec, Ea, Ep. apply div_nonneg. }
  destruct (minimum_bounds (a / p) s Hest H0 H1) as [Hle Hnn].
  repeat split; try assumption.
  rewrite leb_spec. apply leb_zero_nonneg. exact Hest.
Qed.

(** ** The quote *)

Lemma eth_estimate_run w self a s :
  result (ETHUSDCSwapService.estimate_usdc_output self a s) w
  = Return ((a * price_used w)%float, (a * price_used w * (1 - s))%float).
Proof.
  unfold price_used. destruct (rate_source w) as [p|e] eqn:E.
  - apply (eth_estimate_live w self a s p E).
  - apply (eth_estimate_fallback w self a s e E).
Qed.

Lemma usdc_estimate_run w self a s :
  (price_used w =? 0)%float = false ->
  result (USDCETHSwapService.estimate_eth_output self a s) w
  = Return ((a / price_used w)%float, (a / price_used w * (1 - s))%float).
Proof.
  unfold price_used. destruct (rate_source w) as [p|e] eqn:E; intros Hp.
  - apply (usdc_estimate_live w self a s p E Hp).
  - apply (usdc_estimate_fallback w self a s e E).
Qed.

(** A positive number is not zero, and a non-negative one that is not
    zero is positive. *)
Lemma positive_nonzero x : (0 <? x)%float = true -> (x =? 0)%float = false.
Proof.
  rewrite ltb_spec, eqb_spec. change (Prim2SF 0) with (S754_zero false).
  destruct (Prim2SF x) as [sz|si| |sx mx ex]; try discriminate.
  - destruct si; [discriminate|reflexivity].
  - destruct sx; [discriminate|reflexivity].
Qed.

Lemma nonzero_positive x :
  (0 <=? x)%float = true -> (x =? 0)%float = false -> (0 <? x)%float = true.
Proof.
  rewrite leb_spec, ltb_spec, eqb_spec. change (Prim2SF 0) with (S754_zero false).
  destruct (Prim2SF x) as [sz|si| |sx mx ex]; try discriminate.
  - destruct si; [discriminate|reflexivity].
  - destruct sx; [discriminate|reflexivity].
Qed.




(** ** The representation of the amounts *)


(** The floors themselves. *)
Example service_floor_13 :
  floors (submitted (USDCETHSwapService.swap_usdc_to_eth usdc_service 13
                       USDCETHSwapService.default_slippage 500000 1.5 true) mining)
  = [4289999999999999]
  /\ exact_minimum_units false (QArith_base.inject_Z 13)
       (QArith_base.inject_Z 3000) 100 18 = 4290000000000000.
Proof. vm_compute. split; reflexivity. Qed.


(** * Further properties of the swap engine *)

Local Open Scope py_scope.


(** ** Waiting and the pool *)

Lemma find_pending_hash hx h l t :
  find_pending hx h l = Some t -> to_hex (hash_of hx t) = h.
Proof.
  induction l as [|t0 l IH]; cbn [find_pending]; [discriminate|].
  destruct (String.eqb_spec (to_hex (hash_of hx t0)) h) as [E|E].
  - intros H. injection H as <-. exact E.
  - exact IH.
Qed.

Lemma remove_pending_length hx h l t :
  find_pending hx h l = Some t ->
  S (List.length (remove_pending hx h l)) = List.length l.
Proof.
  induction l as [|t0 l IH]; cbn [find_pending remove_pending]; [discriminate|].
  destruct (String.eqb (to_hex (hash_of hx t0)) h); [reflexivity|].
  intros H. cbn [List.length]. f_equal. apply IH. exact H.
Qed.

Lemma find_mined_app hx h l1 l2 :
  find_mined hx h (l1 ++ l2)
  = match find_mined hx h l1 with
    | Some r => Some r
    | None => find_mined hx h l2
    end.
Proof.
  induction l1 as [|[t r] l1 IH]; cbn [find_mined app]; [reflexivity|].
  destruct (String.eqb (to_hex (hash_of hx t)) h); [reflexivity|exact IH].
Qed.

Lemma wp_wait_strong h w (Q : outcome receipt -> world -> Prop) :
  (forall o w', waited h w o w' -> Q o w') ->
  wp (wait_for_transaction_receipt h) w Q.
Proof.
  intros H. apply H.
  unfold waited, result, after, wait_for_transaction_receipt, bind, call, polled.
  cbn [fst snd with_call w3 state calls rate_source log].
  destruct (find_mined (w3 w) h (mined (state w))) as [r|] eqn:Em.
  - cbn [fst snd calls w3 rate_source log state with_call].
    repeat split; try reflexivity; auto; intros x Hx;
      first [discriminate Hx | congruence].
  - destruct (find_pending (w3 w) h (mempool (state w))) as [t|] eqn:Ep.
    + destruct (confirms (w3 w) t) as [r|].
      * cbn [fst snd calls w3 rate_source log state with_call set_state mine mined
             mempool base_gas_price priority_fee now transaction_count].
        repeat split; try reflexivity.
        -- rewrite (find_pending_hash _ _ _ _ Ep).
           rewrite length_app. cbn [List.length].
           pose proof (remove_pending_length _ _ _ _ Ep). lia.
        -- intros e He. discriminate He.
        -- intros r0 Hr. injection Hr as <-. rewrite find_mined_app, Em.
           cbn [find_mined]. rewrite (find_pending_hash _ _ _ _ Ep).
           rewrite String.eqb_refl. reflexivity.
        -- intros h0 r0 H0. rewrite find_mined_app, H0. reflexivity.
      * cbn [fst snd calls w3 rate_source log state with_call].
        repeat split; try reflexivity; auto; intros x Hx;
          first [discriminate Hx | injection Hx as <-; reflexivity].
    + cbn [fst snd calls w3 rate_source log state with_call].
      repeat split; try reflexivity; auto; intros x Hx;
        first [discriminate Hx | injection Hx as <-; reflexivity].
Qed.

Ltac wp_step' :=
  lazymatch goal with
  | |- wp (wait_for_transaction_receipt _) _ _ =>
      apply wp_wait_strong;
      intros ? ? (? & ? & ? & ? & ? & ? & ? & ? & ? & ? & ?)
  | |- _ => wp_step
  end.
Ltac wp_run' := repeat wp_step'.

(** ** Balances *)

Lemma eth_service_insufficient w self a s g m balance :
  (a <=? 0)%float = false ->
  int_truediv (eth_wei (state w)) (10 ^ 18) = Return balance ->
  (balance <? a)%float = true ->
  wp (ETHUSDCSwapService.swap_eth_to_usdc self a s g m) w
     (fun o w' =>
        o = Raise (BlockchainError "Failed to swap ETH to USDC"
                     (ValueError (Insufficient "ETH" balance a)))
        /\ calls w' = calls w ++ [eth_getBalance]
        /\ state w' = state w).
Proof.
  intros Ha Hb Hlt.
  unfold ETHUSDCSwapService.swap_eth_to_usdc, ETHUSDCSwapService.get_eth_balance.
  rewrite Ha.
  repeat (world_simpl; rewrite ?Hb, ?Hlt; wp_step).
  world_simpl. repeat split.
Qed.

Lemma usdc_service_insufficient w self a s g m wait balance :
  (a <=? 0)%float = false ->
  int_truediv (usdc_raw (state w)) (10 ^ USDCETHSwapService.usdc_decimals self)
  = Return balance ->
  (balance <? a)%float = true ->
  wp (USDCETHSwapService.swap_usdc_to_eth self a s g m wait) w
     (fun o w' =>
        o = Raise (BlockchainError "Failed to swap USDC to ETH"
                     (ValueError (Insufficient "USDC" balance a)))
        /\ calls w' = calls w ++ [call_balanceOf]
        /\ state w' = state w).
Proof.
  intros Ha Hb Hlt.
  unfold USDCETHSwapService.swap_usdc_to_eth, USDCETHSwapService.get_usdc_balance.
  rewrite Ha.
  repeat (world_simpl; rewrite ?Hb, ?Hlt; wp_step).
  world_simpl. repeat split.
Qed.

(** X1.  A sale through the service of more ETH than the account holds
    fails with the balance error, naming the balance and the amount,
    after the balance query alone: nothing else is asked of the ledger
    and nothing is submitted. *)
Theorem sale_insufficient_balance (w : world) (self : ETHUSDCSwapService.service)
  (amount slippage : float) (gas_limit : Z) (multiplier balance : float) :
  (amount <=? 0)%float = false ->
  int_truediv (eth_wei (state w)) (10 ^ 18) = Return balance ->
  (balance <? amount)%float = true ->
  result (ETHUSDCSwapService.swap_eth_to_usdc self amount slippage gas_limit multiplier) w
  = Raise (BlockchainError "Failed to swap ETH to USDC"
             (ValueError (Insufficient "ETH" balance amount)))
  /\ calls (after (ETHUSDCSwapService.swap_eth_to_usdc self amount slippage gas_limit
                     multiplier) w)
     = calls w ++ [eth_getBalance]
  /\ state (after (ETHUSDCSwapService.swap_eth_to_usdc self amount slippage gas_limit
                     multiplier) w)
     = state w.
Proof.
  intros Ha Hb Hlt.
  exact (eth_service_insufficient w self amount slippage gas_limit multiplier balance
           Ha Hb Hlt).
Qed.

Lemma sale_insufficient_balance_witness :
  result (ETHUSDCSwapService.swap_eth_to_usdc eth_service 3 0.01 500000 1.5) mining
  = Raise (BlockchainError "Failed to swap ETH to USDC"
             (ValueError (Insufficient "ETH" 2 3))).
Proof.
  refine (proj1 (sale_insufficient_balance mining eth_service 3 0.01 500000 1.5 2 _ _ _));
    vm_compute; reflexivity.
Defined.

(** X2.  A purchase through the service of more USDC than the account
    holds fails with the balance error after the [balanceOf] call alone:
    the allowance is not read, no approval and no router call is
    submitted. *)
Theorem purchase_insufficient_balance (w : world) (self : USDCETHSwapService.service)
  (amount slippage : float) (gas_limit : Z) (multiplier : float) (wait : bool)
  (balance : float) :
  (amount <=? 0)%float = false ->
  int_truediv (usdc_raw (state w)) (10 ^ USDCETHSwapService.usdc_decimals self)
  = Return balance ->
  (balance <? amount)%float = true ->
  result (USDCETHSwapService.swap_usdc_to_eth self amount slippage gas_limit multiplier
            wait) w
  = Raise (BlockchainError "Failed to swap USDC to ETH"
             (ValueError (Insufficient "USDC" balance amount)))
  /\ calls (after (USDCETHSwapService.swap_usdc_to_eth self amount slippage gas_limit
                     multiplier wait) w)
     = calls w ++ [call_balanceOf]
  /\ state (after (USDCETHSwapService.swap_usdc_to_eth self amount slippage gas_limit
                     multiplier wait) w)
     = state w.
Proof.
  intros Ha Hb Hlt.
  exact (usdc_service_insufficient w self amount slippage gas_limit multiplier wait
           balance Ha Hb Hlt).
Qed.

Lemma purchase_insufficient_balance_witness :
  result (USDCETHSwapService.swap_usdc_to_eth usdc_service 6000 0.01 500000 1.5 true)
         mining
  = Raise (BlockchainError "Failed to swap USDC to ETH"
             (ValueError (Insufficient "USDC" 5000 6000))).
Proof.
  refine (proj1 (purchase_insufficient_balance mining usdc_service 6000 0.01 500000 1.5
                   true 5000 _ _ _));
    vm_compute; reflexivity.
Defined.

(** ** What a sale submits *)

Ltac read_off :=
  repeat match goal with
         | H : ?x = Return _ |- context [?x] => rewrite H
         | H : ?x = Raise _ |- context [?x] => rewrite H
         end.
Ltac quoted :=
  unfold base_units, price_used; read_off; cbv beta iota; read_off;
  first [reflexivity | eassumption].
Ltac fee_scaled :=
  unfold scaled_fee;
  match goal with
  | H : match float_of_int ?x with _ => _ end = Return _ |- _ =>
      destruct (float_of_int x); [injection H as <-; eassumption | discriminate H]
  end.

Ltac undivided :=
  unfold price_used; read_off;
  match goal with
  | H : truediv _ _ = Return _ |- _ =>
      unfold truediv in H;
      match type of H with
      | context [if ?c then _ else _] =>
          destruct c; [discriminate H | injection H as <-]
      end
  end;
  reflexivity.

Lemma eth_service_returns w self a s g m :
  wp (ETHUSDCSwapService.swap_eth_to_usdc self a s g m) w
     (fun o w' =>
        forall r, o = Return r ->
        exists value floor fee,
          to_wei_ether (w3 w) a = Return value
          /\ base_units (a * price_used w * (1 - s))
                        (ETHUSDCSwapService.usdc_decimals self) = Return floor
          /\ scaled_fee (priority_fee (state w)) m = Return fee
          /\ skipn (List.length (sent (calls w))) (sent (calls w'))
             = [sale_transaction (ETHUSDCSwapService.account self) g fee value floor
                  (state w)]
          /\ mempool (state w')
             = mempool (state w)
               ++ [sale_transaction (ETHUSDCSwapService.account self) g fee value floor
                     (state w)]
          /\ r = {| ETHUSDCSwapService.transaction_hash :=
                      to_hex (hash_of (w3 w)
                                (sale_transaction (ETHUSDCSwapService.account self)
                                   g fee value floor (state w)));
                    ETHUSDCSwapService.eth_amount := a;
                    ETHUSDCSwapService.estimated_usdc :=
                      (a * price_used w * (1 - s) / (1 - s))%float;
                    ETHUSDCSwapService.min_usdc_output :=
                      (a * price_used w * (1 - s))%float;
                    ETHUSDCSwapService.status := "pending" |}).
Proof.
  unfold ETHUSDCSwapService.swap_eth_to_usdc,
    ETHUSDCSwapService.estimate_usdc_output,
    ETHUSDCSwapService.get_eth_price, ETHUSDCSwapService.get_eth_balance.
  wp_run; tidy; intros r Hr; first [discriminate Hr | injection Hr as <-].
  all: do 3 eexists; (split; [eassumption|]); (split; [quoted|]);
    (split; [fee_scaled|]); repeat split.
  all: undivided.
Qed.

Lemma eth_agent_run w self a value floor :
  EthToUsdcAgent.amount_in_wei_of a = Return value ->
  EthToUsdcAgent.min_amount_out_of a = Return floor ->
  wp (EthToUsdcAgent.swap_eth_to_usdc self a) w
     (fun o w' =>
        let t := sale_transaction (EthToUsdcAgent.account self) 500000
                   (priority_fee (state w)) value floor (state w) in
        o = Return (to_hex (hash_of (w3 w) t))
        /\ skipn (List.length (sent (calls w))) (sent (calls w')) = [t]
        /\ mempool (state w') = mempool (state w) ++ [t]).
Proof.
  intros Hv Hf. unfold EthToUsdcAgent.swap_eth_to_usdc. rewrite Hv, Hf.
  wp_run; tidy. repeat split.
Qed.

Lemma eth_agent_fails w self a :
  (forall value floor, EthToUsdcAgent.amount_in_wei_of a = Return value ->
                       EthToUsdcAgent.min_amount_out_of a = Return floor -> False) ->
  wp (EthToUsdcAgent.swap_eth_to_usdc self a) w
     (fun o w' =>
        (exists e, o = Raise (BlockchainError "Failed to swap ETH to USDC" e))
        /\ calls w' = calls w).
Proof.
  intros H. unfold EthToUsdcAgent.swap_eth_to_usdc.
  destruct (EthToUsdcAgent.amount_in_wei_of a) as [v|e];
    [destruct (EthToUsdcAgent.min_amount_out_of a) as [f|e]|].
  - destruct (H v f); reflexivity.
  - wp_run; tidy. split; eauto.
  - wp_run; tidy. split; eauto.
Qed.

(** X3.  A sale through the service that returns has submitted exactly
    one transaction, a router call to the Universal Router on chain 8453
    from the signer, and what it returns describes it: the value sent
    with it is [to_wei(amount)], which is also the amount it wraps and
    the amount it exchanges; its floor is the minimum of the quote in
    base units; its fee cap is twice the gas price, its priority fee the
    scaled one, its nonce the count of mined transactions, its deadline
    180 s ahead; the hash returned is its hash, the status returned is
    [pending], and it waits in the pool. *)
Theorem sale_reports_what_it_submitted (w : world) (self : ETHUSDCSwapService.service)
  (a s : float) (g : Z) (m : float) (r : ETHUSDCSwapService.swap_result) :
  result (ETHUSDCSwapService.swap_eth_to_usdc self a s g m) w = Return r ->
  exists value floor fee,
    to_wei_ether (w3 w) a = Return value
    /\ base_units (a * price_used w * (1 - s)) (ETHUSDCSwapService.usdc_decimals self)
       = Return floor
    /\ scaled_fee (priority_fee (state w)) m = Return fee
    /\ submitted (ETHUSDCSwapService.swap_eth_to_usdc self a s g m) w
       = [sale_transaction (ETHUSDCSwapService.account self) g fee value floor (state w)]
    /\ mempool (state (after (ETHUSDCSwapService.swap_eth_to_usdc self a s g m) w))
       = mempool (state w)
         ++ [sale_transaction (ETHUSDCSwapService.account self) g fee value floor
               (state w)]
    /\ r = {| ETHUSDCSwapService.transaction_hash :=
                to_hex (hash_of (w3 w)
                          (sale_transaction (ETHUSDCSwapService.account self)
                             g fee value floor (state w)));
              ETHUSDCSwapService.eth_amount := a;
              ETHUSDCSwapService.estimated_usdc :=
                (a * price_used w * (1 - s) / (1 - s))%float;
              ETHUSDCSwapService.min_usdc_output :=
                (a * price_used w * (1 - s))%float;
              ETHUSDCSwapService.status := "pending" |}.
Proof.
  intros Hr. exact (eth_service_returns w self a s g m r Hr).
Qed.

Lemma sale_reports_what_it_submitted_witness :
  exists t, submitted first_sale mining = [t]
            /\ In t (mempool (state (after first_sale mining))).
Proof.
  assert (Hr : result (ETHUSDCSwapService.swap_eth_to_usdc eth_service 0.5 0.01
                         500000 1.5) mining
               = Return {| ETHUSDCSwapService.transaction_hash := "0x0";
                           ETHUSDCSwapService.eth_amount := 0.5;
                           ETHUSDCSwapService.estimated_usdc := 1500;
                           ETHUSDCSwapService.min_usdc_output := 1485;
                           ETHUSDCSwapService.status := "pending" |})
    by (vm_compute; reflexivity).
  destruct (sale_reports_what_it_submitted mining eth_service 0.5 0.01 500000 1.5 _ Hr)
    as (value & floor & fee & _ & _ & _ & Hs & Hp & _).
  eexists. split; [exact Hs|].
  unfold first_sale. rewrite Hp. apply in_or_app. right. left. reflexivity.
Defined.



(** ** A slippage of one *)

Lemma eth_service_full_slippage w self a s g m :
  (1 - s =? 0)%float = true ->
  wp (ETHUSDCSwapService.swap_eth_to_usdc self a s g m) w
     (fun o w' =>
        (exists e, o = Raise e)
        /\ (forall t, In t (skipn (List.length (sent (calls w))) (sent (calls w'))) ->
              o = Raise (BlockchainError "Failed to swap ETH to USDC" ZeroDivisionError)
              /\ In t (mempool (state w')))).
Proof.
  intros Hs.
  unfold ETHUSDCSwapService.swap_eth_to_usdc,
    ETHUSDCSwapService.estimate_usdc_output,
    ETHUSDCSwapService.get_eth_price, ETHUSDCSwapService.get_eth_balance.
  repeat (unfold truediv; rewrite ?Hs; wp_step); tidy;
    (split; [eexists; reflexivity|]); intros t Ht; cbn [In] in Ht;
    try contradiction.
  all: destruct Ht as [<-|[]]; split; [reflexivity|].
  all: cbn [pool mempool]; apply in_or_app; right; left; reflexivity.
Qed.

Lemma usdc_service_full_slippage w self a s g m wait :
  (1 - s =? 0)%float = true ->
  wp (USDCETHSwapService.swap_usdc_to_eth self a s g m wait) w
     (fun o w' =>
        (exists e, o = Raise e)
        /\ (forall t, In t (skipn (List.length (sent (calls w))) (sent (calls w'))) ->
              router_call t ->
              o = Raise (BlockchainError "Failed to swap USDC to ETH" ZeroDivisionError)
              /\ In t (mempool (state w')))).
Proof.
  intros Hs.
  unfold USDCETHSwapService.swap_usdc_to_eth,
    USDCETHSwapService.ensure_permit2_approval,
    USDCETHSwapService.estimate_eth_output,
    USDCETHSwapService.get_eth_price, USDCETHSwapService.get_usdc_balance.
  repeat (unfold truediv; rewrite ?Hs; wp_step'); tidy;
    (split; [eexists; reflexivity|]); intros t Ht Hr; cbn [In] in Ht;
    repeat match goal with
           | H : _ \/ _ |- _ => destruct H
           | H : False |- _ => destruct H
           end;
    subst;
    try (destruct Hr as (? & ? & Hr); discriminate Hr).
  all: split; [reflexivity|].
  all: cbn [pool mempool]; apply in_or_app; right; left; reflexivity.
Qed.

(** X5.  With a slippage of one, [1 - slippage] is zero.  Both services
    then never return; and whenever the router call has been submitted,
    with a floor of zero, the run still ends in
    [BlockchainError(... ZeroDivisionError)], raised by the division that
    recomputes the estimate for the result, while the transaction waits
    in the pool. *)
Theorem full_slippage_raises_after_submitting (w : world) (slippage : float) :
  (1 - slippage =? 0)%float = true ->
  (forall self a g m,
      (exists e,
          result (ETHUSDCSwapService.swap_eth_to_usdc self a slippage g m) w = Raise e)
      /\ forall t,
           In t (submitted (ETHUSDCSwapService.swap_eth_to_usdc self a slippage g m) w) ->
           result (ETHUSDCSwapService.swap_eth_to_usdc self a slippage g m) w
           = Raise (BlockchainError "Failed to swap ETH to USDC" ZeroDivisionError)
           /\ In t (mempool (state (after (ETHUSDCSwapService.swap_eth_to_usdc self a
                                             slippage g m) w))))
  /\ (forall self a g m wait,
        (exists e,
            result (USDCETHSwapService.swap_usdc_to_eth self a slippage g m wait) w
            = Raise e)
        /\ forall t,
             In t (submitted (USDCETHSwapService.swap_usdc_to_eth self a slippage g m
                                wait) w) ->
             router_call t ->
             result (USDCETHSwapService.swap_usdc_to_eth self a slippage g m wait) w
             = Raise (BlockchainError "Failed to swap USDC to ETH" ZeroDivisionError)
             /\ In t (mempool (state (after (USDCETHSwapService.swap_usdc_to_eth self a
                                               slippage g m wait) w)))).
Proof.
  intros Hs. split; intros.
  - exact (eth_service_full_slippage w self a slippage g m Hs).
  - exact (usdc_service_full_slippage w self a slippage g m wait Hs).
Qed.

Lemma full_slippage_raises_after_submitting_witness :
  floors (submitted (ETHUSDCSwapService.swap_eth_to_usdc eth_service 0.5 1 500000 1.5)
                    mining) = [0]
  /\ result (ETHUSDCSwapService.swap_eth_to_usdc eth_service 0.5 1 500000 1.5) mining
     = Raise (BlockchainError "Failed to swap ETH to USDC" ZeroDivisionError).
Proof.
  split; [vm_compute; reflexivity|].
  refine (proj1 (proj2 (proj1 (full_slippage_raises_after_submitting mining 1 _)
                          eth_service 0.5%float 500000 1.5%float)
                   (sale_transaction signer 500000 1500 500000000000000000 0
                      (state mining)) _)).
  - reflexivity.
  - vm_compute. left. reflexivity.
Defined.

(** ** Asking for the status of a sale just submitted *)

Lemma eth_service_frame w self a s g m :
  wp (ETHUSDCSwapService.swap_eth_to_usdc self a s g m) w
     (fun o w' => w3 w' = w3 w /\ mined (state w') = mined (state w)
                  /\ head (state w') = head (state w)).
Proof.
  unfold ETHUSDCSwapService.swap_eth_to_usdc,
    ETHUSDCSwapService.estimate_usdc_output,
    ETHUSDCSwapService.get_eth_price, ETHUSDCSwapService.get_eth_balance.
  wp_run; world_simpl; repeat split.
Qed.

(** X6.  Asking for the status of a sale right after it returned, with
    the hash it returned: while no receipt exists for that hash, the
    answer is whatever the library does for a missing receipt.  Where it
    raises, as web3 since version 5 does with [TransactionNotFound], the
    status query raises [BlockchainError]; only where it returns [None]
    is the answer [pending]. *)
Theorem status_of_fresh_sale (w : world) (self : ETHUSDCSwapService.service)
  (a s : float) (g : Z) (m : float) (r : ETHUSDCSwapService.swap_result) :
  result (ETHUSDCSwapService.swap_eth_to_usdc self a s g m) w = Return r ->
  find_mined (w3 w) (ETHUSDCSwapService.transaction_hash r) (mined (state w)) = None ->
  (forall e, missing_receipt (w3 w) = Raise e ->
             result (ETHUSDCSwapService.get_transaction_status self
                       (ETHUSDCSwapService.transaction_hash r))
                    (after (ETHUSDCSwapService.swap_eth_to_usdc self a s g m) w)
             = Raise (BlockchainError "Failed to check transaction status" e))
  /\ (missing_receipt (w3 w) = Return None ->
      reports ETHUSDCSwapService.ts_status
        (result (ETHUSDCSwapService.get_transaction_status self
                   (ETHUSDCSwapService.transaction_hash r))
                (after (ETHUSDCSwapService.swap_eth_to_usdc self a s g m) w))
        "pending").
Proof.
  intros Hr Hfresh.
  destruct (eth_service_frame w self a s g m) as (Hw & Hm & _).
  split.
  - intros e He. rewrite eth_status_run. unfold receipt_answer.
    rewrite Hw, Hm, Hfresh, He. reflexivity.
  - intros He. rewrite eth_status_run. unfold receipt_answer.
    rewrite Hw, Hm, Hfresh, He. eexists. split; reflexivity.
Qed.

Lemma status_of_fresh_sale_witness :
  result (ETHUSDCSwapService.get_transaction_status eth_service "0x0")
         (after first_sale stalled)
  = Raise (BlockchainError "Failed to check transaction status" TransactionNotFound).
Proof.
  refine (proj1 (status_of_fresh_sale stalled eth_service 0.5 0.01 500000 1.5
                   {| ETHUSDCSwapService.transaction_hash := "0x0";
                      ETHUSDCSwapService.eth_amount := 0.5;
                      ETHUSDCSwapService.estimated_usdc := 1500;
                      ETHUSDCSwapService.min_usdc_output := 1485;
                      ETHUSDCSwapService.status := "pending" |} _ _)
                TransactionNotFound _).
  - vm_compute. reflexivity.
  - vm_compute. reflexivity.
  - reflexivity.
Defined.

(** ** The nonces of a purchase *)

Ltac nonces :=
  unfold consecutive_from, transaction_count, pool in *;
  cbn [map tx_nonce List.length seq mined mempool] in *;
  rewrite ?length_app in *; cbn [List.length] in *;
  repeat (match goal with |- cons _ _ = cons _ _ => apply f_equal2 end);
  try reflexivity; lia.

Lemma usdc_service_nonces w self a s g m wait :
  wp (USDCETHSwapService.swap_usdc_to_eth self a s g m wait) w
     (fun o w' =>
        consecutive_from (transaction_count pending (state w))
          (map tx_nonce (skipn (List.length (sent (calls w))) (sent (calls w'))))).
Proof.
  unfold USDCETHSwapService.swap_usdc_to_eth,
    USDCETHSwapService.ensure_permit2_approval,
    USDCETHSwapService.estimate_eth_output,
    USDCETHSwapService.get_eth_price, USDCETHSwapService.get_usdc_balance.
  wp_run'; tidy; try (match goal with H : truthy EmptyString && _ = true |- _ => discriminate H end); nonces.
Qed.

Lemma usdc_agent_nonces w self a :
  wp (UsdcToEthAgent.swap_usdc_to_eth self a) w
     (fun o w' =>
        consecutive_from (transaction_count pending (state w))
          (map tx_nonce (skipn (List.length (sent (calls w))) (sent (calls w'))))).
Proof.
  unfold UsdcToEthAgent.swap_usdc_to_eth, UsdcToEthAgent.ensure_permit2_approval.
  wp_run'; tidy; nonces.
Qed.

(** X7.  In a purchase, through the service or through the agent, the
    transactions submitted, approvals and router call alike, carry the
    nonces [n], [n + 1], ... where [n] is the pending-inclusive
    transaction count at the start: no two share a nonce, and none takes
    the nonce of a transaction that already waits in the pool.  This
    holds for every run, also for one that fails half-way. *)
Theorem purchase_nonces_follow_pending_count (w : world) :
  (forall self a s g m wait,
      consecutive_from (transaction_count pending (state w))
        (map tx_nonce
             (submitted (USDCETHSwapService.swap_usdc_to_eth self a s g m wait) w)))
  /\ (forall self a,
        consecutive_from (transaction_count pending (state w))
          (map tx_nonce (submitted (UsdcToEthAgent.swap_usdc_to_eth self a) w))).
Proof.
  split; intros.
  - exact (usdc_service_nonces w self a s g m wait).
  - exact (usdc_agent_nonces w self a).
Qed.

(** ** Approvals come first *)

Ltac same_handle :=
  repeat match goal with
         | H : w3 _ = _ |- _ => try rewrite H in *; clear H
         end.

Ltac receipts :=
  intros t Ht Hr t' Ht' Ha;
  cbn [In] in Ht, Ht';
  repeat match goal with
         | H : _ \/ _ |- _ => destruct H
         | H : False |- _ => destruct H
         end;
  subst;
  try (destruct Hr as (? & ? & Hr); discriminate Hr);
  try (destruct Ha as (? & ? & Ha); discriminate Ha);
  unfold has_receipt; world_simpl; cbn [pool mined] in *; unfold transaction_count in *;
  same_handle;
  eauto.

Lemma usdc_service_receipts w self a s g m wait :
  wp (USDCETHSwapService.swap_usdc_to_eth self a s g m wait) w
     (fun o w' =>
        forall t, In t (skipn (List.length (sent (calls w))) (sent (calls w'))) ->
                  router_call t ->
        forall t', In t' (skipn (List.length (sent (calls w))) (sent (calls w'))) ->
                   is_approval t' -> has_receipt w' t').
Proof.
  unfold USDCETHSwapService.swap_usdc_to_eth,
    USDCETHSwapService.ensure_permit2_approval,
    USDCETHSwapService.estimate_eth_output,
    USDCETHSwapService.get_eth_price, USDCETHSwapService.get_usdc_balance.
  wp_run'; tidy; receipts.
Qed.

Lemma usdc_agent_receipts w self a :
  wp (UsdcToEthAgent.swap_usdc_to_eth self a) w
     (fun o w' =>
        forall t, In t (skipn (List.length (sent (calls w))) (sent (calls w'))) ->
                  router_call t ->
        forall t', In t' (skipn (List.length (sent (calls w))) (sent (calls w'))) ->
                   is_approval t' -> has_receipt w' t').
Proof.
  unfold UsdcToEthAgent.swap_usdc_to_eth, UsdcToEthAgent.ensure_permit2_approval.
  wp_run'; tidy; receipts.
Qed.

(** X8.  A purchase submits its router call only once every approval it
    submitted has a receipt on the ledger (service and agent): the call
    of [wait_for_transaction_receipt] stands between them, and a timeout
    there ends the run. *)
Theorem purchase_router_call_follows_receipts (w : world) :
  (forall self a s g m wait t t',
      In t (submitted (USDCETHSwapService.swap_usdc_to_eth self a s g m wait) w) ->
      router_call t ->
      In t' (submitted (USDCETHSwapService.swap_usdc_to_eth self a s g m wait) w) ->
      is_approval t' ->
      has_receipt (after (USDCETHSwapService.swap_usdc_to_eth self a s g m wait) w) t')
  /\ (forall self a t t',
        In t (submitted (UsdcToEthAgent.swap_usdc_to_eth self a) w) ->
        router_call t ->
        In t' (submitted (UsdcToEthAgent.swap_usdc_to_eth self a) w) ->
        is_approval t' ->
        has_receipt (after (UsdcToEthAgent.swap_usdc_to_eth self a) w) t').
Proof.
  split; intros.
  - exact (usdc_service_receipts w self a s g m wait t H H0 t' H1 H2).
  - exact (usdc_agent_receipts w self a t H H0 t' H1 H2).
Qed.

Lemma purchase_router_call_follows_receipts_witness :
  has_receipt
    (after (USDCETHSwapService.swap_usdc_to_eth usdc_service 10 0.01 500000 1.5 true)
           mining)
    (permit2_approval signer (state mining)).
Proof.
  refine (proj1 (purchase_router_call_follows_receipts mining)
            usdc_service 10%float 0.01%float 500000 1.5%float true
            (purchase_transaction signer SENDER 500000 1500 10000000 3300000000000000 1
               (state mining))
            (permit2_approval signer (state mining)) _ _ _ _).
  - vm_compute. right. left. reflexivity.
  - do 2 eexists. reflexivity.
  - vm_compute. left. reflexivity.
  - do 2 eexists. reflexivity.
Defined.

(** ** What a purchase submits *)

Ltac undo_division :=
  repeat match goal with
         | H : truediv _ _ = Return _ |- _ =>
             unfold truediv in H;
             match type of H with
             | context [if ?c then _ else _] =>
                 destruct c; [discriminate H | injection H as <-]
             end
         end.
Ltac clear_traces :=
  repeat match goal with
         | H : calls _ = _ |- _ => clear H
         | H : log _ = _ |- _ => clear H
         end.
Ltac normal :=
  unfold transaction_count, USDCETHSwapService.permit2_address,
    USDCETHSwapService.permit2_allowance_needed,
    UsdcToEthAgent.permit2_address, UsdcToEthAgent.permit2_allowance_needed in *;
  cbn [pool mined mempool priority_fee base_gas_price now] in *;
  rewrite ?length_app in *; cbn [List.length] in *;
  rewrite ?Nat2Z.inj_add, ?Z.add_assoc in *;
  repeat match goal with
         | H : rate_source _ = rate_source _ |- _ => rewrite H in *; clear H
         | H : w3 _ = w3 _ |- _ => rewrite H in *; clear H
         | H : priority_fee _ = priority_fee _ |- _ => rewrite H in *; clear H
         | H : base_gas_price _ = base_gas_price _ |- _ => rewrite H in *; clear H
         | H : now _ = now _ |- _ => rewrite H in *; clear H
         | H : Z.of_nat _ + Z.of_nat _ = _ |- _ => rewrite H in *; clear H
         end;
  undo_division.

Lemma usdc_service_returns w self a s g m wait :
  wp (USDCETHSwapService.swap_usdc_to_eth self a s g m wait) w
     (fun o w' =>
        forall r, o = Return r ->
        exists amount_in floor fee,
          base_units a (USDCETHSwapService.usdc_decimals self) = Return amount_in
          /\ base_units (a / price_used w * (1 - s)) 18 = Return floor
          /\ scaled_fee (priority_fee (state w)) m = Return fee
          /\ skipn (List.length (sent (calls w))) (sent (calls w'))
             = approvals_needed (USDCETHSwapService.account self) (state w)
               ++ [purchase_transaction (USDCETHSwapService.account self) SENDER
                     g fee amount_in floor
                     (transaction_count pending (state w)
                      + Z.of_nat (List.length
                           (approvals_needed (USDCETHSwapService.account self)
                              (state w))))
                     (state w)]
          /\ USDCETHSwapService.transaction_hash r
             = to_hex (hash_of (w3 w)
                 (purchase_transaction (USDCETHSwapService.account self) SENDER
                     g fee amount_in floor
                     (transaction_count pending (state w)
                      + Z.of_nat (List.length
                           (approvals_needed (USDCETHSwapService.account self)
                              (state w))))
                     (state w)))
          /\ USDCETHSwapService.approval_hash r
             = match approvals_needed (USDCETHSwapService.account self) (state w) with
               | [] => ""
               | t0 :: _ => to_hex (hash_of (w3 w) t0)
               end
          /\ USDCETHSwapService.usdc_amount r = a
          /\ USDCETHSwapService.min_eth_output r = (a / price_used w * (1 - s))%float
          /\ USDCETHSwapService.estimated_eth r
             = (a / price_used w * (1 - s) / (1 - s))%float
          /\ USDCETHSwapService.status r = "pending").
Proof.
  unfold USDCETHSwapService.swap_usdc_to_eth,
    USDCETHSwapService.ensure_permit2_approval,
    USDCETHSwapService.estimate_eth_output,
    USDCETHSwapService.get_eth_price, USDCETHSwapService.get_usdc_balance.
  wp_run'; tidy; intros r Hr; first [discriminate Hr | injection Hr as <-].
  all: try (match goal with H : truthy EmptyString && _ = true |- _ => discriminate H end).
  all: clear_traces.
  all: unfold approvals_needed, purchase_transaction, permit2_approval.
  all: normal.
  all: match goal with H : (_ >=? _) = _ |- _ => rewrite H end.
  all: cbn [app List.length Z.of_nat].
  all: rewrite ?Z.add_0_r, ?Nat2Z.inj_add, ?Z.add_assoc.
  all: cbn [Z.of_nat].
  all: do 3 eexists.
  all: (split; [unfold base_units; read_off; first [reflexivity | eassumption]|]).
  all: (split; [quoted|]).
  all: (split; [fee_scaled|]).
  all: repeat split.
  all: unfold price_used; read_off; reflexivity.
Qed.

(** X9.  A purchase through the service that returns has submitted the
    Permit2 approval, if the allowance was below 2^256 - 1, and then one
    router call that sends no ETH: it exchanges [int(amount * 10 **
    decimals)] units of USDC, paid by the sender, for at least the
    minimum of the quote in wei, and unwraps to the sender; its nonce is
    the pending count plus the number of approvals submitted.  The result
    names the hashes of both and the status [pending]. *)
Theorem purchase_reports_what_it_submitted (w : world)
  (self : USDCETHSwapService.service) (a s : float) (g : Z) (m : float) (wait : bool)
  (r : USDCETHSwapService.swap_result) :
  result (USDCETHSwapService.swap_usdc_to_eth self a s g m wait) w = Return r ->
  exists amount_in floor fee,
    base_units a (USDCETHSwapService.usdc_decimals self) = Return amount_in
    /\ base_units (a / price_used w * (1 - s)) 18 = Return floor
    /\ scaled_fee (priority_fee (state w)) m = Return fee
    /\ submitted (USDCETHSwapService.swap_usdc_to_eth self a s g m wait) w
       = approvals_needed (USDCETHSwapService.account self) (state w)
         ++ [purchase_transaction (USDCETHSwapService.account self) SENDER
               g fee amount_in floor
               (transaction_count pending (state w)
                + Z.of_nat (List.length
                     (approvals_needed (USDCETHSwapService.account self) (state w))))
               (state w)]
    /\ USDCETHSwapService.transaction_hash r
       = to_hex (hash_of (w3 w)
           (purchase_transaction (USDCETHSwapService.account self) SENDER
               g fee amount_in floor
               (transaction_count pending (state w)
                + Z.of_nat (List.length
                     (approvals_needed (USDCETHSwapService.account self) (state w))))
               (state w)))
    /\ USDCETHSwapService.approval_hash r
       = match approvals_needed (USDCETHSwapService.account self) (state w) with
         | [] => ""
         | t0 :: _ => to_hex (hash_of (w3 w) t0)
         end
    /\ USDCETHSwapService.usdc_amount r = a
    /\ USDCETHSwapService.min_eth_output r = (a / price_used w * (1 - s))%float
    /\ USDCETHSwapService.estimated_eth r
       = (a / price_used w * (1 - s) / (1 - s))%float
    /\ USDCETHSwapService.status r = "pending".
Proof.
  intros Hr. exact (usdc_service_returns w self a s g m wait r Hr).
Qed.

Lemma purchase_reports_what_it_submitted_witness :
  submitted (USDCETHSwapService.swap_usdc_to_eth usdc_service 10 0.01 500000 1.5 true)
            mining
  = [ permit2_approval signer (state mining);
      purchase_transaction signer SENDER 500000 1500 10000000 3300000000000000 1
        (state mining) ].
Proof.
  assert (Hr : result (USDCETHSwapService.swap_usdc_to_eth usdc_service 10 0.01
                         500000 1.5 true) mining
               = Return {| USDCETHSwapService.transaction_hash := "0x1";
                           USDCETHSwapService.approval_hash := "0x0";
                           USDCETHSwapService.usdc_amount := 10;
                           USDCETHSwapService.estimated_eth := 0.0033333333333333335;
                           USDCETHSwapService.min_eth_output := 0.0033;
                           USDCETHSwapService.status := "pending" |})
    by (vm_compute; reflexivity).
  destruct (purchase_reports_what_it_submitted mining usdc_service 10 0.01 500000 1.5
              true _ Hr)
    as (amount_in & floor & fee & Ha & Hf & Hfee & Hs & _).
  rewrite Hs.
  vm_compute in Ha. injection Ha as <-.
  vm_compute in Hf. injection Hf as <-.
  vm_compute in Hfee. injection Hfee as <-.
  reflexivity.
Defined.

Lemma usdc_agent_returns w self a :
  wp (UsdcToEthAgent.swap_usdc_to_eth self a) w
     (fun o w' =>
        forall h, o = Return h ->
        exists amount_in floor,
          UsdcToEthAgent.amount_in_usdc_of a = Return amount_in
          /\ UsdcToEthAgent.min_amount_out_of a = Return floor
          /\ skipn (List.length (sent (calls w))) (sent (calls w'))
             = approvals_needed (UsdcToEthAgent.account self) (state w)
               ++ [ router_approval (UsdcToEthAgent.account self) amount_in
                      (transaction_count pending (state w)
                       + Z.of_nat (List.length
                            (approvals_needed (UsdcToEthAgent.account self) (state w))))
                      (state w);
                    purchase_transaction (UsdcToEthAgent.account self) ROUTER
                      500000 (priority_fee (state w)) amount_in floor
                      (transaction_count pending (state w)
                       + Z.of_nat (List.length
                            (approvals_needed (UsdcToEthAgent.account self) (state w)))
                       + 1)
                      (state w) ]
          /\ h = to_hex (hash_of (w3 w)
                   (purchase_transaction (UsdcToEthAgent.account self) ROUTER
                      500000 (priority_fee (state w)) amount_in floor
                      (transaction_count pending (state w)
                       + Z.of_nat (List.length
                            (approvals_needed (UsdcToEthAgent.account self) (state w)))
                       + 1)
                      (state w)))).
Proof.
  unfold UsdcToEthAgent.swap_usdc_to_eth, UsdcToEthAgent.ensure_permit2_approval.
  wp_run'; tidy; intros r Hr; first [discriminate Hr | injection Hr as <-].
  all: clear_traces.
  all: unfold approvals_needed, purchase_transaction, router_approval, permit2_approval.
  all: normal.
  all: match goal with H : (_ >=? _) = _ |- _ => rewrite H end.
  all: cbn [app List.length Z.of_nat].
  all: rewrite ?Z.add_0_r, ?Nat2Z.inj_add, ?Z.add_assoc.
  all: cbn [Z.of_nat].
  all: do 2 eexists.
  all: (split; [first [reflexivity | eassumption]|]).
  all: (split; [first [reflexivity | eassumption]|]).
  all: repeat split.
Qed.

(** X10.  A purchase through the agent that returns has submitted, after
    the Permit2 approval if one was needed, an ERC-20 approval of the
    router for exactly the amount it then exchanges, and the router call,
    with consecutive nonces; the hash it returns is the router call's. *)
Theorem agent_purchase_approves_what_it_swaps (w : world) (self : UsdcToEthAgent.agent)
  (a : float) (h : string) :
  result (UsdcToEthAgent.swap_usdc_to_eth self a) w = Return h ->
  exists amount_in floor,
    UsdcToEthAgent.amount_in_usdc_of a = Return amount_in
    /\ UsdcToEthAgent.min_amount_out_of a = Return floor
    /\ submitted (UsdcToEthAgent.swap_usdc_to_eth self a) w
       = approvals_needed (UsdcToEthAgent.account self) (state w)
         ++ [ router_approval (UsdcToEthAgent.account self) amount_in
                (transaction_count pending (state w)
                 + Z.of_nat (List.length
                      (approvals_needed (UsdcToEthAgent.account self) (state w))))
                (state w);
              purchase_transaction (UsdcToEthAgent.account self) ROUTER
                500000 (priority_fee (state w)) amount_in floor
                (transaction_count pending (state w)
                 + Z.of_nat (List.length
                      (approvals_needed (UsdcToEthAgent.account self) (state w)))
                 + 1)
                (state w) ]
    /\ h = to_hex (hash_of (w3 w)
             (purchase_transaction (UsdcToEthAgent.account self) ROUTER
                500000 (priority_fee (state w)) amount_in floor
                (transaction_count pending (state w)
                 + Z.of_nat (List.length
                      (approvals_needed (UsdcToEthAgent.account self) (state w)))
                 + 1)
                (state w))).
Proof.
  intros Hr. exact (usdc_agent_returns w self a h Hr).
Qed.

Lemma agent_purchase_approves_what_it_swaps_witness :
  map tx_data (submitted (UsdcToEthAgent.swap_usdc_to_eth usdc_agent 10) mining)
  = [ Approve PERMIT2_ADDRESS (2 ^ 256 - 1);
      Approve UNIVERSAL_ROUTER_ADDRESS 10000000;
      Execute [ V2_SWAP_EXACT_IN ROUTER 10000000 3960000000000000
                  [USDC_ADDRESS; WETH_ADDRESS] true;
                UNWRAP_WETH SENDER 0 ] 1700000180 ].
Proof.
  assert (Hr : result (UsdcToEthAgent.swap_usdc_to_eth usdc_agent 10) mining
               = Return "0x2") by (vm_compute; reflexivity).
  destruct (agent_purchase_approves_what_it_swaps mining usdc_agent 10 _ Hr)
    as (amount_in & floor & Ha & Hf & Hs & _).
  rewrite Hs.
  vm_compute in Ha. injection Ha as <-.
  vm_compute in Hf. injection Hf as <-.
  reflexivity.
Defined.

(** ** A reverted approval *)

Lemma find_pending_last hx h l t :
  find_pending hx h l = None -> to_hex (hash_of hx t) = h ->
  find_pending hx h (l ++ [t]) = Some t.
Proof.
  intros Hn Ht. induction l as [|t0 l IH]; cbn [find_pending app] in *.
  - rewrite Ht, String.eqb_refl. reflexivity.
  - destruct (String.eqb (to_hex (hash_of hx t0)) h); [discriminate Hn|].
    apply IH. exact Hn.
Qed.

Lemma wp_wait_confirmed h w t r (Q : outcome receipt -> world -> Prop) :
  find_mined (w3 w) h (mined (state w)) = None ->
  find_pending (w3 w) h (mempool (state w)) = Some t ->
  confirms (w3 w) t = Some r ->
  Q (Return r) (set_state (mine (w3 w) t r (state w))
                          (with_call (eth_waitForReceipt h) w)) ->
  wp (wait_for_transaction_receipt h) w Q.
Proof.
  intros Hm Hp Hc HQ.
  unfold wp, result, after, wait_for_transaction_receipt, bind, call, polled.
  cbn [fst snd with_call w3 state calls rate_source log].
  rewrite Hm, Hp, Hc. exact HQ.
Qed.

Ltac wp_confirmed t r Hm Hp Hc :=
  repeat lazymatch goal with
         | |- wp (wait_for_transaction_receipt _) _ _ =>
             apply (wp_wait_confirmed _ _ t r);
             [ world_simpl; cbn [pool mined]; exact Hm
             | world_simpl; cbn [pool mempool];
               apply find_pending_last; [exact Hp | reflexivity]
             | world_simpl; exact Hc
             | ]
         | |- _ => wp_step
         end.

Lemma usdc_service_ensure_confirmed w self r :
  let t := permit2_approval (USDCETHSwapService.account self) (state w) in
  let h := to_hex (hash_of (w3 w) t) in
  allowances (state w) PERMIT2_ADDRESS < 2 ^ 256 - 1 ->
  find_mined (w3 w) h (mined (state w)) = None ->
  find_pending (w3 w) h (mempool (state w)) = None ->
  confirms (w3 w) t = Some r ->
  wp (USDCETHSwapService.ensure_permit2_approval self) w
     (fun o w' =>
        o = Return h
        /\ mined (state w') = mined (state w) ++ [(t, r)]
        /\ (status r <> 1 -> allowances (state w') = allowances (state w))).
Proof.
  intros t h Hlow Hm Hp Hc. subst t h.
  unfold USDCETHSwapService.ensure_permit2_approval.
  wp_confirmed (permit2_approval (USDCETHSwapService.account self) (state w)) r Hm Hp Hc.
  - exfalso.
    match goal with
    | H : (_ >=? _) = true |- _ =>
        unfold USDCETHSwapService.permit2_allowance_needed,
          USDCETHSwapService.permit2_address in H;
        world_simpl; apply Z.geb_le in H; lia
    end.
  - world_simpl. cbn [mine mined allowances tx_data permit2_approval].
    repeat split.
    intros Hs. apply Z.eqb_neq in Hs. rewrite Hs. reflexivity.
Qed.

Lemma usdc_agent_ensure_confirmed w self r :
  let t := permit2_approval (UsdcToEthAgent.account self) (state w) in
  let h := to_hex (hash_of (w3 w) t) in
  allowances (state w) PERMIT2_ADDRESS < 2 ^ 256 - 1 ->
  find_mined (w3 w) h (mined (state w)) = None ->
  find_pending (w3 w) h (mempool (state w)) = None ->
  confirms (w3 w) t = Some r ->
  wp (UsdcToEthAgent.ensure_permit2_approval self) w
     (fun o w' =>
        o = Return h
        /\ mined (state w') = mined (state w) ++ [(t, r)]
        /\ (status r <> 1 -> allowances (state w') = allowances (state w))).
Proof.
  intros t h Hlow Hm Hp Hc. subst t h.
  unfold UsdcToEthAgent.ensure_permit2_approval.
  wp_confirmed (permit2_approval (UsdcToEthAgent.account self) (state w)) r Hm Hp Hc.
  - exfalso.
    match goal with
    | H : (_ >=? _) = true |- _ =>
        unfold UsdcToEthAgent.permit2_allowance_needed,
          UsdcToEthAgent.permit2_address in H;
        world_simpl; apply Z.geb_le in H; lia
    end.
  - world_simpl. cbn [mine mined allowances tx_data permit2_approval].
    repeat split.
    intros Hs. apply Z.eqb_neq in Hs. rewrite Hs. reflexivity.
Qed.

(** X11.  [ensure_permit2_approval] does not look at the receipt it
    waits for.  When the node confirms the approval with any receipt, of
    status 1 or not, the call returns the approval's hash (service and
    agent), and with a status other than 1 the allowance is what it
    was. *)
Theorem reverted_approval_is_accepted (w : world) (r : receipt) :
  allowances (state w) PERMIT2_ADDRESS < 2 ^ 256 - 1 ->
  (forall self,
      let t := permit2_approval (USDCETHSwapService.account self) (state w) in
      find_mined (w3 w) (to_hex (hash_of (w3 w) t)) (mined (state w)) = None ->
      find_pending (w3 w) (to_hex (hash_of (w3 w) t)) (mempool (state w)) = None ->
      confirms (w3 w) t = Some r ->
      result (USDCETHSwapService.ensure_permit2_approval self) w
      = Return (to_hex (hash_of (w3 w) t))
      /\ mined (state (after (USDCETHSwapService.ensure_permit2_approval self) w))
         = mined (state w) ++ [(t, r)]
      /\ (status r <> 1 ->
          allowances (state (after (USDCETHSwapService.ensure_permit2_approval self) w))
          = allowances (state w)))
  /\ (forall self,
        let t := permit2_approval (UsdcToEthAgent.account self) (state w) in
        find_mined (w3 w) (to_hex (hash_of (w3 w) t)) (mined (state w)) = None ->
        find_pending (w3 w) (to_hex (hash_of (w3 w) t)) (mempool (state w)) = None ->
        confirms (w3 w) t = Some r ->
        result (UsdcToEthAgent.ensure_permit2_approval self) w
        = Return (to_hex (hash_of (w3 w) t))
        /\ mined (state (after (UsdcToEthAgent.ensure_permit2_approval self) w))
           = mined (state w) ++ [(t, r)]
        /\ (status r <> 1 ->
            allowances (state (after (UsdcToEthAgent.ensure_permit2_approval self) w))
            = allowances (state w))).
Proof.
  intros Hlow. split; intros self t Hm Hp Hc.
  - exact (usdc_service_ensure_confirmed w self r Hlow Hm Hp Hc).
  - exact (usdc_agent_ensure_confirmed w self r Hlow Hm Hp Hc).
Qed.

(** On a node that mines every approval and reverts it, the purchase
    goes on to its router call. *)
Lemma reverted_approval_is_accepted_witness :
  result (USDCETHSwapService.ensure_permit2_approval usdc_service) reverting
  = Return "0x0"
  /\ allowances
       (state (after (USDCETHSwapService.ensure_permit2_approval usdc_service) reverting))
       PERMIT2_ADDRESS = 0
  /\ map commands_of
       (submitted (USDCETHSwapService.swap_usdc_to_eth usdc_service 10 0.01 500000 1.5
                     true) reverting)
     = [ [];
         [ V2_SWAP_EXACT_IN SENDER 10000000 3300000000000000
             [USDC_ADDRESS; WETH_ADDRESS] true;
           UNWRAP_WETH SENDER 0 ] ].
Proof.
  destruct (proj1 (reverted_approval_is_accepted reverting
                     {| blockNumber := 101; status := 0; gasUsed := 46000 |}
                     ltac:(vm_compute; reflexivity))
              usdc_service
              ltac:(vm_compute; reflexivity)
              ltac:(vm_compute; reflexivity)
              ltac:(vm_compute; reflexivity))
    as (Hr & _ & Ha).
  split; [exact Hr|]. split.
  - rewrite Ha; [reflexivity | discriminate].
  - vm_compute. reflexivity.
Defined.

(** ** Comparisons and conversions *)

Lemma SFcompare_antisym x y :
  SFcompare y x = match SFcompare x y with
                  | Some c => Some (CompOpp c)
                  | None => None
                  end.
Proof.
  destruct x as [sx|sx| |sx mx ex], y as [sy|sy| |sy my ey];
    cbn [SFcompare]; try reflexivity;
    try (destruct sx; reflexivity); try (destruct sy; reflexivity);
    try (destruct sx, sy; reflexivity).
  destruct sx, sy; try reflexivity;
    rewrite (Z.compare_antisym ex ey); destruct (ex ?= ey); cbn [CompOpp];
    try reflexivity.
  - rewrite CompOpp_involutive.
    rewrite (Pos.compare_cont_antisym my mx Eq). reflexivity.
  - rewrite (Pos.compare_cont_antisym mx my Eq). reflexivity.
Qed.

(** [a <= b] excludes [b < a], also for infinities and NaN. *)
Lemma leb_not_ltb (a b : float) :
  (a <=? b)%float = true -> (b <? a)%float = false.
Proof.
  rewrite leb_spec, ltb_spec. unfold SFleb, SFltb.
  rewrite (SFcompare_antisym (Prim2SF a) (Prim2SF b)).
  destruct (SFcompare (Prim2SF a) (Prim2SF b)) as [[| |]|];
    cbn [CompOpp]; intros H; first [reflexivity | discriminate H].
Qed.

Lemma float_of_int_raises n e : float_of_int n = Raise e -> arithmetic_error e.
Proof.
  unfold float_of_int.
  destruct (binary_normalize prec emax n 0 false); intros H;
    first [discriminate H | injection H as <-; left; reflexivity].
Qed.

Lemma int_of_float_raises x e : int_of_float x = Raise e -> arithmetic_error e.
Proof.
  unfold int_of_float.
  destruct (Prim2SF x) as [s|s| |s m ex]; intros H;
    first [ discriminate H
          | injection H as <-; left; reflexivity
          | injection H as <-; right; right; reflexivity ].
Qed.

Lemma mul_int_raises x n e : mul_int x n = Raise e -> arithmetic_error e.
Proof.
  unfold mul_int. destruct (float_of_int n) eqn:E; intros H;
    [discriminate H | injection H as <-; exact (float_of_int_raises _ _ E)].
Qed.

Lemma int_truediv_raises a b e : int_truediv a b = Raise e -> arithmetic_error e.
Proof.
  unfold int_truediv.
  destruct a, b; try (intros H; first [discriminate H
                                     | injection H as <-; right; left; reflexivity]).
  all: destruct (SFdiv_core_binary _ _ _ _ _ _) as [[q ex] l];
    destruct (binary_round_aux _ _ _ _ _ _); intros H;
    first [discriminate H | injection H as <-; left; reflexivity].
Qed.

Lemma truediv_raises x y e : truediv x y = Raise e -> arithmetic_error e.
Proof.
  unfold truediv. destruct (y =? 0)%float; intros H;
    [injection H as <-; right; left; reflexivity | discriminate H].
Qed.

Lemma scaled_raises (fee : Z) (m : float) x :
  match float_of_int fee with
  | Return f => Return (f * m)%float
  | Raise e => Raise e
  end = Raise x -> arithmetic_error x.
Proof.
  destruct (float_of_int fee) eqn:E; intros H;
    [discriminate H | injection H as <-; exact (float_of_int_raises _ _ E)].
Qed.

Lemma arithmetic_error_not_insufficient t h n :
  ~ arithmetic_error (ValueError (Insufficient t h n)).
Proof. intros [H|[H|H]]; discriminate H. Qed.

(** ** The quote of a purchase *)

Ltac not_arithmetic :=
  exfalso;
  match goal with
  | H : forall e, Raise _ = Raise e -> e = TimeExhausted |- _ =>
      specialize (H _ eq_refl); discriminate H
  | H : _ = Raise (ValueError (Insufficient _ _ _)) |- _ =>
      first [ apply mul_int_raises in H
            | apply int_of_float_raises in H
            | apply int_truediv_raises in H
            | apply truediv_raises in H
            | apply scaled_raises in H ];
      exact (arithmetic_error_not_insufficient _ _ _ H)
  end.

Lemma usdc_service_insufficient_only w self a s g m wait :
  wp (USDCETHSwapService.swap_usdc_to_eth self a s g m wait) w
     (fun o w' =>
        forall t h n,
          o = Raise (BlockchainError "Failed to swap USDC to ETH"
                       (ValueError (Insufficient t h n))) ->
          int_truediv (usdc_raw (state w)) (10 ^ USDCETHSwapService.usdc_decimals self)
          = Return h
          /\ (h <? a)%float = true).
Proof.
  unfold USDCETHSwapService.swap_usdc_to_eth,
    USDCETHSwapService.ensure_permit2_approval,
    USDCETHSwapService.estimate_eth_output,
    USDCETHSwapService.get_eth_price, USDCETHSwapService.get_usdc_balance.
  wp_run'; tidy; intros t h n Hr; try discriminate Hr.
  all: clear_traces.
  all: injection Hr; intros; subst.
  all: first [ split; assumption | not_arithmetic ].
Qed.

Lemma quote_run w self a :
  wp (USDCETHQuote.get_usdc_to_eth_quote self a) w
     (fun o w' =>
        state w' = state w /\ w3 w' = w3 w /\ rate_source w' = rate_source w
        /\ sent (calls w') = sent (calls w)
        /\ forall q, o = Return q ->
             USDCETHQuote.usdc_amount q = a
             /\ USDCETHQuote.eth_price q = price_used w
             /\ USDCETHQuote.estimated_eth q = (a / price_used w)%float
             /\ USDCETHQuote.min_eth_output q = (a / price_used w * (1 - 0.01))%float
             /\ USDCETHQuote.is_approved q
                = (allowances (state w) PERMIT2_ADDRESS >? 0)
             /\ int_truediv (usdc_raw (state w))
                            (10 ^ USDCETHSwapService.usdc_decimals self)
                = Return (USDCETHQuote.usdc_balance q)
             /\ USDCETHQuote.has_sufficient_balance q
                = (a <=? USDCETHQuote.usdc_balance q)%float).
Proof.
  unfold USDCETHQuote.get_usdc_to_eth_quote,
    USDCETHSwapService.estimate_eth_output,
    USDCETHSwapService.get_eth_price, USDCETHSwapService.get_usdc_balance,
    USDCETHSwapService.get_eth_balance.
  wp_run; tidy; (split; [reflexivity|]); (split; [reflexivity|]);
    (split; [reflexivity|]); (split; [reflexivity|]);
    intros q Hq; first [discriminate Hq | injection Hq as <-].
  all: try match goal with
           | H1 : rate_source ?x = _, H2 : rate_source ?x = _ |- _ =>
               rewrite H1 in H2; first [discriminate H2 | injection H2 as <-]
           end.
  all: undo_division; unfold price_used; read_off; repeat split;
    first [reflexivity | assumption].
Qed.

Lemma eth_status_frame w self h :
  wp (ETHUSDCSwapService.get_transaction_status self h) w
     (fun o w' => state w' = state w /\ sent (calls w') = sent (calls w)).
Proof.
  unfold ETHUSDCSwapService.get_transaction_status, get_transaction_receipt.
  wp_run; tidy; split; reflexivity.
Qed.

Lemma usdc_status_frame w self h :
  wp (USDCETHSwapService.get_transaction_status self h) w
     (fun o w' => state w' = state w /\ sent (calls w') = sent (calls w)).
Proof.
  unfold USDCETHSwapService.get_transaction_status, get_transaction_receipt.
  wp_run; tidy; split; reflexivity.
Qed.

Lemma nothing_sent {A} (m : M A) w :
  sent (calls (after m w)) = sent (calls w) -> submitted m w = [].
Proof. intros H. unfold submitted. rewrite H. apply skipn_all. Qed.

(** X12.  The queries are read-only: a quote and a status query, in
    either service, submit no transaction and leave the state of the
    ledger as it was, whatever they return or raise. *)
Theorem queries_submit_nothing (w : world) :
  (forall self a,
      submitted (USDCETHQuote.get_usdc_to_eth_quote self a) w = []
      /\ state (after (USDCETHQuote.get_usdc_to_eth_quote self a) w) = state w)
  /\ (forall self h,
        submitted (ETHUSDCSwapService.get_transaction_status self h) w = []
        /\ state (after (ETHUSDCSwapService.get_transaction_status self h) w) = state w)
  /\ (forall self h,
        submitted (USDCETHSwapService.get_transaction_status self h) w = []
        /\ state (after (USDCETHSwapService.get_transaction_status self h) w) = state w).
Proof.
  split; [|split]; intros.
  - destruct (quote_run w self a) as (Hs & _ & _ & Hc & _).
    split; [apply nothing_sent; exact Hc | exact Hs].
  - destruct (eth_status_frame w self h) as (Hs & Hc).
    split; [apply nothing_sent; exact Hc | exact Hs].
  - destruct (usdc_status_frame w self h) as (Hs & Hc).
    split; [apply nothing_sent; exact Hc | exact Hs].
Qed.

Lemma floors_approvals owner s : floors (approvals_needed owner s) = [].
Proof.
  unfold approvals_needed. destruct (_ >=? _); reflexivity.
Qed.

Lemma floors_app l1 l2 : floors (l1 ++ l2) = floors l1 ++ floors l2.
Proof. unfold floors. apply flat_map_app. Qed.

(** X13.  The minimum a quote names is the minimum a purchase at the
    default slippage, made right after it, reports and enforces: the
    router call it submits carries that minimum, in wei, as its floor. *)
Theorem quoted_floor_is_enforced (w : world) (self : USDCETHSwapService.service)
  (a : float) (q : USDCETHQuote.quote) (g : Z) (m : float) (wait : bool)
  (r : USDCETHSwapService.swap_result) :
  result (USDCETHQuote.get_usdc_to_eth_quote self a) w = Return q ->
  result (USDCETHSwapService.swap_usdc_to_eth self a USDCETHSwapService.default_slippage
            g m wait)
         (after (USDCETHQuote.get_usdc_to_eth_quote self a) w)
  = Return r ->
  USDCETHSwapService.min_eth_output r = USDCETHQuote.min_eth_output q
  /\ exists floor,
       base_units (USDCETHQuote.min_eth_output q) 18 = Return floor
       /\ floors (submitted (USDCETHSwapService.swap_usdc_to_eth self a
                               USDCETHSwapService.default_slippage g m wait)
                            (after (USDCETHQuote.get_usdc_to_eth_quote self a) w))
          = [floor].
Proof.
  intros Hq Hr.
  destruct (quote_run w self a) as (Hs & Hw & Hrate & _ & Hfields).
  destruct (Hfields q Hq) as (_ & _ & _ & Hmin & _).
  destruct (usdc_service_returns _ self a USDCETHSwapService.default_slippage g m wait
              r Hr)
    as (amount_in & floor & fee & _ & Hf & _ & Hsub & _ & _ & _ & Hrmin & _).
  assert (Hp : price_used (after (USDCETHQuote.get_usdc_to_eth_quote self a) w)
               = price_used w) by (unfold price_used; rewrite Hrate; reflexivity).
  rewrite Hp in Hrmin, Hf.
  split.
  - rewrite Hrmin, Hmin. reflexivity.
  - exists floor. split.
    + rewrite Hmin. exact Hf.
    + unfold submitted in *. rewrite Hsub, floors_app, floors_approvals. reflexivity.
Qed.

Lemma quoted_floor_is_enforced_witness :
  floors (submitted (USDCETHSwapService.swap_usdc_to_eth usdc_service 10
                       USDCETHSwapService.default_slippage 500000 1.5 true)
                    (after (USDCETHQuote.get_usdc_to_eth_quote usdc_service 10) mining))
  = [3300000000000000].
Proof.
  assert (Hq : result (USDCETHQuote.get_usdc_to_eth_quote usdc_service 10) mining
               = Return {| USDCETHQuote.usdc_amount := 10;
                           USDCETHQuote.estimated_eth := 0.0033333333333333335;
                           USDCETHQuote.min_eth_output := 0.0033;
                           USDCETHQuote.eth_price := 3000;
                           USDCETHQuote.has_sufficient_balance := true;
                           USDCETHQuote.is_approved := false;
                           USDCETHQuote.usdc_balance := 5000;
                           USDCETHQuote.eth_balance := 2 |})
    by (vm_compute; reflexivity).
  assert (Hr : result (USDCETHSwapService.swap_usdc_to_eth usdc_service 10
                         USDCETHSwapService.default_slippage 500000 1.5 true)
                      (after (USDCETHQuote.get_usdc_to_eth_quote usdc_service 10) mining)
               = Return {| USDCETHSwapService.transaction_hash := "0x1";
                           USDCETHSwapService.approval_hash := "0x0";
                           USDCETHSwapService.usdc_amount := 10;
                           USDCETHSwapService.estimated_eth := 0.0033333333333333335;
                           USDCETHSwapService.min_eth_output := 0.0033;
                           USDCETHSwapService.status := "pending" |})
    by (vm_compute; reflexivity).
  destruct (quoted_floor_is_enforced mining usdc_service 10 _ 500000 1.5 true _ Hq Hr)
    as (_ & floor & Hf & Hs).
  rewrite Hs. vm_compute in Hf. injection Hf as <-. reflexivity.
Defined.

(** X14.  The quote calls the account approved as soon as the allowance
    of Permit2 is positive, while [ensure_permit2_approval] asks for the
    full 2^256 - 1: with an allowance strictly between, the quote says
    [is_approved] and the approval that follows is submitted all the
    same.  Conversely, whenever no approval is needed the quote says
    approved. *)
Theorem is_approved_does_not_spare_approval (w : world)
  (self : USDCETHSwapService.service) (a : float) (q : USDCETHQuote.quote) :
  result (USDCETHQuote.get_usdc_to_eth_quote self a) w = Return q ->
  (USDCETHQuote.is_approved q = true <-> 0 < allowances (state w) PERMIT2_ADDRESS)
  /\ (0 < allowances (state w) PERMIT2_ADDRESS < 2 ^ 256 - 1 ->
      USDCETHQuote.is_approved q = true
      /\ submitted (USDCETHSwapService.ensure_permit2_approval self)
                   (after (USDCETHQuote.get_usdc_to_eth_quote self a) w)
         = [permit2_approval (USDCETHSwapService.account self) (state w)])
  /\ (result (USDCETHSwapService.ensure_permit2_approval self)
             (after (USDCETHQuote.get_usdc_to_eth_quote self a) w) = Return "" ->
      USDCETHQuote.is_approved q = true).
Proof.
  intros Hq.
  destruct (quote_run w self a) as (Hs & _ & _ & _ & Hfields).
  destruct (Hfields q Hq) as (_ & _ & _ & _ & Happ & _).
  assert (Hiff : USDCETHQuote.is_approved q = true
                 <-> 0 < allowances (state w) PERMIT2_ADDRESS).
  { rewrite Happ. rewrite Z.gtb_ltb. apply Z.ltb_lt. }
  destruct (usdc_service_ensure
              (after (USDCETHQuote.get_usdc_to_eth_quote self a) w) self)
    as (_ & Hlow).
  rewrite Hs in Hlow.
  split; [exact Hiff|]. split.
  - intros [Hpos Hmax]. split; [apply Hiff; exact Hpos|].
    exact (proj2 (Hlow Hmax)).
  - intros Hempty. apply Hiff.
    destruct (Z_lt_le_dec (allowances (state w) PERMIT2_ADDRESS) (2 ^ 256 - 1))
      as [Hlt|Hge].
    + destruct (Hlow Hlt) as (Hne & _). contradiction.
    + assert (0 < 2 ^ 256 - 1) by (vm_compute; reflexivity). lia.
Qed.

Lemma is_approved_does_not_spare_approval_witness :
  submitted (USDCETHSwapService.ensure_permit2_approval usdc_service)
            (after (USDCETHQuote.get_usdc_to_eth_quote usdc_service 10)
                   (half_approved mining))
  = [permit2_approval signer (state (half_approved mining))].
Proof.
  assert (Hq : result (USDCETHQuote.get_usdc_to_eth_quote usdc_service 10)
                      (half_approved mining)
               = Return {| USDCETHQuote.usdc_amount := 10;
                           USDCETHQuote.estimated_eth := 0.0033333333333333335;
                           USDCETHQuote.min_eth_output := 0.0033;
                           USDCETHQuote.eth_price := 3000;
                           USDCETHQuote.has_sufficient_balance := true;
                           USDCETHQuote.is_approved := true;
                           USDCETHQuote.usdc_balance := 5000;
                           USDCETHQuote.eth_balance := 2 |})
    by (vm_compute; reflexivity).
  refine (proj2 (proj1 (proj2 (is_approved_does_not_spare_approval
                                 (half_approved mining) usdc_service 10 _ Hq)) _)).
  vm_compute. split; reflexivity.
Defined.

(** X15.  When a quote says the balance is sufficient, a purchase of the
    same amount made right after it, at any slippage, does not fail on
    its balance check. *)
Theorem sufficient_balance_passes_check (w : world) (self : USDCETHSwapService.service)
  (a : float) (q : USDCETHQuote.quote) :
  result (USDCETHQuote.get_usdc_to_eth_quote self a) w = Return q ->
  USDCETHQuote.has_sufficient_balance q = true ->
  forall s g m wait token have need,
    result (USDCETHSwapService.swap_usdc_to_eth self a s g m wait)
           (after (USDCETHQuote.get_usdc_to_eth_quote self a) w)
    <> Raise (BlockchainError "Failed to swap USDC to ETH"
                (ValueError (Insufficient token have need))).
Proof.
  intros Hq Hsuff s g m wait token have need Hraise.
  destruct (quote_run w self a) as (Hs & _ & _ & _ & Hfields).
  destruct (Hfields q Hq) as (_ & _ & _ & _ & _ & Hbal & Hhas).
  destruct (usdc_service_insufficient_only _ self a s g m wait token have need Hraise)
    as (Hhave & Hlt).
  rewrite Hs, Hbal in Hhave. injection Hhave as <-.
  rewrite Hhas in Hsuff. apply leb_not_ltb in Hsuff. congruence.
Qed.

Lemma sufficient_balance_passes_check_witness :
  result (USDCETHSwapService.swap_usdc_to_eth usdc_service 10 0.01 500000 1.5 true)
         (after (USDCETHQuote.get_usdc_to_eth_quote usdc_service 10) mining)
  <> Raise (BlockchainError "Failed to swap USDC to ETH"
              (ValueError (Insufficient "USDC" 5000 10))).
Proof.
  refine (sufficient_balance_passes_check mining usdc_service 10
            {| USDCETHQuote.usdc_amount := 10;
               USDCETHQuote.estimated_eth := 0.0033333333333333335;
               USDCETHQuote.min_eth_output := 0.0033;
               USDCETHQuote.eth_price := 3000;
               USDCETHQuote.has_sufficient_balance := true;
               USDCETHQuote.is_approved := false;
               USDCETHQuote.usdc_balance := 5000;
               USDCETHQuote.eth_balance := 2 |} _ _
            0.01%float 500000 1.5%float true "USDC" 5000%float 10%float).
  - vm_compute. reflexivity.
  - reflexivity.
Defined.

(** ** The requests *)

Ltac answered :=
  eexists; split; [reflexivity|]; unfold handled, supported; cbv zeta; tidy;
  match goal with
  | H : _ || _ = true |- _ =>
      left; split;
      [ apply orb_true_iff in H; apply andb_false_iff;
        destruct H as [H|H]; apply negb_true_iff in H; auto
      | repeat split ]
  | H : _ || _ = false |- _ =>
      let Hb := fresh in
      let Hs := fresh in
      right; split;
      [ apply orb_false_iff in H; destruct H as [Hb Hs];
        apply negb_false_iff in Hb; apply negb_false_iff in Hs;
        rewrite Hb, Hs; reflexivity
      | ]
  end.

Ltac no_router_call :=
  right; eexists; split; [reflexivity|];
  intros t Ht Hr; cbn [In] in Ht;
  repeat match goal with
         | H : _ \/ _ |- _ => destruct H
         | H : False |- _ => destruct H
         end;
  subst; destruct Hr as (? & ? & Hr); discriminate Hr.

Ltac router_call_sent :=
  left; eexists; split; [reflexivity|];
  split; [do 2 eexists; reflexivity|];
  split; [cbn [In]; auto 6|];
  cbn [pool mempool]; apply in_or_app; right; left; reflexivity.

Lemma eth_handler_run w self sender msg :
  wp (EthToUsdcAgentHandler.handle_swap_request self sender msg) w
     (fun o w' => exists resp, o = Return [(sender, resp)]
                               /\ handled "sell" msg w resp w').
Proof.
  unfold EthToUsdcAgentHandler.handle_swap_request,
    EthToUsdcAgent.swap_eth_to_usdc.
  wp_run'; answered; first [ no_router_call | router_call_sent ].
Qed.

Lemma usdc_handler_run w self sender msg :
  wp (UsdcToEthAgentHandler.handle_swap_request self sender msg) w
     (fun o w' => exists resp, o = Return [(sender, resp)]
                               /\ handled "buy" msg w resp w').
Proof.
  unfold UsdcToEthAgentHandler.handle_swap_request,
    UsdcToEthAgent.swap_usdc_to_eth, UsdcToEthAgent.ensure_permit2_approval.
  wp_run';
    try (match goal with H : truthy EmptyString = true |- _ => discriminate H end);
    answered; clear_traces; same_handle;
    first [ no_router_call | router_call_sent ].
Qed.


Lemma handled_unsupported direction msg w resp w' :
  handled direction msg w resp w' -> supported direction msg = false ->
  skipn (List.length (sent (calls w))) (sent (calls w')) = [].
Proof.
  intros [(_ & _ & Hc & _)|(Hs & _)] Hn.
  - rewrite Hc. apply skipn_all.
  - congruence.
Qed.

Lemma one_direction msg :
  supported "sell" msg = false \/ supported "buy" msg = false.
Proof.
  unfold supported.
  destruct (Messages.lower (Messages.blockchain msg) =? "base")%string;
    [|left; reflexivity].
  destruct (String.eqb_spec (Messages.lower (Messages.signal msg)) "sell") as [E|E].
  - right. rewrite E. reflexivity.
  - left. reflexivity.
Qed.

(** X17.  No request is executed twice: whatever the request and the
    worlds of the two agents, the selling agent or the buying agent
    submits nothing for it. *)
Theorem swap_agents_are_exclusive (msg : Messages.SwapRequest) (w1 w2 : world)
  (seller : EthToUsdcAgent.agent) (buyer : UsdcToEthAgent.agent)
  (sender1 sender2 : string) :
  submitted (EthToUsdcAgentHandler.handle_swap_request seller sender1 msg) w1 = []
  \/ submitted (UsdcToEthAgentHandler.handle_swap_request buyer sender2 msg) w2 = [].
Proof.
  destruct (one_direction msg) as [H|H].
  - left. destruct (eth_handler_run w1 seller sender1 msg) as (resp & _ & Hh).
    exact (handled_unsupported _ _ _ _ _ Hh H).
  - right. destruct (usdc_handler_run w2 buyer sender2 msg) as (resp & _ & Hh).
    exact (handled_unsupported _ _ _ _ _ Hh H).
Qed.

(** ** The swap finder *)

Lemma named_some l ai a :
  Swapfinder.named l ai = Some (Some a) ->
  In (Swapfinder.Object (Some a)) l /\ Swapfinder.contains a ai = true.
Proof.
  induction l as [|[[b|]|] l IH]; cbn [Swapfinder.named]; try discriminate.
  destruct (Swapfinder.contains b ai) eqn:E.
  - intros H. injection H as <-. split; [left; reflexivity | exact E].
  - intros H. destruct (IH H) as [Hin Hc]. split; [right; exact Hin | exact Hc].
Qed.

Lemma named_none l ai :
  Swapfinder.named l ai = Some None ->
  forall b, In (Swapfinder.Object (Some b)) l -> Swapfinder.contains b ai = false.
Proof.
  induction l as [|[[c|]|] l IH]; cbn [Swapfinder.named]; try discriminate.
  - intros _ b [].
  - destruct (Swapfinder.contains c ai) eqn:E; [discriminate|].
    intros H b [Hb|Hb].
    + injection Hb as <-. exact E.
    + exact (IH H b Hb).
Qed.

Lemma query_llm_some net ai :
  Swapfinder.query_llm net = Some ai ->
  truthy (Swapfinder.api_key net) = true /\ Swapfinder.completion net = Some ai.
Proof.
  unfold Swapfinder.query_llm.
  destruct (truthy (Swapfinder.api_key net)); cbn [negb]; [auto | discriminate].
Qed.

Lemma search_run net b s a w :
  wp (Swapfinder.search_swap_agent net b s a) w
     (fun o w' =>
        calls w' = calls w /\ state w' = state w
        /\ exists r, o = Return r /\ forall x, r = Some x -> provenance net b s x).
Proof.
  unfold Swapfinder.search_swap_agent, Swapfinder.failed.
  wp_run; world_simpl; (split; [reflexivity|]); (split; [reflexivity|]);
    eexists; (split; [reflexivity|]); intros x Hx;
    first [discriminate Hx | injection Hx as <-].
  all: match goal with
       | H : negb (_ =? 200) = false |- _ =>
           apply negb_false_iff in H; apply Z.eqb_eq in H
       end.
  all: match goal with
       | H : Swapfinder.query_llm _ = Some _ |- _ =>
           apply query_llm_some in H; destruct H as [Hkey Hai]
       end.
  all: unfold provenance; do 3 eexists;
    repeat (split; [first [eassumption | discriminate]|]).
  - left. apply named_some. assumption.
  - right. split; [apply named_none; assumption|].
    split; [apply String.eqb_eq; assumption|].
    left. split; [apply String.eqb_eq; assumption | reflexivity].
  - right. split; [apply named_none; assumption|].
    split; [apply String.eqb_eq; assumption|].
    right. split; [apply String.eqb_eq; assumption | reflexivity].
Qed.

Lemma finder_run net sender msg w :
  wp (Swapfinder.handle_swap_request net sender msg) w
     (fun o w' =>
        calls w' = calls w /\ state w' = state w
        /\ (o = Return [(sender, no_agent_answer)]
            \/ exists a,
                 a <> ""
                 /\ provenance net (Messages.blockchain msg) (Messages.signal msg) a
                 /\ o = Return [(a, Messages.Request msg); (sender, forwarded_answer a)])).
Proof.
  unfold Swapfinder.handle_swap_request.
  apply wp_bind, wp_logger, wp_bind.
  apply (wp_conseq _ _ _ _ (search_run net _ _ _ _)).
  intros o w' (Hc & Hs & r & -> & Hp).
  destruct r as [a|]; [destruct (truthy a) eqn:Ht|]; wp_run; world_simpl;
    (split; [exact Hc|]); (split; [exact Hs|]).
  - right. exists a. split; [|split].
    + intros ->. discriminate Ht.
    + apply Hp. reflexivity.
    + reflexivity.
  - left. reflexivity.
  - left. reflexivity.
Qed.

(** X18.  [search_swap_agent] raises nothing and asks nothing of the
    ledger.  An address it returns has this provenance: the agent search
    answered 200 with a non-empty list, the completion API has a key and
    answered, and either the address is one of the list that occurs in
    the answer, or no address of the list occurs in it and the address is
    the one wired in for [base] and the direction.  So the wired-in
    addresses do not stand in for a search or a completion that failed. *)
Theorem found_agent_is_listed_or_wired (net : Swapfinder.internet)
  (blockchain signal : string) (amount : float) (w : world) :
  calls (after (Swapfinder.search_swap_agent net blockchain signal amount) w) = calls w
  /\ state (after (Swapfinder.search_swap_agent net blockchain signal amount) w)
     = state w
  /\ exists r,
       result (Swapfinder.search_swap_agent net blockchain signal amount) w = Return r
       /\ forall a, r = Some a -> provenance net blockchain signal a.
Proof. exact (search_run net blockchain signal amount w). Qed.

(** The wired-in address, when the completion names no listed agent;
    and nothing, for the same request, without a key for the API. *)
Example wired_in_address :
  result (Swapfinder.search_swap_agent directory "Base" "SELL" 0.5) mining
  = Return (Some Swapfinder.SELL_AGENT)
  /\ result (Swapfinder.search_swap_agent keyless "Base" "SELL" 0.5) mining
     = Return None.
Proof. split; vm_compute; reflexivity. Qed.


Example request_forwarded :
  result (Swapfinder.handle_swap_request directory "requester" sell_request) mining
  = Return [ (Swapfinder.SELL_AGENT, Messages.Request sell_request);
             ("requester", forwarded_answer Swapfinder.SELL_AGENT) ]
  /\ result (Swapfinder.handle_swap_request keyless "requester" sell_request) mining
     = Return [("requester", no_agent_answer)].
Proof. split; vm_compute; reflexivity. Qed.
